(** * go-blueprint: the product list endpoint, its cursors and its error mapping

    A shallow embedding of the Go code of the blueprint's [internal/api]
    and [internal/repository] packages, with the properties its
    specification states about them.

    Conventions of the embedding
    - a Go [int] is a [Z]; the one arithmetic operation of the code,
      [filter.Limit+1], is written with its 64-bit wrap-around;
    - a Go [string] is a [string] (a sequence of bytes);
    - a pointer that is only tested against [nil] and read is an [option];
    - a [map[string]string] is an [option (gmap string string)], [None] being
      the nil map;
    - a function returning [(T, error)] returns a [result T]; a function that
      can hit a run-time panic returns in [go];
    - a repository method runs in the monad [M], which threads the list of
      statements sent to the store;
    - a method that creates, reads, updates or deletes one product runs in
      the monad [T], which threads the product statements in the same way
      and lets the store's answer depend on the statements sent before.

    The sources hold [ListWithFilters] in four versions: the Go source over
    the paginated query ([repository]), the Go source over the [:many] query
    ([repository_many]), and the two methods printed in the database guide
    ([docs_many], [docs_paginated]). Package [generated] is produced by the
    code generator and is not among the sources: its functions are
    parameters of the methods that call them. *)

From Stdlib Require Import ZArith Lia Bool Ascii String List.
From stdpp Require Import base option list strings gmap.

Local Open Scope string_scope.
Local Open Scope Z_scope.

(** ** Go integers *)

Module GoInt.

Definition maxInt : Z := 2 ^ 63 - 1.
Definition minInt : Z := - 2 ^ 63.

(** Two's complement wrap-around of a 64-bit [int]. *)
Definition wrap (z : Z) : Z := (z + 2 ^ 63) mod 2 ^ 64 - 2 ^ 63.

Definition add (a b : Z) : Z := wrap (a + b).

Definition inRange (z : Z) : bool := (minInt <=? z) && (z <=? maxInt).

End GoInt.

(** ** The parts of package [strings] and [strconv] the handlers call *)

Module strings.

Definition isUpper (c : ascii) : bool :=
  (65 <=? nat_of_ascii c)%nat && (nat_of_ascii c <=? 90)%nat.

Definition toLowerByte (c : ascii) : ascii :=
  if isUpper c then ascii_of_nat (nat_of_ascii c + 32) else c.

(** [strings.ToLower] on the bytes of the string. Go folds by Unicode code
    point; on the letters [A]-[Z] that is this map, every other ASCII byte
    is kept, and no code point outside ASCII folds to a letter of the words
    that [sanitizeErrorMessage] searches for. *)
Fixpoint ToLower (s : string) : string :=
  match s with
  | EmptyString => EmptyString
  | String c s' => String (toLowerByte c) (ToLower s')
  end.

Definition HasPrefix (s prefix : string) : bool := String.prefix prefix s.

(** [strings.Contains]: [substr] starts at some index of [s]. *)
Fixpoint Contains (s substr : string) : bool :=
  HasPrefix s substr ||
  match s with
  | EmptyString => false
  | String _ s' => Contains s' substr
  end.

End strings.

Module strconv.

Definition digit (c : ascii) : option Z :=
  let n := nat_of_ascii c in
  if (48 <=? n)%nat && (n <=? 57)%nat then Some (Z.of_nat n - 48) else None.

(** The digits of [s] read in base 10 on top of [acc]; [None] on a byte
    that is not a digit. *)
Fixpoint digits (s : string) (acc : Z) : option Z :=
  match s with
  | EmptyString => Some acc
  | String c s' =>
      match digit c with
      | Some d => digits s' (acc * 10 + d)
      | None => None
      end
  end.

(** [strconv.Atoi]: an optional sign and at least one decimal digit, the
    value within the range of [int]; [None] stands for a non-nil error. *)
Definition Atoi (s : string) : option Z :=
  match s with
  | EmptyString => None
  | String c s' =>
      let '(neg, body) :=
        if Ascii.eqb c "-" then (true, s')
        else if Ascii.eqb c "+" then (false, s')
        else (false, s) in
      match body with
      | EmptyString => None
      | _ =>
          match digits body 0 with
          | Some n =>
              let v := if neg then - n else n in
              if GoInt.inRange v then Some v else None
          | None => None
          end
      end
  end.

End strconv.

(** ** Results of Go calls *)

(** The run-time panics the modelled code can hit. *)
Inductive runtimeError : Type :=
| NilDereference     (* invalid memory address or nil pointer dereference *)
| SliceBounds.       (* slice bounds out of range *)

(** A Go computation either returns or panics. *)
Inductive go (A : Type) : Type :=
| Returns (a : A)
| Panics (p : runtimeError).
Arguments Returns {A} a.
Arguments Panics {A} p.

Definition go_bind {A B : Type} (m : go A) (k : A -> go B) : go B :=
  match m with
  | Returns a => k a
  | Panics p => Panics p
  end.

(** A [time.Time], as an instant. *)
Definition Time : Type := Z.

(** ** Errors

    The dynamic types behind the [error] interface that the code creates,
    tests for or passes on. *)

(** Package [generated] is written by the code generator and is not part of
    the sources; its types are declared here by the fields the repository
    reads and writes. *)
Module generated.

(** [*generated.DatabaseError]. *)
Record DatabaseError : Type := {
  Entity : string;
  Detail : string;
  Operation : string
}.

(** A row of the product queries. [Metadata] is a [*json.RawMessage]. *)
Record Row : Type := {
  Id : string;
  Name : string;
  Description : option string;
  Active : bool;
  Metadata : option string;
  CreatedAt : Time;
  UpdatedAt : Time;
  DeletedAt : option Time
}.

(** [generated.PaginationParams]; an empty cursor string is no cursor. *)
Record PaginationParams : Type := {
  Limit : Z;
  NextCursor : string;
  BeforeCursor : string
}.

(** [*generated.PaginationResult[Row]]; its cursor fields are [NextCursor]
    and [BeforeCursor]. *)
Record PaginationResult : Type := {
  Items : list Row;
  HasMore : bool;
  HasPrevious : bool;
  ResultNextCursor : string;
  ResultBeforeCursor : string
}.

End generated.

Inductive error : Type :=
| NotFoundError (Resource ID : string)             (* *apperrors.NotFoundError *)
| ValidationError (Field Message : string)         (* *apperrors.ValidationError *)
| ConflictError (Resource Reason : string)         (* *apperrors.ConflictError *)
| OptimisticLockError (Resource ID : string)       (* *apperrors.OptimisticLockError *)
| ServiceUnavailableError (Message : string)       (* *apperrors.ServiceUnavailableError *)
| TimeoutError (Operation : string)                (* *apperrors.TimeoutError *)
| DatabaseError (d : generated.DatabaseError) (* *generated.DatabaseError *)
| errorString (text : string)                      (* errors.New(text), a sentinel *)
| wrapError (prefix : string) (err : error).       (* fmt.Errorf(prefix + "%w", err) *)

(** A call returning [(T, error)]. *)
Inductive result (A : Type) : Type :=
| Ok (a : A)
| Err (e : error).
Arguments Ok {A} a.
Arguments Err {A} e.

Module apperrors.

Definition NewNotFoundError (resource id : string) : error := NotFoundError resource id.
Definition NewValidationError (field message : string) : error := ValidationError field message.
Definition NewConflictError (resource reason : string) : error := ConflictError resource reason.
Definition NewOptimisticLockError (resource id : string) : error := OptimisticLockError resource id.
Definition NewServiceUnavailableError (message : string) : error := ServiceUnavailableError message.
Definition NewTimeoutError (operation : string) : error := TimeoutError operation.

(** The errors of package [apperrors]. *)
Definition isAppError (e : error) : bool :=
  match e with
  | NotFoundError _ _ | ValidationError _ _ | ConflictError _ _
  | OptimisticLockError _ _ | ServiceUnavailableError _ | TimeoutError _ => true
  | _ => false
  end.

End apperrors.

Module errors.

(** [errors.As(err, &dbErr)] for [dbErr *generated.DatabaseError]: the first
    error of that type on the chain of [err], [None] when the call reports
    false and leaves [dbErr] nil. *)
Fixpoint AsDatabaseError (err : error) : option generated.DatabaseError :=
  match err with
  | DatabaseError d => Some d
  | wrapError _ inner => AsDatabaseError inner
  | _ => None
  end.

(** [errors.As] for the four targets [handleServiceError] tries. *)
Fixpoint AsNotFoundError (err : error) : option (string * string) :=
  match err with
  | NotFoundError r i => Some (r, i)
  | wrapError _ inner => AsNotFoundError inner
  | _ => None
  end.

Fixpoint AsValidationError (err : error) : option (string * string) :=
  match err with
  | ValidationError f m => Some (f, m)
  | wrapError _ inner => AsValidationError inner
  | _ => None
  end.

Fixpoint AsConflictError (err : error) : option (string * string) :=
  match err with
  | ConflictError r m => Some (r, m)
  | wrapError _ inner => AsConflictError inner
  | _ => None
  end.

Fixpoint AsOptimisticLockError (err : error) : option (string * string) :=
  match err with
  | OptimisticLockError r i => Some (r, i)
  | wrapError _ inner => AsOptimisticLockError inner
  | _ => None
  end.

End errors.

(** The [Error] method. The text of a [*generated.DatabaseError] is computed
    by the generated package. *)
Section ErrorMethod.

Variable databaseErrorText : generated.DatabaseError -> string.

Fixpoint Error (e : error) : string :=
  match e with
  | NotFoundError r i =>
      if String.eqb i "" then r +:+ " not found" else r +:+ " not found: " +:+ i
  | ValidationError f m =>
      if String.eqb f "" then m else f +:+ ": " +:+ m
  | ConflictError r reason =>
      if String.eqb reason "" then r +:+ " conflict" else r +:+ " conflict: " +:+ reason
  | OptimisticLockError r i => r +:+ " has been modified: " +:+ i
  | ServiceUnavailableError m =>
      if String.eqb m "" then "service unavailable" else "service unavailable: " +:+ m
  | TimeoutError o =>
      if String.eqb o "" then "operation timed out" else "operation timed out: " +:+ o
  | DatabaseError d => databaseErrorText d
  | errorString t => t
  | wrapError prefix inner => prefix +:+ Error inner
  end.

End ErrorMethod.

(** ** Package [models] *)

Module models.

Record Product : Type := {
  ID : string;
  Name : string;
  Description : option string;
  Active : bool;
  Metadata : option (gmap string string);
  CreatedAt : Time;
  UpdatedAt : Time;
  DeletedAt : option Time
}.

Record ListProductsFilter : Type := {
  FilterActive : option bool;
  Limit : Z;
  StartingAfter : option string;
  EndingBefore : option string
}.

Record ListProductsResult : Type := {
  Products : list Product;
  HasMore : bool;
  NextCursor : option string;
  PrevCursor : option string
}.

End models.

(** ** Calls into the query layer

    Every statement sent to the store is recorded, in order, with its
    arguments. *)

(** Modelled from the spec: the query execution plan of the pagination
    planner, section 4.2. The generated package that builds it is not part of
    the sources. A cursor is the pair of the sort column's value and the
    tie-breaker's value of one row. *)
Inductive SortDirection : Type := ASC | DESC.

Inductive ComparisonOperator : Type := GreaterThan | LessThan.

Definition Cursor : Type := string * string.

Record Plan : Type := {
  comparison : option (ComparisonOperator * Cursor);
  physicalSortDirection : SortDirection;
  fetchLimit : Z
}.

Inductive Query : Type :=
(** the [:many] statement [ListProducts] with its four parameters *)
| CallListProducts (active : option bool) (limit : Z)
    (startingAfter endingBefore : option string)
(** the statement of a pagination plan, with the caller's filter *)
| ExecutePlan (active : option bool) (plan : Plan).

(** A repository or service method: from the calls made so far to the calls
    made after it and its outcome. *)
Definition M (A : Type) : Type := list Query -> list Query * go (result A).

Definition pure {A : Type} (a : A) : M A := fun tr => (tr, Returns (Ok a)).

(** [x, err := m; if err != nil { return nil, err }; k x] *)
Definition bind {A B : Type} (m : M A) (k : A -> M B) : M B :=
  fun tr =>
    match m tr with
    | (tr', Returns (Ok a)) => k a tr'
    | (tr', Returns (Err e)) => (tr', Returns (Err e))
    | (tr', Panics p) => (tr', Panics p)
    end.

Definition liftGo {A : Type} (g : go A) : M A :=
  fun tr => (tr, match g with Returns a => Returns (Ok a) | Panics p => Panics p end).

Definition liftResult {A : Type} (r : result A) : M A := fun tr => (tr, Returns r).

(** A statement sent to the store, with the store's answer [r]. *)
Definition call {A : Type} (q : Query) (r : result A) : M A :=
  fun tr => ((tr ++ [q])%list, Returns r).

Definition run {A : Type} (m : M A) : list Query * go (result A) := m [].

Declare Scope go_scope.
Delimit Scope go_scope with go.
Notation "x <~ m ;; k" := (bind m (fun x => k))
  (at level 100, m at next level, right associativity) : go_scope.
Local Open Scope go_scope.

(** [s[:hi]] on a slice whose capacity is its length. *)
Definition sliceTo {A : Type} (s : list A) (hi : Z) : go (list A) :=
  if (0 <=? hi) && (hi <=? Z.of_nat (length s))
  then Returns (take (Z.to_nat hi) s)
  else Panics SliceBounds.

(** [*p] *)
Definition deref {A : Type} (p : option A) : go A :=
  match p with
  | Some a => Returns a
  | None => Panics NilDereference
  end.

(** [len(s)] of a byte string, as a Go [int]. *)
Definition len (s : string) : Z := Z.of_nat (String.length s).

(** ** Rows to products

    The loop body shared by every version of [ListWithFilters]:
    [json.Unmarshal] is applied to a metadata column that is neither NULL nor
    empty, and its error ends the method. *)

Section Metadata.

(** [json.Unmarshal(data, &metadata)] into a nil [map[string]string]. *)
Variable Unmarshal : string -> result (option (gmap string string)).

Definition decodeMetadata (raw : option string) : result (option (gmap string string)) :=
  match raw with
  | Some data =>
      if 0 <? len data then
        match Unmarshal data with
        | Ok metadata => Ok metadata
        | Err err => Err (wrapError "unmarshal metadata: " err)
        end
      else Ok None
  | None => Ok None
  end.

(** The body with [DeletedAt] copied (the Go sources). *)
Definition toProduct (item : generated.Row) : result models.Product :=
  match decodeMetadata (generated.Metadata item) with
  | Err err => Err err
  | Ok metadata =>
      Ok {| models.ID := generated.Id item;
            models.Name := generated.Name item;
            models.Description := generated.Description item;
            models.Active := generated.Active item;
            models.Metadata := metadata;
            models.CreatedAt := generated.CreatedAt item;
            models.UpdatedAt := generated.UpdatedAt item;
            models.DeletedAt := generated.DeletedAt item |}
  end.

(** The body of the documented versions, which leave [DeletedAt] nil. *)
Definition toProductDoc (item : generated.Row) : result models.Product :=
  match decodeMetadata (generated.Metadata item) with
  | Err err => Err err
  | Ok metadata =>
      Ok {| models.ID := generated.Id item;
            models.Name := generated.Name item;
            models.Description := generated.Description item;
            models.Active := generated.Active item;
            models.Metadata := metadata;
            models.CreatedAt := generated.CreatedAt item;
            models.UpdatedAt := generated.UpdatedAt item;
            models.DeletedAt := None |}
  end.

(** [for i, result := range results { ...; products[i] = &models.Product{...} }] *)
Fixpoint convertRows (body : generated.Row -> result models.Product)
    (results : list generated.Row) : result (list models.Product) :=
  match results with
  | [] => Ok []
  | item :: rest =>
      match body item with
      | Err err => Err err
      | Ok product =>
          match convertRows body rest with
          | Err err => Err err
          | Ok products => Ok (product :: products)
          end
      end
  end.

End Metadata.

(** [len(products)] *)
Definition count {A : Type} (s : list A) : Z := Z.of_nat (length s).

(** ** Package [repository], as documented over the [:many] query

    [ListWithFilters] of the database guide: the repository overfetches by
    one row and derives both cursors itself. *)

Module docs_many.
Section Repository.

Variable Unmarshal : string -> result (option (gmap string string)).
(** [r.queries.ListProducts(ctx, active, limit, startingAfter, endingBefore)] *)
Variable ListProducts :
  option bool -> Z -> option string -> option string -> result (list generated.Row).

Definition ListWithFilters (filter : models.ListProductsFilter)
    : M models.ListProductsResult :=
  let fetch := GoInt.add (models.Limit filter) 1 in
  results <~ call
    (CallListProducts (models.FilterActive filter) fetch
       (models.StartingAfter filter) (models.EndingBefore filter))
    (ListProducts (models.FilterActive filter) fetch
       (models.StartingAfter filter) (models.EndingBefore filter)) ;;
  let hasMore := models.Limit filter <? count results in
  results <~ (if hasMore then liftGo (sliceTo results (models.Limit filter))
              else pure results) ;;
  products <~ liftResult (convertRows (toProductDoc Unmarshal) results) ;;
  let nonEmpty := 0 <? count products in
  let nextCursor :=
    if nonEmpty && hasMore then models.ID <$> last products else None in
  let prevCursor :=
    if nonEmpty && bool_decide (models.StartingAfter filter <> None)
    then models.ID <$> head products else None in
  pure {| models.Products := products;
          models.HasMore := hasMore;
          models.NextCursor := nextCursor;
          models.PrevCursor := prevCursor |}.

End Repository.
End docs_many.

(** ** Package [repository] over the [:many] query (Go source)

    The same method in Go, which also offers a previous-page cursor on a
    backward page. *)

Module repository_many.
Section Repository.

Variable Unmarshal : string -> result (option (gmap string string)).
Variable ListProducts :
  option bool -> Z -> option string -> option string -> result (list generated.Row).

Definition ListWithFilters (filter : models.ListProductsFilter)
    : M models.ListProductsResult :=
  let fetch := GoInt.add (models.Limit filter) 1 in
  results <~ call
    (CallListProducts (models.FilterActive filter) fetch
       (models.StartingAfter filter) (models.EndingBefore filter))
    (ListProducts (models.FilterActive filter) fetch
       (models.StartingAfter filter) (models.EndingBefore filter)) ;;
  let hasMore := models.Limit filter <? count results in
  results <~ (if hasMore then liftGo (sliceTo results (models.Limit filter))
              else pure results) ;;
  products <~ liftResult (convertRows (toProduct Unmarshal) results) ;;
  let nonEmpty := 0 <? count products in
  let nextCursor :=
    if nonEmpty && hasMore then models.ID <$> last products else None in
  let prevCursor :=
    if nonEmpty && (bool_decide (models.StartingAfter filter <> None)
                    || bool_decide (models.EndingBefore filter <> None))
    then models.ID <$> head products else None in
  pure {| models.Products := products;
          models.HasMore := hasMore;
          models.NextCursor := nextCursor;
          models.PrevCursor := prevCursor |}.

End Repository.
End repository_many.

(** ** Package [repository], as documented over the [:paginated] query

    [ListWithFilters] of the database guide once the query is annotated
    [:paginated]: both cursors of the filter go into [PaginationParams] and
    the page comes back assembled. *)

Module docs_paginated.
Section Repository.

Variable Unmarshal : string -> result (option (gmap string string)).
(** [r.queries.ListProductsPaginated(ctx, active, params)] *)
Variable ListProductsPaginated :
  option bool -> generated.PaginationParams -> M generated.PaginationResult.

(** The result of the documented version: it has a [HasPrev] field, and the
    cursors of the generated page are copied as they are. *)
Record ListProductsResult : Type := {
  Products : list models.Product;
  HasMore : bool;
  HasPrev : bool;
  NextCursor : string;
  PrevCursor : string
}.

Definition ListWithFilters (filter : models.ListProductsFilter) : M ListProductsResult :=
  let params :=
    {| generated.Limit := models.Limit filter;
       generated.NextCursor := default "" (models.StartingAfter filter);
       generated.BeforeCursor := default "" (models.EndingBefore filter) |} in
  result <~ ListProductsPaginated (models.FilterActive filter) params ;;
  products <~ liftResult
    (convertRows (toProductDoc Unmarshal) (generated.Items result)) ;;
  pure {| Products := products;
          HasMore := generated.HasMore result;
          HasPrev := generated.HasPrevious result;
          NextCursor := generated.ResultNextCursor result;
          PrevCursor := generated.ResultBeforeCursor result |}.

End Repository.
End docs_paginated.

(** ** Package [repository] (Go source) *)

Module repository.

(** *** helpers.go *)

Section Helpers.

(** Dynamic values of any type other than [map[string]string]. *)
Variable Dyn : Type.

(** The argument [v any] of [marshalToRawMessage]. *)
Inductive any : Type :=
| nilInterface                                   (* v == nil *)
| stringMap (m : option (gmap string string))    (* dynamic type map[string]string *)
| dynamic (d : Dyn).                             (* any other dynamic type *)

(** [len(m)] of a map; the nil map has length 0. *)
Definition lenMap (m : option (gmap string string)) : Z :=
  match m with
  | Some entries => Z.of_nat (size entries)
  | None => 0
  end.

(** [json.Marshal] *)
Variable Marshal : any -> result string.

Definition marshalToRawMessage (v : any) : result (option string) :=
  match v with
  | nilInterface => Ok None
  | _ =>
      (* m, ok := v.(map[string]string); ok && len(m) == 0 *)
      let emptyMap :=
        match v with
        | stringMap m => lenMap m =? 0
        | _ => false
        end in
      if emptyMap then Ok None
      else
        match Marshal v with
        | Err err => Err (wrapError "marshal metadata: " err)
        | Ok data => Ok (Some data)
        end
  end.

End Helpers.

(** *** product_repository.go *)

Section Repository.

Variable Unmarshal : string -> result (option (gmap string string)).
(** [r.queries.ListProductsPaginated(ctx, active, limit, cursor)], which
    returns the rows and the next cursor. *)
Variable ListProductsPaginated :
  option bool -> Z -> option string -> M (list generated.Row * option string).

Definition ListWithFilters (filter : models.ListProductsFilter)
    : M models.ListProductsResult :=
  let cursor :=
    match models.StartingAfter filter with
    | Some c => Some c
    | None => None
    end in
  page <~ ListProductsPaginated
    (models.FilterActive filter) (models.Limit filter) cursor ;;
  let '(results, nextCursor) := page in
  products <~ liftResult (convertRows (toProduct Unmarshal) results) ;;
  let hasMore := bool_decide (nextCursor <> None) in
  let prevCursor :=
    if bool_decide (cursor <> None) && (0 <? count products)
    then models.ID <$> head products else None in
  pure {| models.Products := products;
          models.HasMore := hasMore;
          models.NextCursor := nextCursor;
          models.PrevCursor := prevCursor |}.

End Repository.

Section TranslateError.

(** The category predicates of package [generated]. *)
Variables IsNotFound IsAlreadyExists IsInvalidReference IsValidationError
  IsConnectionError IsTimeout IsDatabaseError : error -> bool.

(** [err] is [None] for the nil error; so is the returned error. A field of
    [dbErr] is read through the pointer that [errors.As] set or left nil. *)
Definition translateError (err : option error) : go (option error) :=
  match err with
  | None => Returns None
  | Some err =>
      let dbErr := errors.AsDatabaseError err in
      if IsNotFound err then
        go_bind (deref dbErr) (fun d =>
          Returns (Some (apperrors.NewNotFoundError (generated.Entity d) "")))
      else if IsAlreadyExists err then
        go_bind (deref dbErr) (fun d =>
          Returns (Some (apperrors.NewConflictError (generated.Entity d) "already exists")))
      else if IsInvalidReference err then
        go_bind (deref dbErr) (fun d =>
          Returns (Some (apperrors.NewConflictError (generated.Entity d)
                           "referenced resource does not exist")))
      else if IsValidationError err then
        go_bind (deref dbErr) (fun d =>
          Returns (Some (apperrors.NewValidationError "" (generated.Detail d))))
      else if IsConnectionError err then
        Returns (Some (apperrors.NewServiceUnavailableError "database connection error"))
      else if IsTimeout err then
        go_bind (deref dbErr) (fun d =>
          Returns (Some (apperrors.NewTimeoutError (generated.Operation d))))
      else if IsDatabaseError err then
        Returns (Some (apperrors.NewServiceUnavailableError "database error"))
      else
        Returns (Some (apperrors.NewServiceUnavailableError "unexpected error"))
  end.

End TranslateError.

End repository.

(** ** Package [service] *)

Module service.

(** [ProductService.ListProducts] hands the filter to the repository. *)
Definition ListProducts
    (repo : models.ListProductsFilter -> M models.ListProductsResult)
    (filter : models.ListProductsFilter) : M models.ListProductsResult :=
  repo filter.

End service.

(** ** Package [api] *)

Module api.

(** [url.Values]: the query parameters in order; [Get] is the first value of
    a key, or the empty string. *)
Definition Values : Type := list (string * string).

Definition Get (query : Values) (key : string) : string :=
  match List.find (fun kv => String.eqb (fst kv) key) query with
  | Some kv => snd kv
  | None => ""
  end.

(** *** The product document *)

Record ProductResponse : Type := {
  ID : string;
  Name : string;
  Description : string;
  Active : bool;
  Metadata : option (gmap string string);
  CreatedAt : string;
  UpdatedAt : string
}.

(** *** The response documents *)

Record ListResponse : Type := {
  Data : list ProductResponse;
  HasMore : bool;
  NextCursor : string;
  PrevCursor : string
}.

Record ErrorDetail : Type := {
  Type_ : string;
  Code : string;
  Message : string;
  Param : string
}.

Record ErrorResponse : Type := {
  ErrorOf : ErrorDetail
}.

Definition NewListResponse (data : list ProductResponse) (hasMore : bool)
    (nextCursor prevCursor : string) : ListResponse :=
  {| Data := data; HasMore := hasMore; NextCursor := nextCursor; PrevCursor := prevCursor |}.

(** What a handler writes: the status line and the JSON document. *)
Inductive Document : Type :=
| ListDocument (r : ListResponse)
| ErrorDocument (r : ErrorResponse).

Record Response : Type := {
  StatusCode : Z;
  Payload : Document
}.

Definition StatusOK : Z := 200.
Definition StatusBadRequest : Z := 400.
Definition StatusNotFound : Z := 404.
Definition StatusConflict : Z := 409.
Definition StatusInternalServerError : Z := 500.

Section Api.

(** The text of a [*generated.DatabaseError]. *)
Variable databaseErrorText : generated.DatabaseError -> string.
(** [t.Format(time.RFC3339)] *)
Variable formatRFC3339 : Time -> string.

Definition NewErrorResponse (httpStatusCode : Z) (err : option error)
    (message param : string) : ErrorResponse :=
  let errorType :=
    if (400 <=? httpStatusCode) && (httpStatusCode <? 500)
    then "invalid_request_error" else "api_error" in
  let errorCode :=
    match err with
    | Some e => Error databaseErrorText e
    | None => "unknown_error"
    end in
  {| ErrorOf := {| Type_ := errorType; Code := errorCode;
                   Message := message; Param := param |} |}.

(** *** Rendering *)

Definition renderJSON (statusCode : Z) (data : Document) : Response :=
  {| StatusCode := statusCode; Payload := data |}.

Definition sanitizeErrorMessage (message : string) (statusCode : Z) : string :=
  let lowerMsg := strings.ToLower message in
  if strings.Contains lowerMsg "sql"
     || strings.Contains lowerMsg "database"
     || strings.Contains lowerMsg "postgres"
  then
    if 500 <=? statusCode then "An internal error occurred" else "Invalid request"
  else if 500 <=? statusCode then "An internal error occurred"
  else message.

(** The error is also added to the request's log line, which is not part of
    the response. *)
Definition renderError (statusCode : Z) (err : option error)
    (message param : string) : Response :=
  let sanitizedMessage := sanitizeErrorMessage message statusCode in
  renderJSON statusCode
    (ErrorDocument (NewErrorResponse statusCode err sanitizedMessage param)).

Definition List (data : list ProductResponse) (hasMore : bool)
    (nextCursor prevCursor : string) : Response :=
  renderJSON StatusOK (ListDocument (NewListResponse data hasMore nextCursor prevCursor)).

Definition BadRequest (err : option error) (message param : string) : Response :=
  renderError StatusBadRequest err message param.

Definition NotFound (err : option error) (message : string) : Response :=
  renderError StatusNotFound err message "".

Definition InternalError (err : option error) (message : string) : Response :=
  renderError StatusInternalServerError err message "".

Definition ConflictError (err : option error) (message : string) : Response :=
  renderError StatusConflict err message "".

(** *** Service errors *)

Definition handleServiceError (err : error) : Response :=
  match errors.AsNotFoundError err with
  | Some _ => NotFound (Some err) (Error databaseErrorText err)
  | None =>
  match errors.AsValidationError err with
  | Some validationErr =>
      BadRequest (Some err) (Error databaseErrorText err) (fst validationErr)
  | None =>
  match errors.AsConflictError err with
  | Some _ => ConflictError (Some err) (Error databaseErrorText err)
  | None =>
  match errors.AsOptimisticLockError err with
  | Some _ =>
      ConflictError (Some err) "resource has been modified, please refresh and try again"
  | None => InternalError (Some err) "internal server error"
  end end end end.

(** *** The list handler *)

Definition ptrOrNil (s : string) : option string :=
  if String.eqb s "" then None else Some s.

Definition convertToProductResponse (product : models.Product) : ProductResponse :=
  let description :=
    match models.Description product with
    | Some d => d
    | None => ""
    end in
  {| ID := models.ID product;
     Name := models.Name product;
     Description := description;
     Active := models.Active product;
     Metadata := models.Metadata product;
     CreatedAt := formatRFC3339 (models.CreatedAt product);
     UpdatedAt := formatRFC3339 (models.UpdatedAt product) |}.

(** The page size read from the [limit] parameter. *)
Definition queryLimit (query : Values) : Z :=
  let limit := 10 in
  let l := Get query "limit" in
  if negb (String.eqb l "") then
    match strconv.Atoi l with
    | Some parsed => if (0 <? parsed) && (parsed <=? 100) then parsed else limit
    | None => limit
    end
  else limit.

Definition queryActive (query : Values) : option bool :=
  let a := Get query "active" in
  if negb (String.eqb a "") then Some (String.eqb a "true") else None.

(** The filter of [ListProducts]: [starting_after] is the only cursor read,
    so [EndingBefore] keeps its zero value. *)
Definition listFilter (query : Values) : models.ListProductsFilter :=
  {| models.FilterActive := queryActive query;
     models.Limit := queryLimit query;
     models.StartingAfter := ptrOrNil (Get query "starting_after");
     models.EndingBefore := None |}.

(** The cursor strings handed to [List]: a nil cursor is the empty string. *)
Definition cursorString (cursor : option string) : string :=
  match cursor with
  | Some c => c
  | None => ""
  end.

(** The response for a page or an error of the service. *)
Definition listResponse (outcome : result models.ListProductsResult) : Response :=
  match outcome with
  | Err err => handleServiceError err
  | Ok result =>
      let responses := convertToProductResponse <$> models.Products result in
      List responses (models.HasMore result)
        (cursorString (models.NextCursor result))
        (cursorString (models.PrevCursor result))
  end.

(** [Handler.ListProducts] over a product service. *)
Definition ListProducts
    (productSvc : models.ListProductsFilter -> M models.ListProductsResult)
    (query : Values) : list Query -> list Query * go Response :=
  fun tr =>
    match productSvc (listFilter query) tr with
    | (tr', Returns outcome) => (tr', Returns (listResponse outcome))
    | (tr', Panics p) => (tr', Panics p)
    end.



End Api.

End api.

(** ** The [:many] statement of products.sql

    [[
    SELECT ... FROM products
    WHERE deleted_at IS NULL
      AND ($1::boolean IS NULL OR active = $1)
      AND ($3::text IS NULL OR id > $3)
      AND ($4::text IS NULL OR id < $4)
    ORDER BY id ASC
    LIMIT $2;
    ]]
    evaluated over the rows of the table. Text is compared byte by byte (the
    C collation); a negative LIMIT is an error of the store. *)

Module sql.

Definition matches (active : option bool) (startingAfter endingBefore : option string)
    (row : generated.Row) : bool :=
  bool_decide (generated.DeletedAt row = None)
  && match active with
     | Some a => Bool.eqb (generated.Active row) a
     | None => true
     end
  && match startingAfter with
     | Some c => String.ltb c (generated.Id row)
     | None => true
     end
  && match endingBefore with
     | Some c => String.ltb (generated.Id row) c
     | None => true
     end.

Fixpoint insertById (row : generated.Row) (sorted : list generated.Row)
    : list generated.Row :=
  match sorted with
  | [] => [row]
  | r :: rest =>
      if String.leb (generated.Id row) (generated.Id r)
      then row :: r :: rest
      else r :: insertById row rest
  end.

Definition orderById (rows : list generated.Row) : list generated.Row :=
  foldr insertById [] rows.

Definition ListProducts (table : list generated.Row)
    (active : option bool) (limit : Z) (startingAfter endingBefore : option string)
    : result (list generated.Row) :=
  if limit <? 0 then Err (errorString "LIMIT must not be negative")
  else
    Ok (take (Z.to_nat limit)
          (orderById (List.filter (matches active startingAfter endingBefore) table))).

End sql.

(** ** The paginated query function *)

(** Modelled from the spec: the function [ListProductsPaginated] of package
    [generated], which is written by the code generator and is not part of
    the sources. It is the engine of sections 4.1 to 4.3 of the
    specification: the cursor codec decodes the caller's cursor, the planner
    validates the request and builds the plan, the store runs the plan, and
    the assembler trims the overfetched row and derives flags and cursors.
    The transport format of a cursor is left open by the specification and
    is a parameter here. *)
Module paginated.
Section Engine.

Variable maxLimit : Z.
(** [SortSpec.direction] of the query. *)
Variable sortDirection : SortDirection.
(** The tuple a cursor string stands for, if it has the shape of one. *)
Variable parseCursor : string -> option Cursor.
Variable encode : Cursor -> string.
(** The sort key and tie-breaker of a row. *)
Variable cursorOf : generated.Row -> Cursor.
(** The store: up to [fetchLimit] rows in the plan's physical order. *)
Variable store : option bool -> Plan -> result (list generated.Row).

(** Modelled from the spec: the two errors of the engine's own, section 7;
    the generated package that declares them is not part of the sources. *)
Definition MalformedCursorError : error := errorString "malformed cursor".

Definition PaginationValidationError : error := errorString "invalid pagination request".

(** Modelled from the spec: [decode] of the cursor codec, section 4.1, which
    is not part of the sources. It fails with a [MalformedCursorError] when
    the string cannot be parsed into the expected tuple shape. *)
Definition decode (s : string) : result Cursor :=
  match parseCursor s with
  | Some c => Ok c
  | None => Err MalformedCursorError
  end.

Definition decodeOptional (s : option string) : result (option Cursor) :=
  match s with
  | None => Ok None
  | Some text =>
      match decode text with
      | Ok c => Ok (Some c)
      | Err e => Err e
      end
  end.

Record PaginationRequest : Type := {
  limit : Z;
  nextCursor : option Cursor;
  beforeCursor : option Cursor
}.

Record PaginationResult : Type := {
  items : list generated.Row;
  hasMore : bool;
  hasPrevious : bool;
  resultNextCursor : option Cursor;
  resultBeforeCursor : option Cursor
}.

Inductive LogicalDirection : Type := forward | backward.

Definition invert (d : SortDirection) : SortDirection :=
  match d with ASC => DESC | DESC => ASC end.

Definition logicalDirection (req : PaginationRequest) : LogicalDirection :=
  match beforeCursor req with
  | Some _ => backward
  | None => forward
  end.

(** Modelled from the spec: the pagination planner, section 4.2, steps 1 to
    6, which is not part of the sources. The clamped limit is returned with
    the plan. *)
Definition planner (req : PaginationRequest) : result (Z * Plan) :=
  if bool_decide (nextCursor req <> None) && bool_decide (beforeCursor req <> None)
  then Err PaginationValidationError
  else if limit req <=? 0 then Err PaginationValidationError
  else
    let limit := if maxLimit <? limit req then maxLimit else limit req in
    let direction := logicalDirection req in
    let operator :=
      match direction, sortDirection with
      | forward, ASC => GreaterThan
      | forward, DESC => LessThan
      | backward, ASC => LessThan
      | backward, DESC => GreaterThan
      end in
    let physical :=
      match direction with
      | forward => sortDirection
      | backward => invert sortDirection
      end in
    let cursor :=
      match direction with
      | forward => nextCursor req
      | backward => beforeCursor req
      end in
    Ok (limit,
        {| comparison := (fun c => (operator, c)) <$> cursor;
           physicalSortDirection := physical;
           fetchLimit := limit + 1 |}).

(** Modelled from the spec: the result assembler, section 4.3, steps 1 to 5,
    which is not part of the sources. *)
Definition assembler (limit : Z) (plan : Plan) (req : PaginationRequest)
    (rows : list generated.Row) : PaginationResult :=
  let hasExtra := count rows =? fetchLimit plan in
  let trimmed := if hasExtra then take (Z.to_nat limit) rows else rows in
  let direction := logicalDirection req in
  let items :=
    match direction with
    | forward => trimmed
    | backward => rev trimmed
    end in
  let hasMore :=
    match direction with
    | forward => hasExtra
    | backward => true
    end in
  let hasPrevious :=
    match direction with
    | forward =>
        bool_decide (nextCursor req <> None) || bool_decide (beforeCursor req <> None)
    | backward => hasExtra
    end in
  {| items := items;
     hasMore := hasMore;
     hasPrevious := hasPrevious;
     resultNextCursor := if hasMore then cursorOf <$> last items else None;
     resultBeforeCursor := if hasPrevious then cursorOf <$> head items else None |}.

(** Modelled from the spec: the paginated form of a query, sections 2 and 6,
    which is not part of the sources. Decode and validation come before the
    one store call (section 7). *)
Definition paginate (active : option bool) (limit : Z)
    (next before : option string) : M PaginationResult :=
  nextCursor <~ liftResult (decodeOptional next) ;;
  beforeCursor <~ liftResult (decodeOptional before) ;;
  let req := {| limit := limit; nextCursor := nextCursor; beforeCursor := beforeCursor |} in
  planned <~ liftResult (planner req) ;;
  let '(limit, plan) := planned in
  rows <~ call (ExecutePlan active plan) (store active plan) ;;
  pure (assembler limit plan req rows).

(** Modelled from the spec: the generated entry point, which is not part of
    the sources, by the signature the repository calls it with and the
    engine above: one optional forward cursor in, the
    rows and the encoded next cursor out. *)
Definition ListProductsPaginated (active : option bool) (limit : Z)
    (cursor : option string) : M (list generated.Row * option string) :=
  page <~ paginate active limit cursor None ;;
  pure (items page, encode <$> resultNextCursor page).

(** Modelled from the spec: the generated entry point of the documented
    method, which is not part of the sources, by the signature the guide
    gives it and the engine above: [PaginationParams] in, with an empty
    cursor string for no cursor, and the assembled page with its cursors
    encoded out. *)
Definition ListProductsPaginatedParams (active : option bool)
    (params : generated.PaginationParams) : M generated.PaginationResult :=
  let supplied (s : string) := if String.eqb s "" then None else Some s in
  page <~ paginate active (generated.Limit params)
            (supplied (generated.NextCursor params))
            (supplied (generated.BeforeCursor params)) ;;
  pure {| generated.Items := items page;
          generated.HasMore := hasMore page;
          generated.HasPrevious := hasPrevious page;
          generated.ResultNextCursor := default "" (encode <$> resultNextCursor page);
          generated.ResultBeforeCursor := default "" (encode <$> resultBeforeCursor page) |}.

End Engine.
End paginated.

(** ** Vocabulary of the properties *)

(** A message mentions [word] when some part of it is [word] up to the case
    of its letters. *)
Definition mentions (word message : string) : Prop :=
  exists pre mid post : string,
    message = pre +:+ (mid +:+ post) /\ strings.ToLower mid = word.

(** The messages [sanitizeErrorMessage] withholds. *)
Definition sensitive (message : string) : Prop :=
  mentions "sql" message \/ mentions "database" message \/ mentions "postgres" message.

(** The message of an error response. *)
Definition sentMessage (r : api.Response) : option string :=
  match api.Payload r with
  | api.ErrorDocument e => Some (api.Message (api.ErrorOf e))
  | api.ListDocument _ => None
  end.

(** The values that are neither the nil interface nor a [map[string]string]
    without entries. *)
Definition storedAsJSON {Dyn : Type} (v : repository.any Dyn) : Prop :=
  match v with
  | repository.nilInterface _ => False
  | repository.stringMap _ m => repository.lenMap m <> 0
  | repository.dynamic _ _ => True
  end.

(** What a run leaves: the statements sent to the store, and the outcome. *)
Definition statements {A : Type} (r : list Query * go A) : list Query := fst r.

Definition outcome {A : Type} (r : list Query * go A) : go A := snd r.

(** The list document of a response, if it is one. *)
Definition listDocument (r : api.Response) : option api.ListResponse :=
  match api.Payload r with
  | api.ListDocument l => Some l
  | api.ErrorDocument _ => None
  end.

(** The metadata column of a row is NULL, empty, or decodes. *)
Definition decodable (Unmarshal : string -> result (option (gmap string string)))
    (row : generated.Row) : Prop :=
  exists metadata, decodeMetadata Unmarshal (generated.Metadata row) = Ok metadata.

(** The statement [ListWithFilters] sends over the [:many] query, and the
    rows it keeps once the overfetched one is cut. *)
Definition manyStatement (filter : models.ListProductsFilter) : Query :=
  CallListProducts (models.FilterActive filter) (GoInt.add (models.Limit filter) 1)
    (models.StartingAfter filter) (models.EndingBefore filter).

Definition kept (filter : models.ListProductsFilter) (rows : list generated.Row)
    : list generated.Row :=
  if models.Limit filter <? count rows
  then take (Z.to_nat (models.Limit filter)) rows else rows.

(** The page assembled from the rows the store returned for [limit + 1]:
    with the extra row, [HasMore] is set and the items are the first [limit]
    rows; without it, [HasMore] is clear and the items are all the rows. *)
Definition overfetchPage (body : generated.Row -> result models.Product)
    (limit : Z) (rows : list generated.Row) (page : models.ListProductsResult) : Prop :=
  (count rows = limit + 1 ->
     models.HasMore page = true
     /\ count (models.Products page) = limit
     /\ Forall2 (fun row product => body row = Ok product)
          (take (Z.to_nat limit) rows) (models.Products page))
  /\ (count rows <= limit ->
     models.HasMore page = false
     /\ Forall2 (fun row product => body row = Ok product)
          rows (models.Products page)).

(** The cursors of an assembled page, read off its boundary items: none on
    an empty page; otherwise the next cursor is the id of the last item when
    [HasMore] is set and absent when it is clear, and the previous-page cursor
    is the id of the first item when [hasPrevious] holds and absent when it
    does not. *)
Definition boundaryCursors (hasPrevious : bool) (page : models.ListProductsResult)
    : Prop :=
  (models.Products page = [] ->
     models.NextCursor page = None /\ models.PrevCursor page = None)
  /\ (forall first lastItem : models.Product,
       head (models.Products page) = Some first ->
       last (models.Products page) = Some lastItem ->
       models.NextCursor page
       = (if models.HasMore page then Some (models.ID lastItem) else None)
       /\ models.PrevCursor page
          = (if hasPrevious then Some (models.ID first) else None)).

(** The same for the previous-page cursor alone. *)
Definition previousCursor (hasPrevious : bool) (page : models.ListProductsResult)
    : Prop :=
  (models.Products page = [] -> models.PrevCursor page = None)
  /\ (forall first : models.Product,
       head (models.Products page) = Some first ->
       models.PrevCursor page
       = (if hasPrevious then Some (models.ID first) else None)).

(** Whether the request carries a cursor, as each version tests it. *)
Definition startingAfterGiven (filter : models.ListProductsFilter) : bool :=
  bool_decide (models.StartingAfter filter <> None).

Definition anyCursorGiven (filter : models.ListProductsFilter) : bool :=
  bool_decide (models.StartingAfter filter <> None)
  || bool_decide (models.EndingBefore filter <> None).

(** The rows kept, or the panic of the slice expression. *)
Definition trimmed (filter : models.ListProductsFilter) (rows : list generated.Row)
    : go (list generated.Row) :=
  if models.Limit filter <? count rows then sliceTo rows (models.Limit filter)
  else Returns rows.

(** The status of the response a handler wrote, unless it panicked. *)
Definition statusOf (r : list Query * go api.Response) : option Z :=
  match snd r with
  | Returns response => Some (api.StatusCode response)
  | Panics _ => None
  end.


(** Whether [translateError] reaches a case that reads a field of [dbErr]:
    the first category predicate that holds is one of [IsNotFound],
    [IsAlreadyExists], [IsInvalidReference], [IsValidationError] and
    [IsTimeout]. *)
Definition readsDatabaseError
    (IsNotFound IsAlreadyExists IsInvalidReference IsValidationError
       IsConnectionError IsTimeout : error -> bool) (err : error) : bool :=
  if IsNotFound err then true
  else if IsAlreadyExists err then true
  else if IsInvalidReference err then true
  else if IsValidationError err then true
  else if IsConnectionError err then false
  else IsTimeout err.

(** ** A table of five products and stand-ins for the libraries

    The table of the specification's example, a [json.Unmarshal] that knows
    two documents, and category predicates that match a sentinel error. *)

Module example.

Definition product (id : string) : generated.Row :=
  {| generated.Id := id;
     generated.Name := "Widget";
     generated.Description := None;
     generated.Active := true;
     generated.Metadata := None;
     generated.CreatedAt := 0;
     generated.UpdatedAt := 0;
     generated.DeletedAt := None |}.

Definition table : list generated.Row :=
  [product "prod_003"; product "prod_001"; product "prod_005";
   product "prod_002"; product "prod_004"].

Definition Unmarshal (data : string) : result (option (gmap string string)) :=
  if String.eqb data "{}" then Ok (Some ∅)
  else if String.eqb data "null" then Ok None
  else Err (errorString "invalid character").

Definition databaseErrorText (d : generated.DatabaseError) : string :=
  generated.Operation d +:+ " " +:+ generated.Entity d +:+ ": " +:+ generated.Detail d.

Definition formatRFC3339 (t : Time) : string := "1970-01-01T00:00:00Z".

(** [errors.Is(err, sentinel)] for a sentinel made by [errors.New]. *)
Fixpoint Is (sentinel : string) (err : error) : bool :=
  match err with
  | errorString text => String.eqb text sentinel
  | wrapError _ inner => Is sentinel inner
  | _ => false
  end.

Definition ErrNotFound : error := errorString "not found".

Definition never (err : error) : bool := false.

(** A cursor format for the paginated query function: the row id, with its
    prefix. *)
Definition parseCursor (s : string) : option Cursor :=
  if strings.HasPrefix s "prod_" then Some (s, s) else None.

Definition encode (c : Cursor) : string := fst c.

Definition cursorOf (row : generated.Row) : Cursor := (generated.Id row, generated.Id row).

Definition emptyStore (active : option bool) (plan : Plan) : result (list generated.Row) :=
  Ok [].

(** A store over the table for the plans of the query [ORDER BY id ASC]:
    the sort column and the tie-breaker are both the id. *)
Definition beyond (comparison : option (ComparisonOperator * Cursor))
    (row : generated.Row) : bool :=
  match comparison with
  | None => true
  | Some (GreaterThan, (value, _)) => String.ltb value (generated.Id row)
  | Some (LessThan, (value, _)) => String.ltb (generated.Id row) value
  end.

Definition planStore (active : option bool) (plan : Plan) : result (list generated.Row) :=
  let live :=
    List.filter (fun row => sql.matches active None None row
                            && beyond (comparison plan) row) table in
  let ordered :=
    match physicalSortDirection plan with
    | ASC => sql.orderById live
    | DESC => rev (sql.orderById live)
    end in
  Ok (take (Z.to_nat (fetchLimit plan)) ordered).

(** The engine of the specification over that store, with pages of two. *)
Definition paginate (next before : option string) : M paginated.PaginationResult :=
  paginated.paginate 100 ASC parseCursor cursorOf planStore None 2 next before.


(** What the specification's example lists of a page: the ids of the items,
    the two flags, and the two cursors. *)
Definition summary (r : list Query * go (result paginated.PaginationResult))
    : option (list string * bool * bool * option string * option string) :=
  match snd r with
  | Returns (Ok page) =>
      Some (generated.Id <$> paginated.items page,
            paginated.hasMore page, paginated.hasPrevious page,
            encode <$> paginated.resultNextCursor page,
            encode <$> paginated.resultBeforeCursor page)
  | _ => None
  end.

(** Requests for pages of two: the first page, and the page after a cursor. *)
Definition firstPage : models.ListProductsFilter :=
  {| models.FilterActive := None;
     models.Limit := 2;
     models.StartingAfter := None;
     models.EndingBefore := None |}.

Definition pageAfter (cursor : string) : models.ListProductsFilter :=
  {| models.FilterActive := None;
     models.Limit := 2;
     models.StartingAfter := Some cursor;
     models.EndingBefore := None |}.

(** A paginated query function whose page is empty. *)
Definition emptyPage (active : option bool) (limit : Z) (cursor : option string)
    : M (list generated.Row * option string) :=
  pure ([], None).

(** The product made of a row of the table. *)
Definition item (id : string) : models.Product :=
  {| models.ID := id;
     models.Name := "Widget";
     models.Description := None;
     models.Active := true;
     models.Metadata := None;
     models.CreatedAt := 0;
     models.UpdatedAt := 0;
     models.DeletedAt := None |}.

(** The second page of the specification's example. *)
Definition secondPage : models.ListProductsResult :=
  {| models.Products := [item "prod_003"; item "prod_004"];
     models.HasMore := true;
     models.NextCursor := Some "prod_004";
     models.PrevCursor := Some "prod_003" |}.

(** The page past the last product. *)
Definition pastTheEnd : models.ListProductsResult :=
  {| models.Products := [];
     models.HasMore := false;
     models.NextCursor := None;
     models.PrevCursor := None |}.

(** The list handler of the Go sources and the one of the API guide, over
    the repository that runs the [:many] statement on the table. *)
Definition handler (query : api.Values) : list Query * go api.Response :=
  api.ListProducts databaseErrorText formatRFC3339
    (service.ListProducts
       (repository_many.ListWithFilters Unmarshal (sql.ListProducts table)))
    query [].





End example.

(** ** Further vocabulary *)

(** Whether [sanitizeErrorMessage] finds one of its three words. *)
Definition detected (message : string) : bool :=
  strings.Contains (strings.ToLower message) "sql"
  || strings.Contains (strings.ToLower message) "database"
  || strings.Contains (strings.ToLower message) "postgres".

(** The error detail of a response, if it is an error document. *)
Definition errorDetail (r : api.Response) : option api.ErrorDetail :=
  match api.Payload r with
  | api.ErrorDocument e => Some (api.ErrorOf e)
  | api.ListDocument _ => None
  end.

(** The status an error is answered with: that of the application error at
    the end of its chain of wrappers, and 500 for every other error. *)
Fixpoint statusOfError (err : error) : Z :=
  match err with
  | NotFoundError _ _ => 404
  | ValidationError _ _ => 400
  | ConflictError _ _ => 409
  | OptimisticLockError _ _ => 409
  | wrapError _ inner => statusOfError inner
  | _ => 500
  end.

(** ** Further stand-ins *)

Module sample.

Definition productError : generated.DatabaseError :=
  {| generated.Entity := "product"; generated.Detail := "";
     generated.Operation := "get" |}.

(** A query error that wraps a [*generated.DatabaseError]. *)
Definition queryError : error := wrapError "query: " (DatabaseError productError).

Definition always (err : error) : bool := true.

End sample.

(** The order of the listing: rows in ascending order of id, and in strictly
    ascending order. *)
Fixpoint ascending (rows : list generated.Row) : Prop :=
  match rows with
  | [] => True
  | row :: rest =>
      Forall (fun later => String.leb (generated.Id row) (generated.Id later) = true) rest
      /\ ascending rest
  end.

Fixpoint increasing (rows : list generated.Row) : Prop :=
  match rows with
  | [] => True
  | row :: rest =>
      Forall (fun later => String.ltb (generated.Id row) (generated.Id later) = true) rest
      /\ increasing rest
  end.

(** The rows a list request can show: not deleted, and of the requested
    activity. *)
Definition listed (active : option bool) (row : generated.Row) : bool :=
  sql.matches active None None row.

(** The whole listing of a table, in the order of the statement. *)
Definition listing (table : list generated.Row) (active : option bool)
    : list generated.Row :=
  sql.orderById (List.filter (listed active) table).

(** What the statement's WHERE clause asks of a row. *)
Definition selected (active : option bool) (startingAfter endingBefore : option string)
    (row : generated.Row) : Prop :=
  generated.DeletedAt row = None
  /\ (forall a, active = Some a -> generated.Active row = a)
  /\ (forall c, startingAfter = Some c -> String.ltb c (generated.Id row) = true)
  /\ (forall c, endingBefore = Some c -> String.ltb (generated.Id row) c = true).

(** A client that pages forward: it asks for the page at [cursor] and, as
    long as a page has [HasMore] set and carries a next cursor, for the page
    after that cursor, in at most [pages] requests. [Some] of the items of
    all the pages when the last page asked for ends the listing; [None] when
    a request fails, when a page announces more without a cursor, or when the
    requests run out. *)
Fixpoint pageForward
    (request : option string -> go (result models.ListProductsResult))
    (pages : nat) (cursor : option string) : option (list models.Product) :=
  match pages with
  | O => None
  | S pages' =>
      match request cursor with
      | Returns (Ok page) =>
          if models.HasMore page then
            match models.NextCursor page with
            | Some next =>
                match pageForward request pages' (Some next) with
                | Some rest => Some (models.Products page ++ rest)%list
                | None => None
                end
            | None => None
            end
          else Some (models.Products page)
      | _ => None
      end
  end.

(** The forward request for a page of [limit] items, answered by the Go
    repository over the [:many] statement on [table]. *)
Definition forwardRequest
    (Unmarshal : string -> result (option (gmap string string)))
    (table : list generated.Row) (active : option bool) (limit : Z)
    (cursor : option string) : go (result models.ListProductsResult) :=
  outcome (run (repository_many.ListWithFilters Unmarshal (sql.ListProducts table)
                  {| models.FilterActive := active;
                     models.Limit := limit;
                     models.StartingAfter := cursor;
                     models.EndingBefore := None |})).

(** Where a forward cursor stands in the listing: before everything when
    absent, and otherwise on the last of the rows already seen. *)
Definition standsAfter (seen : list generated.Row) (cursor : option string) : Prop :=
  match cursor with
  | None => seen = []
  | Some c => exists earlier row, seen = (earlier ++ [row])%list /\ c = generated.Id row
  end.

(** The backward request for a page of [limit] items ending before [cursor],
    answered by the same repository over the same statement. *)
Definition backwardRequest
    (Unmarshal : string -> result (option (gmap string string)))
    (table : list generated.Row) (active : option bool) (limit : Z)
    (cursor : string) : go (result models.ListProductsResult) :=
  outcome (run (repository_many.ListWithFilters Unmarshal (sql.ListProducts table)
                  {| models.FilterActive := active;
                     models.Limit := limit;
                     models.StartingAfter := None;
                     models.EndingBefore := Some cursor |})).

(** * The product methods

    Create, read, update and delete of one product through the three layers:
    the handlers of package [api], [ProductService] and [ProductRepository]
    over the generated functions. *)

(** ** Package [models]: the requests

    [GetProductParams] and [DeleteProductParams] hold the product id alone
    and are passed as that id. *)

Module requests.

Record CreateProductRequest : Type := {
  Name : string;
  Description : option string;
  Active : bool;
  Metadata : option (gmap string string)
}.

Record UpdateProductRequest : Type := {
  ID : string;
  NewName : option string;
  NewDescription : option string;
  NewActive : option bool;
  NewMetadata : option (gmap string string)
}.

End requests.

(** ** Package [generated]: the product statements

    The parameter structs of the generated functions, by the fields the
    repository fills in, and the statements the repository sends. *)

Module store.

Record CreateProductsParams : Type := {
  Name : string;
  Description : option string;
  Active : bool;
  Metadata : option string
}.

Record UpdateProductsParams : Type := {
  NewName : option string;
  NewDescription : option string;
  NewActive : option bool;
  NewMetadata : option string
}.

Inductive Statement : Type :=
| GetProductByID (id : string)                         (* r.queries.GetProductByID *)
| Create (params : CreateProductsParams)               (* r.ProductsRepository.Create *)
| Update (id : string) (params : UpdateProductsParams) (* r.ProductsRepository.Update *)
| Delete (id : string).                                (* r.ProductsRepository.Delete *)

(** The store behind the generated functions. Its answer to a statement may
    depend on the statements sent before it. [Products] is the struct that
    [Create] returns a pointer to; [Update] returns a value that the
    repository drops, and an error. *)
Record Answers (Products : Type) : Type := {
  getProductByID : list Statement -> string -> result (option generated.Row);
  create : list Statement -> CreateProductsParams -> result (option Products);
  update : list Statement -> string -> UpdateProductsParams -> option error;
  delete : list Statement -> string -> option error
}.
Arguments getProductByID {Products} _ _ _.
Arguments create {Products} _ _ _.
Arguments update {Products} _ _ _.
Arguments delete {Products} _ _ _.

End store.

(** A product method: from the statements sent so far to the statements sent
    after it and its outcome. *)
Definition T (A : Type) : Type :=
  list store.Statement -> list store.Statement * go (result A).

Definition andThen {A B : Type} (m : T A) (k : A -> T B) : T B :=
  fun tr =>
    match m tr with
    | (tr', Returns (Ok a)) => k a tr'
    | (tr', Returns (Err e)) => (tr', Returns (Err e))
    | (tr', Panics p) => (tr', Panics p)
    end.

Definition fromResult {A : Type} (r : result A) : T A := fun tr => (tr, Returns r).

Definition fromGo {A : Type} (g : go A) : T A :=
  fun tr => (tr, match g with Returns a => Returns (Ok a) | Panics p => Panics p end).

(** A statement sent to the store, with the store's answer after the
    statements sent before. *)
Definition send {A : Type} (q : store.Statement)
    (answer : list store.Statement -> result A) : T A :=
  fun tr => ((tr ++ [q])%list, Returns (answer tr)).

(** A call that returns an [error] alone. *)
Definition errorOnly (err : option error) : result unit :=
  match err with
  | Some e => Err e
  | None => Ok tt
  end.

Notation "x <== m ;; k" := (andThen m (fun x => k))
  (at level 100, m at next level, right associativity) : go_scope.

(** ** Package [repository]: the product methods (Go source) *)

Module product_repository.
Section Repository.

(** [generated.Products] and its [Id] field. *)
Variable Products : Type.
Variable Id : Products -> string.
Variable db : store.Answers Products.
Variable Unmarshal : string -> result (option (gmap string string)).
Variable Dyn : Type.
Variable Marshal : repository.any Dyn -> result string.
Variables IsNotFound IsAlreadyExists IsInvalidReference IsValidationError
  IsConnectionError IsTimeout IsDatabaseError : error -> bool.

Definition translateError : option error -> go (option error) :=
  repository.translateError IsNotFound IsAlreadyExists IsInvalidReference
    IsValidationError IsConnectionError IsTimeout IsDatabaseError.

(** The returned product is a pointer: [Ok None] is [(nil, nil)]. *)
Definition GetByID (productID : string) : T (option models.Product) :=
  fun tr =>
    let tr' := (tr ++ [store.GetProductByID productID])%list in
    match store.getProductByID db tr productID with
    | Err err =>
        (* return nil, translateError(err) *)
        (tr', go_bind (translateError (Some err)) (fun translated =>
                Returns match translated with
                        | Some e => Err e
                        | None => Ok None
                        end))
    | Ok result =>
        (* result.Metadata reads through the pointer *)
        (tr', go_bind (deref result) (fun row =>
                Returns match toProduct Unmarshal row with
                        | Err err => Err err
                        | Ok product => Ok (Some product)
                        end))
    end.

(** [req.Metadata] is a [map[string]string]: as an [any] it has that dynamic
    type also when the map is nil. *)
Definition Create (req : requests.CreateProductRequest) : T (option models.Product) :=
  metadataJSON <== fromResult
    (repository.marshalToRawMessage Dyn Marshal
       (repository.stringMap Dyn (requests.Metadata req))) ;;
  let createParams :=
    {| store.Name := requests.Name req;
       store.Description := requests.Description req;
       store.Active := requests.Active req;
       store.Metadata := metadataJSON |} in
  product <== send (store.Create createParams)
                (fun tr => store.create db tr createParams) ;;
  created <== fromGo (deref product) ;;
  GetByID (Id created).

Definition Update (req : requests.UpdateProductRequest) : T (option models.Product) :=
  metadataJSON <== fromResult
    (repository.marshalToRawMessage Dyn Marshal
       (repository.stringMap Dyn (requests.NewMetadata req))) ;;
  let updateParams :=
    {| store.NewName := requests.NewName req;
       store.NewDescription := requests.NewDescription req;
       store.NewActive := requests.NewActive req;
       store.NewMetadata := metadataJSON |} in
  _ <== send (store.Update (requests.ID req) updateParams)
          (fun tr => errorOnly (store.update db tr (requests.ID req) updateParams)) ;;
  GetByID (requests.ID req).

Definition Delete (productID : string) : T unit :=
  send (store.Delete productID) (fun tr => errorOnly (store.delete db tr productID)).

End Repository.
End product_repository.

(** ** Package [service]: the product methods *)

Module product_service.

(** [errors.Is(err, repository.ErrNotFound)]. The errors of package
    [apperrors] are pointers to structs with neither an [Is] nor an [Unwrap]
    method, so none of them matches the sentinel; an error made by
    [fmt.Errorf] with [%w] is unwrapped; [foreign] answers for the errors of
    the other packages, the sentinel itself among them. *)
Fixpoint IsErrNotFound (foreign : error -> bool) (err : error) : bool :=
  match err with
  | NotFoundError _ _ | ValidationError _ _ | ConflictError _ _
  | OptimisticLockError _ _ | ServiceUnavailableError _ | TimeoutError _ => false
  | wrapError _ inner => IsErrNotFound foreign inner
  | DatabaseError _ | errorString _ => foreign err
  end.

Section Service.

Variable foreign : error -> bool.
(** The [ProductRepository] interface. *)
Variable repoCreate : requests.CreateProductRequest -> T (option models.Product).
Variable repoGetByID : string -> T (option models.Product).
Variable repoUpdate : requests.UpdateProductRequest -> T (option models.Product).
Variable repoDelete : string -> T unit.

(** [if errors.Is(err, repository.ErrNotFound) { return
    apperrors.NewNotFoundError("product", id) }; return err] *)
Definition notFoundOr (productID : string) (err : error) : error :=
  if IsErrNotFound foreign err
  then apperrors.NewNotFoundError "product" productID
  else err.

Definition CreateProduct (req : requests.CreateProductRequest)
    : T (option models.Product) :=
  repoCreate req.

Definition GetProduct (productID : string) : T (option models.Product) :=
  fun tr =>
    match repoGetByID productID tr with
    | (tr', Returns (Err err)) => (tr', Returns (Err (notFoundOr productID err)))
    | (tr', Returns (Ok product)) => (tr', Returns (Ok product))
    | (tr', Panics p) => (tr', Panics p)
    end.

Definition UpdateProduct (req : requests.UpdateProductRequest)
    : T (option models.Product) :=
  fun tr =>
    match repoGetByID (requests.ID req) tr with
    | (tr', Returns (Err err)) =>
        (tr', Returns (Err (notFoundOr (requests.ID req) err)))
    | (tr', Returns (Ok _)) => repoUpdate req tr'
    | (tr', Panics p) => (tr', Panics p)
    end.

Definition DeleteProduct (productID : string) : T unit :=
  fun tr =>
    match repoGetByID productID tr with
    | (tr', Returns (Err err)) => (tr', Returns (Err (notFoundOr productID err)))
    | (tr', Returns (Ok _)) => repoDelete productID tr'
    | (tr', Panics p) => (tr', Panics p)
    end.

End Service.
End product_service.

(** ** Package [api]: the product handlers *)

Module product_handlers.

(** The request bodies. *)
Record CreateProductRequest : Type := {
  Name : string;
  Description : option string;
  Active : bool;
  Metadata : option (gmap string string)
}.

Record UpdateProductRequest : Type := {
  NewName : option string;
  NewDescription : option string;
  NewActive : option bool;
  NewMetadata : option (gmap string string)
}.

Definition StatusCreated : Z := 201.
Definition StatusNoContent : Z := 204.

(** What a product handler writes: a product document with its status, an
    error response, or a status line alone. *)
Inductive Written : Type :=
| ProductDocument (statusCode : Z) (data : api.ProductResponse)
| ErrorWritten (response : api.Response)
| HeaderOnly (statusCode : Z).

Definition statusWritten (w : Written) : Z :=
  match w with
  | ProductDocument statusCode _ => statusCode
  | ErrorWritten response => api.StatusCode response
  | HeaderOnly statusCode => statusCode
  end.

Section Handlers.

Variable databaseErrorText : generated.DatabaseError -> string.
Variable formatRFC3339 : Time -> string.
(** [json.NewDecoder(r.Body).Decode(&req)] for the two request bodies. *)
Variable DecodeCreate : string -> result CreateProductRequest.
Variable DecodeUpdate : string -> result UpdateProductRequest.
(** [ValidateStruct(req)] for the two request bodies. *)
Variable ValidateCreate : CreateProductRequest -> option error.
Variable ValidateUpdate : UpdateProductRequest -> option error.
(** The [ProductService] interface. *)
Variable svcCreateProduct : requests.CreateProductRequest -> T (option models.Product).
Variable svcGetProduct : string -> T (option models.Product).
Variable svcUpdateProduct : requests.UpdateProductRequest -> T (option models.Product).
Variable svcDeleteProduct : string -> T unit.

Definition Success (data : api.ProductResponse) : Written :=
  ProductDocument api.StatusOK data.

Definition Created (data : api.ProductResponse) : Written :=
  ProductDocument StatusCreated data.

(** [convertToProductResponse(product)] on the pointer the service returned. *)
Definition respond (write : api.ProductResponse -> Written)
    (outcome : result (option models.Product)) : go Written :=
  match outcome with
  | Err err => Returns (ErrorWritten (api.handleServiceError databaseErrorText err))
  | Ok product =>
      go_bind (deref product) (fun p =>
        Returns (write (api.convertToProductResponse formatRFC3339 p)))
  end.

Definition CreateProduct (body : string)
    : list store.Statement -> list store.Statement * go Written :=
  fun tr =>
    match DecodeCreate body with
    | Err err =>
        (tr, Returns (ErrorWritten
               (api.BadRequest databaseErrorText (Some err) "invalid request body" "")))
    | Ok req =>
        match ValidateCreate req with
        | Some err =>
            (tr, Returns (ErrorWritten
                   (api.BadRequest databaseErrorText (Some err)
                      (Error databaseErrorText err) "")))
        | None =>
            let serviceReq :=
              {| requests.Name := Name req;
                 requests.Description := Description req;
                 requests.Active := Active req;
                 requests.Metadata := Metadata req |} in
            match svcCreateProduct serviceReq tr with
            | (tr', Returns outcome) => (tr', respond Created outcome)
            | (tr', Panics p) => (tr', Panics p)
            end
        end
    end.

Definition GetProduct (id : string)
    : list store.Statement -> list store.Statement * go Written :=
  fun tr =>
    match svcGetProduct id tr with
    | (tr', Returns outcome) => (tr', respond Success outcome)
    | (tr', Panics p) => (tr', Panics p)
    end.

Definition UpdateProduct (id body : string)
    : list store.Statement -> list store.Statement * go Written :=
  fun tr =>
    match DecodeUpdate body with
    | Err err =>
        (tr, Returns (ErrorWritten
               (api.BadRequest databaseErrorText (Some err) "invalid request body" "")))
    | Ok req =>
        match ValidateUpdate req with
        | Some err =>
            (tr, Returns (ErrorWritten
                   (api.BadRequest databaseErrorText (Some err)
                      (Error databaseErrorText err) "")))
        | None =>
            let serviceReq :=
              {| requests.ID := id;
                 requests.NewName := NewName req;
                 requests.NewDescription := NewDescription req;
                 requests.NewActive := NewActive req;
                 requests.NewMetadata := NewMetadata req |} in
            match svcUpdateProduct serviceReq tr with
            | (tr', Returns outcome) => (tr', respond Success outcome)
            | (tr', Panics p) => (tr', Panics p)
            end
        end
    end.

Definition DeleteProduct (id : string)
    : list store.Statement -> list store.Statement * go Written :=
  fun tr =>
    match svcDeleteProduct id tr with
    | (tr', Returns (Err err)) =>
        (tr', Returns (ErrorWritten (api.handleServiceError databaseErrorText err)))
    | (tr', Returns (Ok _)) => (tr', Returns (HeaderOnly StatusNoContent))
    | (tr', Panics p) => (tr', Panics p)
    end.

End Handlers.
End product_handlers.

(** ** The layers wired together

    [runServe] builds the repository on the database, the service on the
    repository and the handlers on the service. An [Environment] holds what
    the three layers take from outside the sources. *)

Module app.

Record Environment : Type := {
  Products : Type;
  Id : Products -> string;
  db : store.Answers Products;
  Unmarshal : string -> result (option (gmap string string));
  Dyn : Type;
  Marshal : repository.any Dyn -> result string;
  IsNotFound : error -> bool;
  IsAlreadyExists : error -> bool;
  IsInvalidReference : error -> bool;
  IsValidationError : error -> bool;
  IsConnectionError : error -> bool;
  IsTimeout : error -> bool;
  IsDatabaseError : error -> bool;
  foreign : error -> bool;
  databaseErrorText : generated.DatabaseError -> string;
  formatRFC3339 : Time -> string;
  DecodeCreate : string -> result product_handlers.CreateProductRequest;
  DecodeUpdate : string -> result product_handlers.UpdateProductRequest;
  ValidateCreate : product_handlers.CreateProductRequest -> option error;
  ValidateUpdate : product_handlers.UpdateProductRequest -> option error
}.

Section App.

Variable env : Environment.

Definition translateError : option error -> go (option error) :=
  product_repository.translateError (IsNotFound env) (IsAlreadyExists env)
    (IsInvalidReference env) (IsValidationError env) (IsConnectionError env)
    (IsTimeout env) (IsDatabaseError env).

Definition marshalToRawMessage (m : option (gmap string string)) : result (option string) :=
  repository.marshalToRawMessage (Dyn env) (Marshal env)
    (repository.stringMap (Dyn env) m).

(** The repository. *)
Definition GetByID : string -> T (option models.Product) :=
  product_repository.GetByID (Products env) (db env) (Unmarshal env)
    (IsNotFound env) (IsAlreadyExists env) (IsInvalidReference env)
    (IsValidationError env) (IsConnectionError env) (IsTimeout env)
    (IsDatabaseError env).

Definition Create : requests.CreateProductRequest -> T (option models.Product) :=
  product_repository.Create (Products env) (Id env) (db env) (Unmarshal env)
    (Dyn env) (Marshal env)
    (IsNotFound env) (IsAlreadyExists env) (IsInvalidReference env)
    (IsValidationError env) (IsConnectionError env) (IsTimeout env)
    (IsDatabaseError env).

Definition Update : requests.UpdateProductRequest -> T (option models.Product) :=
  product_repository.Update (Products env) (db env) (Unmarshal env)
    (Dyn env) (Marshal env)
    (IsNotFound env) (IsAlreadyExists env) (IsInvalidReference env)
    (IsValidationError env) (IsConnectionError env) (IsTimeout env)
    (IsDatabaseError env).

Definition Delete : string -> T unit :=
  product_repository.Delete (Products env) (db env).

(** The service on the repository. *)
Definition serviceCreateProduct : requests.CreateProductRequest -> T (option models.Product) :=
  product_service.CreateProduct Create.

Definition serviceGetProduct : string -> T (option models.Product) :=
  product_service.GetProduct (foreign env) GetByID.

Definition serviceUpdateProduct : requests.UpdateProductRequest -> T (option models.Product) :=
  product_service.UpdateProduct (foreign env) GetByID Update.

Definition serviceDeleteProduct : string -> T unit :=
  product_service.DeleteProduct (foreign env) GetByID Delete.

(** The handlers on the service. *)
Definition CreateProduct (body : string)
    : list store.Statement -> list store.Statement * go product_handlers.Written :=
  product_handlers.CreateProduct (databaseErrorText env) (formatRFC3339 env)
    (DecodeCreate env) (ValidateCreate env) serviceCreateProduct body.

Definition GetProduct (id : string)
    : list store.Statement -> list store.Statement * go product_handlers.Written :=
  product_handlers.GetProduct (databaseErrorText env) (formatRFC3339 env)
    serviceGetProduct id.

Definition UpdateProduct (id body : string)
    : list store.Statement -> list store.Statement * go product_handlers.Written :=
  product_handlers.UpdateProduct (databaseErrorText env) (formatRFC3339 env)
    (DecodeUpdate env) (ValidateUpdate env) serviceUpdateProduct id body.

Definition DeleteProduct (id : string)
    : list store.Statement -> list store.Statement * go product_handlers.Written :=
  product_handlers.DeleteProduct (databaseErrorText env) serviceDeleteProduct id.

End App.
End app.

(** ** Vocabulary of the product methods *)

(** The product as the repository reads it: the store answers the read of
    [id] with a row, and the metadata of the row decodes. *)
Definition readable (env : app.Environment) (tr : list store.Statement) (id : string)
    : option models.Product :=
  match store.getProductByID (app.db env) tr id with
  | Ok (Some row) =>
      match toProduct (app.Unmarshal env) row with
      | Ok product => Some product
      | Err _ => None
      end
  | _ => None
  end.

(** The status a handler wrote, if it returned. *)
Definition answered (r : list store.Statement * go product_handlers.Written) : option Z :=
  match snd r with
  | Returns w => Some (product_handlers.statusWritten w)
  | Panics _ => None
  end.

(** The parameters of the create and update statements for a request body
    whose metadata is stored as [metadataJSON]. *)
Definition createParams (req : product_handlers.CreateProductRequest)
    (metadataJSON : option string) : store.CreateProductsParams :=
  {| store.Name := product_handlers.Name req;
     store.Description := product_handlers.Description req;
     store.Active := product_handlers.Active req;
     store.Metadata := metadataJSON |}.

Definition updateParams (req : product_handlers.UpdateProductRequest)
    (metadataJSON : option string) : store.UpdateProductsParams :=
  {| store.NewName := product_handlers.NewName req;
     store.NewDescription := product_handlers.NewDescription req;
     store.NewActive := product_handlers.NewActive req;
     store.NewMetadata := metadataJSON |}.

(** ** A stand-in environment

    A store that knows every id with the prefix until it is deleted, and
    refuses to create the name "taken". *)

Module demo.

Definition missing : error :=
  DatabaseError {| generated.Entity := "product"; generated.Detail := "no rows";
                   generated.Operation := "get" |}.

Definition taken : error :=
  DatabaseError {| generated.Entity := "product"; generated.Detail := "duplicate key";
                   generated.Operation := "create" |}.

Definition isDeleted (id : string) (tr : list store.Statement) : bool :=
  existsb (fun q => match q with
                    | store.Delete d => String.eqb d id
                    | _ => false
                    end) tr.

Definition answers : store.Answers string :=
  {| store.getProductByID := fun tr id =>
       if strings.HasPrefix id "prod_" && negb (isDeleted id tr)
       then Ok (Some (example.product id)) else Err missing;
     store.create := fun tr params =>
       if String.eqb (store.Name params) "taken" then Err taken
       else Ok (Some "prod_006");
     store.update := fun tr id params => None;
     store.delete := fun tr id => None |}.

Definition isMissing (err : error) : bool :=
  match errors.AsDatabaseError err with
  | Some d => String.eqb (generated.Detail d) "no rows"
  | None => false
  end.

Definition isTaken (err : error) : bool :=
  match errors.AsDatabaseError err with
  | Some d => String.eqb (generated.Detail d) "duplicate key"
  | None => false
  end.

Definition environment : app.Environment :=
  {| app.Products := string;
     app.Id := fun created => created;
     app.db := answers;
     app.Unmarshal := example.Unmarshal;
     app.Dyn := Empty_set;
     app.Marshal := fun _ => Ok "{}";
     app.IsNotFound := isMissing;
     app.IsAlreadyExists := isTaken;
     app.IsInvalidReference := example.never;
     app.IsValidationError := example.never;
     app.IsConnectionError := example.never;
     app.IsTimeout := example.never;
     app.IsDatabaseError := sample.always;
     app.foreign := example.Is "not found";
     app.databaseErrorText := example.databaseErrorText;
     app.formatRFC3339 := example.formatRFC3339;
     app.DecodeCreate := fun body =>
       if String.eqb body "" then Err (errorString "EOF")
       else Ok {| product_handlers.Name := body;
                  product_handlers.Description := None;
                  product_handlers.Active := true;
                  product_handlers.Metadata := None |};
     app.DecodeUpdate := fun body =>
       if String.eqb body "" then Err (errorString "EOF")
       else Ok {| product_handlers.NewName := Some body;
                  product_handlers.NewDescription := None;
                  product_handlers.NewActive := None;
                  product_handlers.NewMetadata := None |};
     app.ValidateCreate := fun req =>
       if 255 <? len (product_handlers.Name req)
       then Some (errorString "name must be at most 255") else None;
     app.ValidateUpdate := fun req => None |}.

End demo.

(** ** Package [api]: the route configuration (routes.go) *)

Module routes.

Record RouteConfig : Type := {
  ReadRPS : Z;
  WriteRPS : Z;
  MaxBodyBytes : Z;
  AllowedOrigins : list string
}.

Definition DefaultRouteConfig : RouteConfig :=
  {| ReadRPS := 100;
     WriteRPS := 20;
     MaxBodyBytes := 1048576;
     AllowedOrigins := ["http://localhost:5173"] |}.

(** [strings.Split(s, sep)] for a separator of one byte: the fields between
    the separators, one more than there are separators. *)
Fixpoint Split (s : string) (sep : ascii) : list string :=
  match s with
  | EmptyString => [EmptyString]
  | String c rest =>
      if Ascii.eqb c sep then EmptyString :: Split rest sep
      else
        match Split rest sep with
        | field :: fields => String c field :: fields
        | [] => [String c EmptyString]
        end
  end.

Section Origins.

(** [strings.TrimSpace], which trims Unicode white space. *)
Variable TrimSpace : string -> string.

Definition ParseAllowedOrigins (originsStr : string) : list string :=
  if String.eqb originsStr "" then ["http://localhost:5173"]
  else TrimSpace <$> Split originsStr ",".

End Origins.
End routes.

(** ** Package [cmd]: the route configuration of [runServe]

    The four settings as read from the configuration, an unset number being
    0, and the defaults that replace a 0. *)

Module cmd.

Definition routeConfig (TrimSpace : string -> string)
    (readRPS writeRPS maxRequestBodyBytes : Z) (corsAllowedOrigins : string)
    : routes.RouteConfig :=
  let routeConfig :=
    {| routes.ReadRPS := readRPS;
       routes.WriteRPS := writeRPS;
       routes.MaxBodyBytes := maxRequestBodyBytes;
       routes.AllowedOrigins :=
         routes.ParseAllowedOrigins TrimSpace corsAllowedOrigins |} in
  let routeConfig :=
    if routes.ReadRPS routeConfig =? 0
    then {| routes.ReadRPS := 100;
            routes.WriteRPS := routes.WriteRPS routeConfig;
            routes.MaxBodyBytes := routes.MaxBodyBytes routeConfig;
            routes.AllowedOrigins := routes.AllowedOrigins routeConfig |}
    else routeConfig in
  let routeConfig :=
    if routes.WriteRPS routeConfig =? 0
    then {| routes.ReadRPS := routes.ReadRPS routeConfig;
            routes.WriteRPS := 20;
            routes.MaxBodyBytes := routes.MaxBodyBytes routeConfig;
            routes.AllowedOrigins := routes.AllowedOrigins routeConfig |}
    else routeConfig in
  if routes.MaxBodyBytes routeConfig =? 0
  then {| routes.ReadRPS := routes.ReadRPS routeConfig;
          routes.WriteRPS := routes.WriteRPS routeConfig;
          routes.MaxBodyBytes := 1048576;
          routes.AllowedOrigins := routes.AllowedOrigins routeConfig |}
  else routeConfig.

End cmd.

(** The number of bytes [sep] in [s]. *)
Fixpoint occurrences (sep : ascii) (s : string) : nat :=
  match s with
  | EmptyString => 0
  | String c rest => (if Ascii.eqb c sep then 1 else 0) + occurrences sep rest
  end.

(** ** Package [repository] over the [:many] query: reading a product

    [GetByID] of the Go source that goes with the [:many] query. It maps the
    generated not-found error to the sentinel of the package and passes every
    other error on. *)

Module product_repository_many.

(** [var ErrNotFound = errors.New("not found")] *)
Definition ErrNotFound : error := errorString "not found".

Section Repository.

Variable Products : Type.
Variable db : store.Answers Products.
Variable Unmarshal : string -> result (option (gmap string string)).
(** [errors.Is(err, generated.ErrNotFound)] *)
Variable IsGeneratedErrNotFound : error -> bool.

Definition GetByID (productID : string) : T (option models.Product) :=
  fun tr =>
    let tr' := (tr ++ [store.GetProductByID productID])%list in
    match store.getProductByID db tr productID with
    | Err err =>
        (tr', Returns (Err (if IsGeneratedErrNotFound err then ErrNotFound else err)))
    | Ok result =>
        (tr', go_bind (deref result) (fun row =>
                Returns match toProduct Unmarshal row with
                        | Err err => Err err
                        | Ok product => Ok (Some product)
                        end))
    end.

End Repository.
End product_repository_many.

(** ** The mock repository of the architecture guide

    [mockProductRepo] holds its products in a map from id to pointer; its
    [GetByID] returns the pointer stored under the id, or a not-found
    application error. It sends no statement. *)

Module mock.

Definition GetByID (products : gmap string (option models.Product))
    (productID : string) : T (option models.Product) :=
  fun tr =>
    (tr, Returns match products !! productID with
                 | Some p => Ok p
                 | None => Err (apperrors.NewNotFoundError "product" productID)
                 end).

End mock.

(** The error document of a product that is not found: the code is the text
    of the error, and the message is that text unless the id makes it mention
    one of the withheld words. *)
Definition productNotFound (id : string) : api.Response :=
  let text :=
    if String.eqb id "" then "product not found" else "product not found: " +:+ id in
  {| api.StatusCode := 404;
     api.Payload :=
       api.ErrorDocument
         {| api.ErrorOf :=
              {| api.Type_ := "invalid_request_error";
                 api.Code := text;
                 api.Message := if detected text then "Invalid request" else text;
                 api.Param := "" |} |} |}.

(** ** A client of the list endpoint

    The client pages forward: it sends the [next_cursor] of each document
    back as [starting_after] while [has_more] is set, in at most [pages]
    requests. [Some] of the products of all the documents when the last one
    ends the listing; [None] when a request is answered with an error or with
    a panic, or when the requests run out. *)
Fixpoint fetchAll (request : string -> go api.Response) (pages : nat) (cursor : string)
    : option (list api.ProductResponse) :=
  match pages with
  | O => None
  | S pages' =>
      match request cursor with
      | Returns response =>
          match listDocument response with
          | Some document =>
              if api.HasMore document then
                match fetchAll request pages' (api.NextCursor document) with
                | Some rest => Some (api.Data document ++ rest)%list
                | None => None
                end
              else Some (api.Data document)
          | None => None
          end
      | Panics _ => None
      end
  end.

(** The request [GET /products?limit=<limit>&starting_after=<cursor>&...], an
    empty cursor being no cursor, answered by the handler over the service
    and the Go repository over the [:many] statement on [table]. *)
Definition listRequest (text : generated.DatabaseError -> string) (format : Time -> string)
    (Unmarshal : string -> result (option (gmap string string)))
    (table : list generated.Row) (limit : string) (others : api.Values)
    (cursor : string) : go api.Response :=
  snd (api.ListProducts text format
         (service.ListProducts
            (repository_many.ListWithFilters Unmarshal (sql.ListProducts table)))
         (("limit", limit) :: ("starting_after", cursor) :: others) []).

(** * Properties *)

(** ** Byte strings *)

Lemma ToLower_app (a b : string) :
  strings.ToLower (a +:+ b) = strings.ToLower a +:+ strings.ToLower b.
Proof.
  induction a as [|c a IH]; simpl; [reflexivity|].
  now rewrite IH.
Qed.

Lemma HasPrefix_app (w post : string) : strings.HasPrefix (w +:+ post) w = true.
Proof.
  unfold strings.HasPrefix.
  induction w as [|c w IH]; simpl.
  - now destruct post.
  - destruct (ascii_dec c c) as [_|ne]; [exact IH|now destruct ne].
Qed.

Lemma Contains_HasPrefix (s w : string) :
  strings.HasPrefix s w = true -> strings.Contains s w = true.
Proof. intros H. destruct s; cbn [strings.Contains]; rewrite H; reflexivity. Qed.

Lemma Contains_app (pre w post : string) :
  strings.Contains (pre +:+ (w +:+ post)) w = true.
Proof.
  induction pre as [|c pre IH].
  - apply Contains_HasPrefix. exact (HasPrefix_app w post).
  - change (String c pre +:+ (w +:+ post)) with (String c (pre +:+ (w +:+ post))).
    cbn [strings.Contains]. rewrite IH. apply orb_true_r.
Qed.

Lemma mentions_Contains (word message : string) :
  mentions word message -> strings.Contains (strings.ToLower message) word = true.
Proof.
  intros (pre & mid & post & -> & <-).
  rewrite !ToLower_app. apply Contains_app.
Qed.

Lemma sensitive_detected (message : string) :
  sensitive message ->
  strings.Contains (strings.ToLower message) "sql"
  || strings.Contains (strings.ToLower message) "database"
  || strings.Contains (strings.ToLower message) "postgres" = true.
Proof.
  intros [H|[H|H]]; apply mentions_Contains in H; rewrite H;
    rewrite ?orb_true_r; reflexivity.
Qed.

Lemma sentMessage_renderError (text : generated.DatabaseError -> string)
    (statusCode : Z) (err : option error) (message param : string) :
  sentMessage (api.renderError text statusCode err message param)
  = Some (api.sanitizeErrorMessage message statusCode).
Proof. reflexivity. Qed.

(** C9. Every error response written by [renderError] with a status of at
    least 500 carries the message "An internal error occurred"; and a message
    that mentions "sql", "database" or "postgres" in any letter case is
    replaced, by "An internal error occurred" from status 500 on and by
    "Invalid request" below, so that it is never sent as it was. *)
Theorem renderError_sanitizes_message :
  forall (text : generated.DatabaseError -> string) (statusCode : Z)
         (err : option error) (message param : string),
    let response := api.renderError text statusCode err message param in
    api.StatusCode response = statusCode
    /\ (500 <= statusCode ->
        sentMessage response = Some "An internal error occurred")
    /\ (sensitive message ->
        sentMessage response
        = Some (if 500 <=? statusCode then "An internal error occurred"
                else "Invalid request")
        /\ sentMessage response <> Some message).
Proof.
  intros text statusCode err message param response.
  subst response. rewrite sentMessage_renderError.
  split; [reflexivity|]. split.
  - intros Hs. unfold api.sanitizeErrorMessage.
    apply Z.leb_le in Hs. rewrite Hs. now destruct (_ || _ || _).
  - intros Hm. pose proof (sensitive_detected _ Hm) as Hd.
    unfold api.sanitizeErrorMessage. rewrite Hd.
    split; [reflexivity|].
    intros Heq. injection Heq as Heq.
    destruct (500 <=? statusCode); rewrite <- Heq in Hd; vm_compute in Hd;
      discriminate Hd.
Qed.

Example renderError_withholds_driver_text :
  sentMessage
    (api.renderError (fun _ => "") 400 (Some (errorString "23505"))
       "pq: duplicate key violates constraint in PostgreSQL" "name")
  = Some "Invalid request".
Proof. reflexivity. Qed.

Example renderError_passes_validation_text :
  sentMessage
    (api.renderError (fun _ => "") 400 None "name is required" "name")
  = Some "name is required".
Proof. reflexivity. Qed.

(** ** [marshalToRawMessage] *)

Section MarshalProperties.

Variable Dyn : Type.
Variable Marshal : repository.any Dyn -> result string.

Local Abbreviation marshalToRawMessage := (repository.marshalToRawMessage Dyn Marshal).

Lemma lenMap_zero (m : option (gmap string string)) :
  repository.lenMap m = 0 <-> m = None \/ m = Some ∅.
Proof.
  destruct m as [entries|]; simpl.
  - split.
    + intros H. right. f_equal. apply map_size_empty_inv. lia.
    + intros [H|H]; [discriminate|]. injection H as ->. now rewrite map_size_empty.
  - split; [now left|reflexivity].
Qed.

Lemma marshalToRawMessage_error (v : repository.any Dyn) (err : error) :
  storedAsJSON v -> Marshal v = Err err ->
  marshalToRawMessage v = Err (wrapError "marshal metadata: " err).
Proof.
  intros Hv HM. destruct v as [|m|d]; simpl in *; [contradiction| |].
  - apply Z.eqb_neq in Hv. now rewrite Hv, HM.
  - now rewrite HM.
Qed.

(** C10. [marshalToRawMessage] returns [(nil, nil)] for the nil interface and
    for a [map[string]string] without entries, nil or not, so that empty
    metadata is stored as NULL; for every other value that [json.Marshal]
    encodes, it returns that encoding and no error. *)
Theorem marshalToRawMessage_spec :
  marshalToRawMessage (repository.nilInterface Dyn) = Ok None
  /\ marshalToRawMessage (repository.stringMap Dyn None) = Ok None
  /\ marshalToRawMessage (repository.stringMap Dyn (Some ∅)) = Ok None
  /\ (forall m : option (gmap string string),
        repository.lenMap m = 0 ->
        marshalToRawMessage (repository.stringMap Dyn m) = Ok None)
  /\ (forall (v : repository.any Dyn) (data : string),
        storedAsJSON v -> Marshal v = Ok data ->
        marshalToRawMessage v = Ok (Some data)).
Proof.
  repeat split.
  - intros m Hm. simpl. now rewrite Hm.
  - intros v data Hv HM. destruct v as [|m|d]; simpl in *; [contradiction| |].
    + apply Z.eqb_neq in Hv. now rewrite Hv, HM.
    + now rewrite HM.
Qed.

End MarshalProperties.

(** ** Go integers and slices *)

Lemma add_no_overflow (a : Z) : 0 <= a < GoInt.maxInt -> GoInt.add a 1 = a + 1.
Proof.
  unfold GoInt.add, GoInt.wrap, GoInt.maxInt. intros H.
  rewrite Z.mod_small; lia.
Qed.

Lemma sliceTo_within {A : Type} (s : list A) (hi : Z) :
  0 <= hi <= count s -> sliceTo s hi = Returns (take (Z.to_nat hi) s).
Proof.
  unfold sliceTo, count. intros [H0 H1].
  apply Z.leb_le in H0, H1. now rewrite H0, H1.
Qed.

Lemma sliceTo_negative {A : Type} (s : list A) (hi : Z) :
  hi < 0 -> sliceTo s hi = Panics SliceBounds.
Proof.
  unfold sliceTo. intros H. apply Z.leb_gt in H. now rewrite H.
Qed.

Lemma count_take {A : Type} (s : list A) (n : Z) :
  0 <= n <= count s -> count (take (Z.to_nat n) s) = n.
Proof.
  unfold count. intros H. rewrite length_take. lia.
Qed.

(** ** The conversion loop *)

Section ConvertRows.

Variable body : generated.Row -> result models.Product.

Lemma convertRows_Forall2 (rows : list generated.Row) (products : list models.Product) :
  convertRows body rows = Ok products <->
  Forall2 (fun row product => body row = Ok product) rows products.
Proof.
  revert products. induction rows as [|row rows IH]; intros products; simpl.
  - split.
    + intros H. injection H as <-. constructor.
    + intros H. inversion H. reflexivity.
  - split.
    + destruct (body row) as [p|e] eqn:Hb; [|discriminate].
      destruct (convertRows body rows) as [ps|e] eqn:Hc; [|discriminate].
      intros H. injection H as <-. constructor; [exact Hb|]. now apply IH.
    + intros H. inversion H as [|? p ? ps Hb Hrest]; subst.
      rewrite Hb. apply IH in Hrest. now rewrite Hrest.
Qed.

Lemma convertRows_total (rows : list generated.Row) :
  Forall (fun row => exists product, body row = Ok product) rows ->
  exists products, convertRows body rows = Ok products.
Proof.
  induction 1 as [|row rows [p Hp] _ [ps Hps]]; simpl.
  - now exists [].
  - rewrite Hp, Hps. now eexists.
Qed.

Lemma convertRows_length (rows : list generated.Row) (products : list models.Product) :
  convertRows body rows = Ok products -> count products = count rows.
Proof.
  intros H. apply convertRows_Forall2, Forall2_length in H.
  unfold count. now rewrite H.
Qed.

End ConvertRows.

Section Decoding.

Variable Unmarshal : string -> result (option (gmap string string)).

Lemma toProduct_decodable (row : generated.Row) :
  decodable Unmarshal row -> exists product, toProduct Unmarshal row = Ok product.
Proof. intros [m Hm]. unfold toProduct. rewrite Hm. now eexists. Qed.

Lemma toProductDoc_decodable (row : generated.Row) :
  decodable Unmarshal row -> exists product, toProductDoc Unmarshal row = Ok product.
Proof. intros [m Hm]. unfold toProductDoc. rewrite Hm. now eexists. Qed.

(** A product carries the columns of its row. *)
Lemma toProduct_fields (row : generated.Row) (product : models.Product) :
  toProduct Unmarshal row = Ok product ->
  models.ID product = generated.Id row
  /\ models.Name product = generated.Name row
  /\ models.Description product = generated.Description row
  /\ models.Active product = generated.Active row
  /\ decodeMetadata Unmarshal (generated.Metadata row) = Ok (models.Metadata product)
  /\ models.CreatedAt product = generated.CreatedAt row
  /\ models.UpdatedAt product = generated.UpdatedAt row
  /\ models.DeletedAt product = generated.DeletedAt row.
Proof.
  unfold toProduct. destruct (decodeMetadata _ _) as [m|e]; [|discriminate].
  intros H. injection H as <-. now repeat split.
Qed.

Lemma toProductDoc_fields (row : generated.Row) (product : models.Product) :
  toProductDoc Unmarshal row = Ok product ->
  models.ID product = generated.Id row
  /\ models.Name product = generated.Name row
  /\ models.Description product = generated.Description row
  /\ models.Active product = generated.Active row
  /\ decodeMetadata Unmarshal (generated.Metadata row) = Ok (models.Metadata product)
  /\ models.CreatedAt product = generated.CreatedAt row
  /\ models.UpdatedAt product = generated.UpdatedAt row.
Proof.
  unfold toProductDoc. destruct (decodeMetadata _ _) as [m|e]; [|discriminate].
  intros H. injection H as <-. now repeat split.
Qed.

End Decoding.

(** ** [ListWithFilters] over the [:many] statement *)

Ltac unfold_run :=
  unfold run, bind, call, liftGo, liftResult, pure, statements, outcome; simpl.

Section ManyRuns.

Variable Unmarshal : string -> result (option (gmap string string)).
Variable ListProducts :
  option bool -> Z -> option string -> option string -> result (list generated.Row).
Variable filter : models.ListProductsFilter.
Variable rows : list generated.Row.

Hypothesis store_answer :
  ListProducts (models.FilterActive filter) (GoInt.add (models.Limit filter) 1)
    (models.StartingAfter filter) (models.EndingBefore filter) = Ok rows.
Hypothesis limit_nonnegative : 0 <= models.Limit filter.

Lemma docs_many_run :
  run (docs_many.ListWithFilters Unmarshal ListProducts filter)
  = ([manyStatement filter],
     match convertRows (toProductDoc Unmarshal) (kept filter rows) with
     | Err err => Returns (Err err)
     | Ok products =>
         let hasMore := models.Limit filter <? count rows in
         Returns (Ok
           {| models.Products := products;
              models.HasMore := hasMore;
              models.NextCursor :=
                if (0 <? count products) && hasMore
                then models.ID <$> last products else None;
              models.PrevCursor :=
                if (0 <? count products)
                   && bool_decide (models.StartingAfter filter <> None)
                then models.ID <$> head products else None |})
     end).
Proof.
  unfold docs_many.ListWithFilters, manyStatement, kept. unfold_run.
  rewrite store_answer.
  destruct (models.Limit filter <? count rows) eqn:Hmore.
  - apply Z.ltb_lt in Hmore. rewrite sliceTo_within by lia.
    now destruct (convertRows _ _).
  - now destruct (convertRows _ _).
Qed.

Lemma repository_many_run :
  run (repository_many.ListWithFilters Unmarshal ListProducts filter)
  = ([manyStatement filter],
     match convertRows (toProduct Unmarshal) (kept filter rows) with
     | Err err => Returns (Err err)
     | Ok products =>
         let hasMore := models.Limit filter <? count rows in
         Returns (Ok
           {| models.Products := products;
              models.HasMore := hasMore;
              models.NextCursor :=
                if (0 <? count products) && hasMore
                then models.ID <$> last products else None;
              models.PrevCursor :=
                if (0 <? count products)
                   && (bool_decide (models.StartingAfter filter <> None)
                       || bool_decide (models.EndingBefore filter <> None))
                then models.ID <$> head products else None |})
     end).
Proof.
  unfold repository_many.ListWithFilters, manyStatement, kept. unfold_run.
  rewrite store_answer.
  destruct (models.Limit filter <? count rows) eqn:Hmore.
  - apply Z.ltb_lt in Hmore. rewrite sliceTo_within by lia.
    now destruct (convertRows _ _).
  - now destruct (convertRows _ _).
Qed.

End ManyRuns.

Lemma kept_decodable (Unmarshal : string -> result (option (gmap string string)))
    (filter : models.ListProductsFilter) (rows : list generated.Row) :
  Forall (decodable Unmarshal) rows -> Forall (decodable Unmarshal) (kept filter rows).
Proof.
  intros H. unfold kept. destruct (_ <? _); [|exact H].
  now apply Forall_take.
Qed.

Lemma overfetchPage_kept (body : generated.Row -> result models.Product)
    (filter : models.ListProductsFilter) (rows : list generated.Row)
    (products : list models.Product) (next prev : option string) :
  0 <= models.Limit filter ->
  convertRows body (kept filter rows) = Ok products ->
  overfetchPage body (models.Limit filter) rows
    {| models.Products := products;
       models.HasMore := models.Limit filter <? count rows;
       models.NextCursor := next;
       models.PrevCursor := prev |}.
Proof.
  intros Hlimit Hconv. unfold kept in Hconv. split; intros Hcount; simpl.
  - assert (Hlt : (models.Limit filter <? count rows) = true) by (apply Z.ltb_lt; lia).
    rewrite Hlt in *. split; [reflexivity|]. split.
    + apply convertRows_length in Hconv. rewrite Hconv. apply count_take. lia.
    + now apply convertRows_Forall2.
  - assert (Hge : (models.Limit filter <? count rows) = false) by (apply Z.ltb_ge; lia).
    rewrite Hge in *. split; [reflexivity|]. now apply convertRows_Forall2.
Qed.

(** C1. [ListWithFilters] over the [:many] query sends its one statement with
    [limit + 1]. When the store answers with exactly [limit + 1] rows the page
    has [HasMore] set and the first [limit] rows as its items; when it answers
    with at most [limit] rows, [HasMore] is clear and every row is an item.
    Each item carries the columns of its row. Stated for the documented
    method and for its Go source. *)
Theorem ListWithFilters_overfetch :
  forall (Unmarshal : string -> result (option (gmap string string)))
         (ListProducts : option bool -> Z -> option string -> option string ->
                         result (list generated.Row))
         (filter : models.ListProductsFilter) (rows : list generated.Row),
    0 <= models.Limit filter < GoInt.maxInt ->
    ListProducts (models.FilterActive filter) (models.Limit filter + 1)
      (models.StartingAfter filter) (models.EndingBefore filter) = Ok rows ->
    Forall (decodable Unmarshal) rows ->
    let statement :=
      CallListProducts (models.FilterActive filter) (models.Limit filter + 1)
        (models.StartingAfter filter) (models.EndingBefore filter) in
    (exists page,
        run (docs_many.ListWithFilters Unmarshal ListProducts filter)
        = ([statement], Returns (Ok page))
        /\ overfetchPage (toProductDoc Unmarshal) (models.Limit filter) rows page)
    /\ (exists page,
        run (repository_many.ListWithFilters Unmarshal ListProducts filter)
        = ([statement], Returns (Ok page))
        /\ overfetchPage (toProduct Unmarshal) (models.Limit filter) rows page).
Proof.
  intros Unmarshal ListProducts filter rows Hlimit Hstore Hdec statement.
  subst statement. rewrite <- (add_no_overflow _ Hlimit) in *.
  assert (H0 : 0 <= models.Limit filter) by lia.
  apply (kept_decodable _ filter) in Hdec.
  split.
  - rewrite (docs_many_run _ _ _ _ Hstore H0).
    destruct (convertRows_total (toProductDoc Unmarshal) (kept filter rows))
      as [products Hconv].
    { eapply Forall_impl; [exact Hdec|]. apply toProductDoc_decodable. }
    rewrite Hconv. eexists. split; [reflexivity|].
    now apply overfetchPage_kept.
  - rewrite (repository_many_run _ _ _ _ Hstore H0).
    destruct (convertRows_total (toProduct Unmarshal) (kept filter rows))
      as [products Hconv].
    { eapply Forall_impl; [exact Hdec|]. apply toProduct_decodable. }
    rewrite Hconv. eexists. split; [reflexivity|].
    now apply overfetchPage_kept.
Qed.

Lemma example_rows_decodable (ids : list string) :
  Forall (decodable example.Unmarshal) (example.product <$> ids).
Proof.
  induction ids as [|id ids IH]; constructor; [|exact IH].
  now exists None.
Qed.

Lemma ListWithFilters_overfetch_witness :
  (0 <= models.Limit example.firstPage < GoInt.maxInt)
  /\ sql.ListProducts example.table None 3 None None
     = Ok (example.product <$> ["prod_001"; "prod_002"; "prod_003"])
  /\ (exists page,
        run (docs_many.ListWithFilters example.Unmarshal
               (sql.ListProducts example.table) example.firstPage)
        = ([CallListProducts None 3 None None], Returns (Ok page))
        /\ overfetchPage (toProductDoc example.Unmarshal) 2
             (example.product <$> ["prod_001"; "prod_002"; "prod_003"]) page)
  /\ (exists page,
        run (repository_many.ListWithFilters example.Unmarshal
               (sql.ListProducts example.table) example.firstPage)
        = ([CallListProducts None 3 None None], Returns (Ok page))
        /\ overfetchPage (toProduct example.Unmarshal) 2
             (example.product <$> ["prod_001"; "prod_002"; "prod_003"]) page).
Proof.
  assert (Hlimit : 0 <= models.Limit example.firstPage < GoInt.maxInt)
    by (vm_compute; split; congruence).
  assert (Hstore : sql.ListProducts example.table None 3 None None
                   = Ok (example.product <$> ["prod_001"; "prod_002"; "prod_003"]))
    by reflexivity.
  split; [exact Hlimit|]. split; [exact Hstore|].
  exact (ListWithFilters_overfetch example.Unmarshal (sql.ListProducts example.table)
           example.firstPage _ Hlimit Hstore
           (example_rows_decodable ["prod_001"; "prod_002"; "prod_003"])).
Defined.

(** ** The cursors of a page *)

Section Unfoldings.

Variable Unmarshal : string -> result (option (gmap string string)).
Variable ListProducts :
  option bool -> Z -> option string -> option string -> result (list generated.Row).
Variable filter : models.ListProductsFilter.

Lemma docs_many_unfold :
  run (docs_many.ListWithFilters Unmarshal ListProducts filter)
  = ([manyStatement filter],
     match ListProducts (models.FilterActive filter)
             (GoInt.add (models.Limit filter) 1)
             (models.StartingAfter filter) (models.EndingBefore filter) with
     | Err err => Returns (Err err)
     | Ok rows =>
         match trimmed filter rows with
         | Panics p => Panics p
         | Returns results =>
             match convertRows (toProductDoc Unmarshal) results with
             | Err err => Returns (Err err)
             | Ok products =>
                 let hasMore := models.Limit filter <? count rows in
                 Returns (Ok
                   {| models.Products := products;
                      models.HasMore := hasMore;
                      models.NextCursor :=
                        if (0 <? count products) && hasMore
                        then models.ID <$> last products else None;
                      models.PrevCursor :=
                        if (0 <? count products) && startingAfterGiven filter
                        then models.ID <$> head products else None |})
             end
         end
     end).
Proof.
  unfold docs_many.ListWithFilters, manyStatement, trimmed, startingAfterGiven.
  unfold_run.
  destruct (ListProducts _ _ _ _) as [rows|e]; [|reflexivity].
  destruct (models.Limit filter <? count rows).
  - destruct (sliceTo rows _) as [results|p]; [|reflexivity].
    now destruct (convertRows _ _).
  - now destruct (convertRows _ _).
Qed.

Lemma repository_many_unfold :
  run (repository_many.ListWithFilters Unmarshal ListProducts filter)
  = ([manyStatement filter],
     match ListProducts (models.FilterActive filter)
             (GoInt.add (models.Limit filter) 1)
             (models.StartingAfter filter) (models.EndingBefore filter) with
     | Err err => Returns (Err err)
     | Ok rows =>
         match trimmed filter rows with
         | Panics p => Panics p
         | Returns results =>
             match convertRows (toProduct Unmarshal) results with
             | Err err => Returns (Err err)
             | Ok products =>
                 let hasMore := models.Limit filter <? count rows in
                 Returns (Ok
                   {| models.Products := products;
                      models.HasMore := hasMore;
                      models.NextCursor :=
                        if (0 <? count products) && hasMore
                        then models.ID <$> last products else None;
                      models.PrevCursor :=
                        if (0 <? count products) && anyCursorGiven filter
                        then models.ID <$> head products else None |})
             end
         end
     end).
Proof.
  unfold repository_many.ListWithFilters, manyStatement, trimmed, anyCursorGiven.
  unfold_run.
  destruct (ListProducts _ _ _ _) as [rows|e]; [|reflexivity].
  destruct (models.Limit filter <? count rows).
  - destruct (sliceTo rows _) as [results|p]; [|reflexivity].
    now destruct (convertRows _ _).
  - now destruct (convertRows _ _).
Qed.

End Unfoldings.

Lemma boundaryCursors_built (products : list models.Product) (hasMore hasPrevious : bool) :
  boundaryCursors hasPrevious
    {| models.Products := products;
       models.HasMore := hasMore;
       models.NextCursor :=
         if (0 <? count products) && hasMore then models.ID <$> last products else None;
       models.PrevCursor :=
         if (0 <? count products) && hasPrevious
         then models.ID <$> head products else None |}.
Proof.
  split; simpl.
  - intros ->. now split.
  - intros first lastItem Hfirst Hlast.
    destruct products as [|p ps]; [discriminate|].
    rewrite Hfirst, Hlast. unfold count. simpl length.
    replace (0 <? Z.of_nat (S (length ps))) with true by (symmetry; apply Z.ltb_lt; lia).
    simpl. now split.
Qed.

Lemma previousCursor_built (products : list models.Product) (hasMore hasPrevious : bool)
    (next : option string) :
  previousCursor hasPrevious
    {| models.Products := products;
       models.HasMore := hasMore;
       models.NextCursor := next;
       models.PrevCursor :=
         if hasPrevious && (0 <? count products)
         then models.ID <$> head products else None |}.
Proof.
  split; simpl.
  - intros ->. now rewrite andb_false_r.
  - intros first Hfirst.
    destruct products as [|p ps]; [discriminate|].
    rewrite Hfirst. unfold count. simpl length.
    replace (0 <? Z.of_nat (S (length ps))) with true by (symmetry; apply Z.ltb_lt; lia).
    now rewrite andb_true_r.
Qed.

Lemma repository_unfold
    (Unmarshal : string -> result (option (gmap string string)))
    (ListProductsPaginated :
       option bool -> Z -> option string -> M (list generated.Row * option string))
    (filter : models.ListProductsFilter) (tr : list Query) :
  repository.ListWithFilters Unmarshal ListProductsPaginated filter tr
  = match ListProductsPaginated (models.FilterActive filter) (models.Limit filter)
            (models.StartingAfter filter) tr with
    | (tr', Returns (Ok (results, nextCursor))) =>
        (tr',
         match convertRows (toProduct Unmarshal) results with
         | Err err => Returns (Err err)
         | Ok products =>
             Returns (Ok
               {| models.Products := products;
                  models.HasMore := bool_decide (nextCursor <> None);
                  models.NextCursor := nextCursor;
                  models.PrevCursor :=
                    if startingAfterGiven filter && (0 <? count products)
                    then models.ID <$> head products else None |})
         end)
    | (tr', Returns (Err err)) => (tr', Returns (Err err))
    | (tr', Panics p) => (tr', Panics p)
    end.
Proof.
  unfold repository.ListWithFilters, startingAfterGiven, bind, liftResult, pure.
  replace (match models.StartingAfter filter with Some c => Some c | None => None end)
    with (models.StartingAfter filter) by now destruct (models.StartingAfter filter).
  destruct (ListProductsPaginated _ _ _ tr) as [tr' [[[results nextCursor]|e]|p]];
    try reflexivity.
  now destruct (convertRows _ _).
Qed.

Section ManyPages.

Variable Unmarshal : string -> result (option (gmap string string)).
Variable ListProducts :
  option bool -> Z -> option string -> option string -> result (list generated.Row).
Variables (filter : models.ListProductsFilter) (page : models.ListProductsResult).

Lemma docs_many_page :
  outcome (run (docs_many.ListWithFilters Unmarshal ListProducts filter))
  = Returns (Ok page) ->
  exists rows,
    ListProducts (models.FilterActive filter) (GoInt.add (models.Limit filter) 1)
      (models.StartingAfter filter) (models.EndingBefore filter) = Ok rows
    /\ models.HasMore page = (models.Limit filter <? count rows)
    /\ boundaryCursors (startingAfterGiven filter) page.
Proof.
  rewrite docs_many_unfold. unfold outcome. simpl.
  destruct (ListProducts _ _ _ _) as [rows|e]; [|discriminate].
  destruct (trimmed filter rows) as [results|p]; [|discriminate].
  destruct (convertRows _ _) as [products|e]; [|discriminate].
  intros H. injection H as <-. exists rows.
  split; [reflexivity|]. split; [reflexivity|]. apply boundaryCursors_built.
Qed.

Lemma repository_many_page :
  outcome (run (repository_many.ListWithFilters Unmarshal ListProducts filter))
  = Returns (Ok page) ->
  exists rows,
    ListProducts (models.FilterActive filter) (GoInt.add (models.Limit filter) 1)
      (models.StartingAfter filter) (models.EndingBefore filter) = Ok rows
    /\ models.HasMore page = (models.Limit filter <? count rows)
    /\ boundaryCursors (anyCursorGiven filter) page.
Proof.
  rewrite repository_many_unfold. unfold outcome. simpl.
  destruct (ListProducts _ _ _ _) as [rows|e]; [|discriminate].
  destruct (trimmed filter rows) as [results|p]; [|discriminate].
  destruct (convertRows _ _) as [products|e]; [|discriminate].
  intros H. injection H as <-. exists rows.
  split; [reflexivity|]. split; [reflexivity|]. apply boundaryCursors_built.
Qed.

End ManyPages.

Lemma repository_page
    (Unmarshal : string -> result (option (gmap string string)))
    (ListProductsPaginated :
       option bool -> Z -> option string -> M (list generated.Row * option string))
    (filter : models.ListProductsFilter) (page : models.ListProductsResult) :
  outcome (run (repository.ListWithFilters Unmarshal ListProductsPaginated filter))
  = Returns (Ok page) ->
  (models.HasMore page = true <-> models.NextCursor page <> None)
  /\ previousCursor (startingAfterGiven filter) page.
Proof.
  unfold run, outcome. rewrite repository_unfold.
  destruct (ListProductsPaginated _ _ _ []) as [tr' [[[results nextCursor]|e]|p]];
    simpl; try discriminate.
  destruct (convertRows _ _) as [products|e]; [|discriminate].
  intros H. injection H as <-. split.
  - simpl. rewrite bool_decide_eq_true. reflexivity.
  - apply previousCursor_built.
Qed.



(** ** The previous-page cursor of a forward page *)

Lemma last_nonempty {A : Type} (x : A) (xs : list A) : exists y, last (x :: xs) = Some y.
Proof.
  revert x. induction xs as [|z zs IH]; intros x; [now exists x|].
  destruct (IH z) as [y Hy]. exists y. exact Hy.
Qed.

Lemma previousCursor_present (hasPrevious : bool) (page : models.ListProductsResult) :
  previousCursor hasPrevious page ->
  (models.PrevCursor page <> None <-> hasPrevious = true /\ models.Products page <> []).
Proof.
  intros [Hempty Hfirst].
  destruct (models.Products page) as [|first rest] eqn:Hp.
  - rewrite (Hempty eq_refl). split; [congruence|]. now intros [_ H].
  - rewrite (Hfirst first eq_refl).
    destruct hasPrevious; split; try congruence; try easy.
Qed.

Lemma boundaryCursors_previous (hasPrevious : bool) (page : models.ListProductsResult) :
  boundaryCursors hasPrevious page -> previousCursor hasPrevious page.
Proof.
  intros [Hempty Hboth]. split.
  - intros H. now apply Hempty.
  - intros first Hfirst.
    destruct (models.Products page) as [|p ps] eqn:Hp; [discriminate|].
    destruct (last_nonempty p ps) as [lastItem Hlast].
    now apply (Hboth first lastItem).
Qed.

Lemma startingAfterGiven_true (filter : models.ListProductsFilter) :
  startingAfterGiven filter = true <-> models.StartingAfter filter <> None.
Proof. unfold startingAfterGiven. apply bool_decide_eq_true. Qed.

Lemma anyCursorGiven_forward (filter : models.ListProductsFilter) :
  models.EndingBefore filter = None -> anyCursorGiven filter = startingAfterGiven filter.
Proof.
  unfold anyCursorGiven, startingAfterGiven. intros ->.
  rewrite (bool_decide_eq_false_2 (None <> None)) by congruence.
  apply orb_false_r.
Qed.


(** C5, as the code has it. On a forward page (no [EndingBefore]) [HasMore]
    is the overfetch indicator: over the [:many] query it is set exactly when
    the store returned more than [limit] rows, and over the paginated query
    exactly when the generated function returned a next cursor. The
    previous-page cursor is present exactly when the request carried
    [StartingAfter] and the page has at least one item; so it is absent on the
    first page, and also on an empty page reached through a cursor. *)
Theorem forward_page_previous_cursor :
  forall (Unmarshal : string -> result (option (gmap string string)))
         (ListProducts : option bool -> Z -> option string -> option string ->
                         result (list generated.Row))
         (ListProductsPaginated :
            option bool -> Z -> option string -> M (list generated.Row * option string))
         (filter : models.ListProductsFilter) (page : models.ListProductsResult),
    models.EndingBefore filter = None ->
    (outcome (run (docs_many.ListWithFilters Unmarshal ListProducts filter))
       = Returns (Ok page) ->
     (exists rows,
         ListProducts (models.FilterActive filter) (GoInt.add (models.Limit filter) 1)
           (models.StartingAfter filter) None = Ok rows
         /\ (models.HasMore page = true <-> models.Limit filter < count rows))
     /\ (models.PrevCursor page <> None <->
         models.StartingAfter filter <> None /\ models.Products page <> []))
    /\ (outcome (run (repository_many.ListWithFilters Unmarshal ListProducts filter))
          = Returns (Ok page) ->
        (exists rows,
            ListProducts (models.FilterActive filter) (GoInt.add (models.Limit filter) 1)
              (models.StartingAfter filter) None = Ok rows
            /\ (models.HasMore page = true <-> models.Limit filter < count rows))
        /\ (models.PrevCursor page <> None <->
            models.StartingAfter filter <> None /\ models.Products page <> []))
    /\ (outcome (run (repository.ListWithFilters Unmarshal ListProductsPaginated filter))
          = Returns (Ok page) ->
        (models.HasMore page = true <-> models.NextCursor page <> None)
        /\ (models.PrevCursor page <> None <->
            models.StartingAfter filter <> None /\ models.Products page <> [])).
Proof.
  intros Unmarshal ListProducts ListProductsPaginated filter page Hforward.
  split; [|split].
  - intros H. apply docs_many_page in H as (rows & Hrows & Hmore & Hcursors).
    rewrite Hforward in Hrows. split.
    + exists rows. split; [exact Hrows|]. rewrite Hmore. apply Z.ltb_lt.
    + rewrite <- startingAfterGiven_true.
      now apply previousCursor_present, boundaryCursors_previous.
  - intros H. apply repository_many_page in H as (rows & Hrows & Hmore & Hcursors).
    rewrite (anyCursorGiven_forward _ Hforward) in Hcursors.
    rewrite Hforward in Hrows. split.
    + exists rows. split; [exact Hrows|]. rewrite Hmore. apply Z.ltb_lt.
    + rewrite <- startingAfterGiven_true.
      now apply previousCursor_present, boundaryCursors_previous.
  - intros H.
    apply repository_page in H as [Hmore Hprev].
    split; [exact Hmore|].
    rewrite <- startingAfterGiven_true. now apply previousCursor_present.
Qed.

Lemma forward_page_previous_cursor_witness :
  models.EndingBefore (example.pageAfter "prod_002") = None
  /\ outcome (run (docs_many.ListWithFilters example.Unmarshal
                     (sql.ListProducts example.table) (example.pageAfter "prod_002")))
     = Returns (Ok example.secondPage)
  /\ (models.PrevCursor example.secondPage <> None <->
      models.StartingAfter (example.pageAfter "prod_002") <> None
      /\ models.Products example.secondPage <> []).
Proof.
  assert (H : outcome (run (docs_many.ListWithFilters example.Unmarshal
                              (sql.ListProducts example.table)
                              (example.pageAfter "prod_002")))
              = Returns (Ok example.secondPage)) by reflexivity.
  split; [reflexivity|]. split; [exact H|].
  exact (proj2 (proj1 (forward_page_previous_cursor example.Unmarshal
                         (sql.ListProducts example.table) example.emptyPage
                         (example.pageAfter "prod_002") example.secondPage eq_refl) H)).
Defined.

(** The claim as stated fails on a forward page that a cursor leads to but
    that has no item: the request carries [StartingAfter], and the page has no
    previous-page cursor. *)
Lemma previous_cursor_absent_on_empty_page :
  models.StartingAfter (example.pageAfter "prod_005") = Some "prod_005"
  /\ models.EndingBefore (example.pageAfter "prod_005") = None
  /\ run (docs_many.ListWithFilters example.Unmarshal
            (sql.ListProducts example.table) (example.pageAfter "prod_005"))
     = ([CallListProducts None 3 (Some "prod_005") None],
        Returns (Ok example.pastTheEnd))
  /\ run (repository_many.ListWithFilters example.Unmarshal
            (sql.ListProducts example.table) (example.pageAfter "prod_005"))
     = ([CallListProducts None 3 (Some "prod_005") None],
        Returns (Ok example.pastTheEnd))
  /\ run (repository.ListWithFilters example.Unmarshal example.emptyPage
            (example.pageAfter "prod_005"))
     = ([], Returns (Ok example.pastTheEnd))
  /\ models.PrevCursor example.pastTheEnd = None.
Proof. repeat split. Qed.

(** ** The page size of a list request *)

Lemma Atoi_empty : strconv.Atoi "" = None.
Proof. reflexivity. Qed.

Lemma queryLimit_unfold (query : api.Values) :
  api.queryLimit query
  = match strconv.Atoi (api.Get query "limit") with
    | Some parsed => if (0 <? parsed) && (parsed <=? 100) then parsed else 10
    | None => 10
    end.
Proof.
  unfold api.queryLimit.
  destruct (String.eqb_spec (api.Get query "limit") "") as [->|_]; reflexivity.
Qed.

Lemma listResponse_ok (text : generated.DatabaseError -> string)
    (format : Time -> string) (page : models.ListProductsResult) :
  api.StatusCode (api.listResponse text format (Ok page)) = api.StatusOK.
Proof. reflexivity. Qed.

(** C4, as the code has it. The handler never rejects a list request for its
    limit: a limit from 1 to 100 is used as given, and every other limit (zero
    or negative, above 100, or not an integer) is replaced by the default page
    size 10, not clamped to 100. The page size handed to the service is
    therefore always from 1 to 100, and the response is the service's. *)
Theorem queryLimit_defaults :
  forall (query : api.Values),
    1 <= api.queryLimit query <= 100
    /\ (forall n, strconv.Atoi (api.Get query "limit") = Some n ->
          1 <= n <= 100 -> api.queryLimit query = n)
    /\ (forall n, strconv.Atoi (api.Get query "limit") = Some n ->
          n <= 0 \/ 100 < n -> api.queryLimit query = 10)
    /\ (strconv.Atoi (api.Get query "limit") = None -> api.queryLimit query = 10)
    /\ (forall (text : generated.DatabaseError -> string) (format : Time -> string)
               (productSvc : models.ListProductsFilter -> M models.ListProductsResult)
               (tr tr' : list Query) (page : models.ListProductsResult),
          productSvc (api.listFilter query) tr = (tr', Returns (Ok page)) ->
          models.Limit (api.listFilter query) = api.queryLimit query
          /\ exists response,
               api.ListProducts text format productSvc query tr = (tr', Returns response)
               /\ api.StatusCode response = api.StatusOK).
Proof.
  intros query.
  assert (Hcases :
    (exists n, strconv.Atoi (api.Get query "limit") = Some n
               /\ 1 <= n <= 100 /\ api.queryLimit query = n)
    \/ (exists n, strconv.Atoi (api.Get query "limit") = Some n
                /\ (n <= 0 \/ 100 < n) /\ api.queryLimit query = 10)
    \/ (strconv.Atoi (api.Get query "limit") = None /\ api.queryLimit query = 10)).
  { rewrite queryLimit_unfold.
    destruct (strconv.Atoi (api.Get query "limit")) as [parsed|]; [|now right; right].
    destruct ((0 <? parsed) && (parsed <=? 100)) eqn:Hrange.
    - apply andb_true_iff in Hrange as [Hlo Hhi].
      apply Z.ltb_lt in Hlo. apply Z.leb_le in Hhi.
      left. exists parsed. repeat split; lia.
    - apply andb_false_iff in Hrange.
      right; left. exists parsed. split; [reflexivity|]. split; [|reflexivity].
      destruct Hrange as [H|H]; [apply Z.ltb_ge in H|apply Z.leb_gt in H]; lia. }
  split; [|split; [|split; [|split]]].
  - destruct Hcases as [(n & _ & Hn & ->)|[(n & _ & _ & ->)|[_ ->]]]; lia.
  - intros n Hparsed Hn.
    destruct Hcases as [(m & Hm & _ & ->)|[(m & Hm & Hout & _)|[Hm _]]];
      rewrite Hparsed in Hm; [congruence| |discriminate].
    injection Hm as <-. lia.
  - intros n Hparsed Hn.
    destruct Hcases as [(m & Hm & Hin & _)|[(m & _ & _ & ->)|[_ ->]]];
      try reflexivity.
    rewrite Hparsed in Hm. injection Hm as <-. lia.
  - intros Hparsed.
    destruct Hcases as [(m & Hm & _)|[(m & Hm & _)|[_ ->]]];
      [congruence|congruence|reflexivity].
  - intros text format productSvc tr tr' page Hsvc.
    split; [reflexivity|].
    unfold api.ListProducts. rewrite Hsvc.
    eexists. split; reflexivity.
Qed.

(** The claim as stated fails at [limit=0], [limit=-5] and [limit=500]: the
    request is answered with status 200, from a statement that fetches the
    default page of 10 and one more row. *)
Lemma limit_out_of_range_is_defaulted :
  api.queryLimit [("limit", "0")] = 10
  /\ api.queryLimit [("limit", "-5")] = 10
  /\ api.queryLimit [("limit", "500")] = 10
  /\ statements (example.handler [("limit", "0")]) = [CallListProducts None 11 None None]
  /\ statusOf (example.handler [("limit", "0")]) = Some 200
  /\ statements (example.handler [("limit", "500")]) = [CallListProducts None 11 None None]
  /\ statusOf (example.handler [("limit", "500")]) = Some 200.
Proof. repeat split. Qed.

(** ** A request with both cursors *)






(** ** Cursors on the wire *)




(** The empty string is the one cursor value that does not come back: the
    response omits it and the next request reads no cursor. *)
Example empty_cursor_reads_as_absent :
  api.ptrOrNil (api.cursorString (Some "")) = None.
Proof. reflexivity. Qed.

(** ** [translateError] *)

Section TranslateErrorProperties.

Variables IsNotFound IsAlreadyExists IsInvalidReference IsValidationError
  IsConnectionError IsTimeout IsDatabaseError : error -> bool.

Local Abbreviation translateError :=
  (repository.translateError IsNotFound IsAlreadyExists IsInvalidReference
     IsValidationError IsConnectionError IsTimeout IsDatabaseError).
Local Abbreviation reads :=
  (readsDatabaseError IsNotFound IsAlreadyExists IsInvalidReference
     IsValidationError IsConnectionError IsTimeout).

Lemma translateError_nil : translateError None = Returns None.
Proof. reflexivity. Qed.

(** With a [*generated.DatabaseError] on the chain every case returns. *)
Lemma translateError_database_error (err : error) (d : generated.DatabaseError) :
  errors.AsDatabaseError err = Some d ->
  exists app, translateError (Some err) = Returns (Some app)
              /\ apperrors.isAppError app = true.
Proof.
  intros Has. unfold repository.translateError. rewrite Has. simpl.
  destruct (IsNotFound err); [now eexists|].
  destruct (IsAlreadyExists err); [now eexists|].
  destruct (IsInvalidReference err); [now eexists|].
  destruct (IsValidationError err); [now eexists|].
  destruct (IsConnectionError err); [now eexists|].
  destruct (IsTimeout err); [now eexists|].
  destruct (IsDatabaseError err); now eexists.
Qed.

(** So does every case that reads no field of [dbErr]. *)
Lemma translateError_no_field_read (err : error) :
  reads err = false ->
  exists app, translateError (Some err) = Returns (Some app)
              /\ apperrors.isAppError app = true.
Proof.
  unfold readsDatabaseError, repository.translateError.
  destruct (IsNotFound err); [discriminate|].
  destruct (IsAlreadyExists err); [discriminate|].
  destruct (IsInvalidReference err); [discriminate|].
  destruct (IsValidationError err); [discriminate|].
  destruct (IsConnectionError err); [now eexists|].
  destruct (IsTimeout err); [discriminate|].
  destruct (IsDatabaseError err); now eexists.
Qed.

(** Without one, a case that reads a field dereferences the nil [dbErr]. *)
Lemma translateError_nil_dereference (err : error) :
  errors.AsDatabaseError err = None -> reads err = true ->
  translateError (Some err) = Panics NilDereference.
Proof.
  intros Has. unfold readsDatabaseError, repository.translateError. rewrite Has. simpl.
  destruct (IsNotFound err); [reflexivity|].
  destruct (IsAlreadyExists err); [reflexivity|].
  destruct (IsInvalidReference err); [reflexivity|].
  destruct (IsValidationError err); [reflexivity|].
  destruct (IsConnectionError err); [discriminate|].
  destruct (IsTimeout err); [reflexivity|discriminate].
Qed.

End TranslateErrorProperties.

(** C8, as the code behaves. [translateError] returns nil for nil, and for a
    non-nil error it returns an error of package [apperrors] when the error
    wraps a [*generated.DatabaseError] or when the case taken reads no field
    of it. When [errors.As] finds no [*generated.DatabaseError] and the case
    taken is that of [IsNotFound], [IsAlreadyExists], [IsInvalidReference],
    [IsValidationError] or [IsTimeout], the method panics on the nil
    dereference and returns nothing. *)
Theorem translateError_outcome :
  forall (IsNotFound IsAlreadyExists IsInvalidReference IsValidationError
            IsConnectionError IsTimeout IsDatabaseError : error -> bool) (err : error),
    let translateError :=
      repository.translateError IsNotFound IsAlreadyExists IsInvalidReference
        IsValidationError IsConnectionError IsTimeout IsDatabaseError in
    let reads :=
      readsDatabaseError IsNotFound IsAlreadyExists IsInvalidReference
        IsValidationError IsConnectionError IsTimeout in
    translateError None = Returns None
    /\ (errors.AsDatabaseError err <> None \/ reads err = false ->
        exists app, translateError (Some err) = Returns (Some app)
                    /\ apperrors.isAppError app = true)
    /\ (errors.AsDatabaseError err = None /\ reads err = true ->
        translateError (Some err) = Panics NilDereference).
Proof.
  intros IsNotFound IsAlreadyExists IsInvalidReference IsValidationError
    IsConnectionError IsTimeout IsDatabaseError err translateError reads.
  split; [reflexivity|]. split.
  - intros [Has|Hreads].
    + destruct (errors.AsDatabaseError err) as [d|] eqn:Hd; [|now destruct Has].
      now apply translateError_database_error with d.
    + now apply translateError_no_field_read.
  - intros [Has Hreads]. now apply translateError_nil_dereference.
Qed.

(** The sentinel [errors.New("not found")], matched by an [IsNotFound] that
    tests for it with [errors.Is], wraps no [*generated.DatabaseError]:
    translating it panics. *)
Lemma translateError_sentinel_panics :
  errors.AsDatabaseError example.ErrNotFound = None
  /\ example.Is "not found" example.ErrNotFound = true
  /\ repository.translateError (example.Is "not found") example.never example.never
       example.never example.never example.never example.never
       (Some example.ErrNotFound)
     = Panics NilDereference.
Proof.
  split; [reflexivity|]. split; [reflexivity|].
  exact (proj2 (proj2 (translateError_outcome (example.Is "not found") example.never
                         example.never example.never example.never example.never
                         example.never example.ErrNotFound))
           (conj eq_refl eq_refl)).
Defined.

(** ** A cursor that does not decode *)

Section MalformedCursor.

Variable maxLimit : Z.
Variable sortDirection : SortDirection.
Variable parseCursor : string -> option Cursor.
Variable encode : Cursor -> string.
Variable cursorOf : generated.Row -> Cursor.
Variable store : option bool -> Plan -> result (list generated.Row).
Variable Unmarshal : string -> result (option (gmap string string)).

Local Abbreviation ListProductsPaginated :=
  (paginated.ListProductsPaginated maxLimit sortDirection parseCursor encode
     cursorOf store).

Lemma decode_malformed (cursor : string) :
  parseCursor cursor = None ->
  paginated.decode parseCursor cursor = Err paginated.MalformedCursorError.
Proof. intros H. unfold paginated.decode. now rewrite H. Qed.

Lemma paginated_malformed (active : option bool) (limit : Z) (cursor : string)
    (tr : list Query) :
  parseCursor cursor = None ->
  ListProductsPaginated active limit (Some cursor) tr
  = (tr, Returns (Err paginated.MalformedCursorError)).
Proof.
  intros H.
  unfold paginated.ListProductsPaginated, paginated.paginate, bind, liftResult.
  simpl. unfold paginated.decode. now rewrite H.
Qed.

Lemma repository_malformed (filter : models.ListProductsFilter) (cursor : string)
    (tr : list Query) :
  parseCursor cursor = None ->
  models.StartingAfter filter = Some cursor ->
  repository.ListWithFilters Unmarshal ListProductsPaginated filter tr
  = (tr, Returns (Err paginated.MalformedCursorError)).
Proof.
  intros Hparse Hcursor.
  rewrite repository_unfold, Hcursor, paginated_malformed by exact Hparse.
  reflexivity.
Qed.

End MalformedCursor.

(** C7. With the paginated query function as the specification describes it,
    a cursor string that does not parse into a cursor tuple makes [decode]
    fail with the malformed-cursor error; the query function returns that
    error without sending a statement to the store; [ListWithFilters] hands
    the same error to its caller, again with nothing sent; and the handler,
    for a non-empty [starting_after] of that kind, answers with an error
    document and not with a first page. *)
Theorem malformed_cursor_is_reported :
  forall (maxLimit : Z) (sortDirection : SortDirection)
         (parseCursor : string -> option Cursor) (encode : Cursor -> string)
         (cursorOf : generated.Row -> Cursor)
         (store : option bool -> Plan -> result (list generated.Row))
         (Unmarshal : string -> result (option (gmap string string)))
         (text : generated.DatabaseError -> string) (format : Time -> string)
         (cursor : string),
    parseCursor cursor = None ->
    let ListProductsPaginated :=
      paginated.ListProductsPaginated maxLimit sortDirection parseCursor encode
        cursorOf store in
    paginated.decode parseCursor cursor = Err paginated.MalformedCursorError
    /\ (forall active limit,
          run (ListProductsPaginated active limit (Some cursor))
          = ([], Returns (Err paginated.MalformedCursorError)))
    /\ (forall filter,
          models.StartingAfter filter = Some cursor ->
          run (repository.ListWithFilters Unmarshal ListProductsPaginated filter)
          = ([], Returns (Err paginated.MalformedCursorError)))
    /\ (forall query,
          api.Get query "starting_after" = cursor -> cursor <> "" ->
          api.ListProducts text format
            (service.ListProducts
               (repository.ListWithFilters Unmarshal ListProductsPaginated))
            query []
          = ([], Returns (api.InternalError text
                            (Some paginated.MalformedCursorError)
                            "internal server error"))).
Proof.
  intros maxLimit sortDirection parseCursor encode cursorOf store Unmarshal
    text format cursor Hparse ListProductsPaginated.
  subst ListProductsPaginated.
  split; [now apply decode_malformed|].
  split; [intros; now apply paginated_malformed|].
  split; [intros filter Hcursor; now apply repository_malformed with cursor|].
  intros query Hget Hnonempty.
  unfold api.ListProducts, service.ListProducts.
  rewrite repository_malformed with (cursor := cursor); [reflexivity|exact Hparse|].
  simpl. rewrite Hget. unfold api.ptrOrNil.
  destruct (String.eqb_spec cursor "") as [->|_]; [now destruct Hnonempty|reflexivity].
Qed.

Lemma malformed_cursor_is_reported_witness :
  example.parseCursor "garbage" = None
  /\ run (repository.ListWithFilters example.Unmarshal
            (paginated.ListProductsPaginated 100 ASC example.parseCursor
               example.encode example.cursorOf example.emptyStore)
            (example.pageAfter "garbage"))
     = ([], Returns (Err paginated.MalformedCursorError)).
Proof.
  assert (H : example.parseCursor "garbage" = None) by reflexivity.
  split; [exact H|].
  exact (proj1 (proj2 (proj2 (malformed_cursor_is_reported 100 ASC example.parseCursor
                                example.encode example.cursorOf example.emptyStore
                                example.Unmarshal example.databaseErrorText
                                example.formatRFC3339 "garbage" H)))
           (example.pageAfter "garbage") eq_refl).
Defined.

(** The engine modelled from the specification reproduces the four pages of
    the specification's example over [prod_001] to [prod_005]. *)
Example engine_first_page :
  example.summary (run (example.paginate None None))
  = Some (["prod_001"; "prod_002"], true, false, Some "prod_002", None).
Proof. reflexivity. Qed.

Example engine_second_page :
  example.summary (run (example.paginate (Some "prod_002") None))
  = Some (["prod_003"; "prod_004"], true, true, Some "prod_004", Some "prod_003").
Proof. reflexivity. Qed.

Example engine_last_page :
  example.summary (run (example.paginate (Some "prod_004") None))
  = Some (["prod_005"], false, true, None, Some "prod_005").
Proof. reflexivity. Qed.

Example engine_backward_page :
  example.summary (run (example.paginate None (Some "prod_003")))
  = Some (["prod_001"; "prod_002"], true, false, Some "prod_002", None).
Proof. reflexivity. Qed.

Example engine_rejects_both_cursors :
  run (example.paginate (Some "prod_001") (Some "prod_004"))
  = ([], Returns (Err paginated.PaginationValidationError)).
Proof. reflexivity. Qed.

(** Behind the documented method over [PaginationParams], the engine of the
    specification does reject a request with two cursors that decode, before
    its store call: the check is the generated function's, not the
    repository's. *)
Lemma documented_paginated_rejects_both_cursors :
  forall (maxLimit : Z) (sortDirection : SortDirection)
         (parseCursor : string -> option Cursor) (encode : Cursor -> string)
         (cursorOf : generated.Row -> Cursor)
         (store : option bool -> Plan -> result (list generated.Row))
         (Unmarshal : string -> result (option (gmap string string)))
         (filter : models.ListProductsFilter) (after before : string)
         (cursorAfter cursorBefore : Cursor),
    models.StartingAfter filter = Some after -> after <> "" ->
    models.EndingBefore filter = Some before -> before <> "" ->
    parseCursor after = Some cursorAfter ->
    parseCursor before = Some cursorBefore ->
    run (docs_paginated.ListWithFilters Unmarshal
           (paginated.ListProductsPaginatedParams maxLimit sortDirection parseCursor
              encode cursorOf store)
           filter)
    = ([], Returns (Err paginated.PaginationValidationError)).
Proof.
  intros maxLimit sortDirection parseCursor encode cursorOf store Unmarshal filter
    after before cursorAfter cursorBefore Hafter Hne Hbefore Hne' Hpa Hpb.
  unfold docs_paginated.ListWithFilters, paginated.ListProductsPaginatedParams,
    paginated.paginate.
  unfold_run. rewrite Hafter, Hbefore. simpl.
  destruct (String.eqb_spec after "") as [->|_]; [now destruct Hne|].
  destruct (String.eqb_spec before "") as [->|_]; [now destruct Hne'|].
  simpl. unfold paginated.decode. rewrite Hpa, Hpb. reflexivity.
Qed.

(** * Further properties of the code *)

(** ** What [sanitizeErrorMessage] lets through *)

Lemma detected_sensitive (message : string) :
  sensitive message -> detected message = true.
Proof. apply sensitive_detected. Qed.

Lemma HasPrefix_split (s w : string) :
  strings.HasPrefix s w = true -> exists post, s = w +:+ post.
Proof.
  unfold strings.HasPrefix. revert s.
  induction w as [|c w IH]; intros s H.
  - now exists s.
  - destruct s as [|d s]; simpl in H; [discriminate|].
    destruct (ascii_dec c d) as [->|_]; [|discriminate].
    destruct (IH s H) as [post ->]. now exists post.
Qed.

Lemma Contains_split (s w : string) :
  strings.Contains s w = true -> exists pre post, s = pre +:+ (w +:+ post).
Proof.
  induction s as [|c s IH]; cbn [strings.Contains]; intros H.
  - rewrite orb_false_r in H. apply HasPrefix_split in H as [post ->].
    now exists "", post.
  - apply orb_true_iff in H as [H|H].
    + apply HasPrefix_split in H as [post ->]. now exists "", post.
    + destruct (IH H) as (pre & post & ->). now exists (String c pre), post.
Qed.

Lemma ToLower_split (m a b : string) :
  strings.ToLower m = a +:+ b ->
  exists a' b', m = a' +:+ b' /\ strings.ToLower a' = a /\ strings.ToLower b' = b.
Proof.
  revert m. induction a as [|c a IH]; intros m H.
  - now exists "", m.
  - destruct m as [|d m]; [discriminate|].
    simpl in H. injection H as Hc Hrest.
    destruct (IH m Hrest) as (a' & b' & -> & Ha & Hb).
    exists (String d a'), b'. simpl. now rewrite Hc, Ha.
Qed.

Lemma Contains_mentions (word message : string) :
  strings.Contains (strings.ToLower message) word = true -> mentions word message.
Proof.
  intros H. apply Contains_split in H as (pre & post & H).
  apply ToLower_split in H as (pre' & rest & -> & _ & H).
  apply ToLower_split in H as (mid & post' & -> & Hmid & _).
  now exists pre', mid, post'.
Qed.

Lemma detected_iff_sensitive (message : string) :
  detected message = true <-> sensitive message.
Proof.
  split; [|apply sensitive_detected].
  unfold detected, sensitive. rewrite !orb_true_iff.
  intros [[H|H]|H]; apply Contains_mentions in H; auto.
Qed.

Lemma sanitizeErrorMessage_cases (message : string) (statusCode : Z) :
  api.sanitizeErrorMessage message statusCode
  = if 500 <=? statusCode then "An internal error occurred"
    else if detected message then "Invalid request" else message.
Proof.
  unfold api.sanitizeErrorMessage, detected.
  destruct (_ || _ || _); destruct (500 <=? statusCode); reflexivity.
Qed.

Lemma sanitizeErrorMessage_undetected (message : string) (statusCode : Z) :
  detected (api.sanitizeErrorMessage message statusCode) = false.
Proof.
  rewrite sanitizeErrorMessage_cases.
  destruct (500 <=? statusCode); [reflexivity|].
  destruct (detected message) eqn:Hd; [reflexivity|exact Hd].
Qed.

(** X1. Whatever the message and the status, the text that
    [sanitizeErrorMessage] returns mentions none of "sql", "database" and
    "postgres" in any letter case; sanitizing it again changes nothing; and
    below status 500 a message without those words is returned as it is. *)
Theorem sanitizeErrorMessage_output_is_clean :
  forall (message : string) (statusCode : Z),
    ~ sensitive (api.sanitizeErrorMessage message statusCode)
    /\ api.sanitizeErrorMessage (api.sanitizeErrorMessage message statusCode) statusCode
       = api.sanitizeErrorMessage message statusCode
    /\ (statusCode < 500 -> ~ sensitive message ->
        api.sanitizeErrorMessage message statusCode = message).
Proof.
  intros message statusCode. split; [|split].
  - intros Hs. apply detected_sensitive in Hs.
    now rewrite sanitizeErrorMessage_undetected in Hs.
  - rewrite (sanitizeErrorMessage_cases (api.sanitizeErrorMessage _ _)).
    rewrite sanitizeErrorMessage_undetected.
    destruct (500 <=? statusCode) eqn:H5; [|reflexivity].
    rewrite sanitizeErrorMessage_cases. now rewrite H5.
  - intros Hlt Hclean. rewrite sanitizeErrorMessage_cases.
    apply Z.leb_gt in Hlt. rewrite Hlt.
    destruct (detected message) eqn:Hd; [|reflexivity].
    now apply detected_iff_sensitive in Hd.
Qed.

(** ** The response to a service error *)

Section ServiceErrors.

Variable text : generated.DatabaseError -> string.

Lemma handleServiceError_wrapError (prefix : string) (err : error) :
  api.StatusCode (api.handleServiceError text (wrapError prefix err))
  = api.StatusCode (api.handleServiceError text err).
Proof.
  unfold api.handleServiceError. simpl.
  destruct (errors.AsNotFoundError err); [reflexivity|].
  destruct (errors.AsValidationError err); [reflexivity|].
  destruct (errors.AsConflictError err); [reflexivity|].
  destruct (errors.AsOptimisticLockError err); reflexivity.
Qed.

Lemma handleServiceError_status (err : error) :
  api.StatusCode (api.handleServiceError text err) = statusOfError err.
Proof.
  induction err as [| | | | | | | |prefix inner IH]; try reflexivity.
  rewrite handleServiceError_wrapError. exact IH.
Qed.

Lemma handleServiceError_detail (err : error) :
  exists message param,
    api.handleServiceError text err
    = api.renderError text (statusOfError err) (Some err) message param.
Proof.
  assert (Hs := handleServiceError_status err).
  unfold api.handleServiceError in *.
  destruct (errors.AsNotFoundError err);
    [rewrite <- Hs; now eexists _, _|].
  destruct (errors.AsValidationError err);
    [rewrite <- Hs; now eexists _, _|].
  destruct (errors.AsConflictError err);
    [rewrite <- Hs; now eexists _, _|].
  destruct (errors.AsOptimisticLockError err);
    rewrite <- Hs; now eexists _, _.
Qed.

End ServiceErrors.

(** X2. [handleServiceError] answers an error by the application error at the
    end of its chain: not found with 404, validation with 400, conflict and
    optimistic lock with 409, and every other error (service unavailable and
    timeout among them) with 500; wrapping an error with [%w] does not change
    the status. The document's type is "invalid_request_error" exactly when
    the status is not 500, and at 500 the message is the fixed text. *)
Theorem handleServiceError_answers_by_kind :
  forall (text : generated.DatabaseError -> string) (err : error),
    let response := api.handleServiceError text err in
    api.StatusCode response = statusOfError err
    /\ (forall prefix,
          api.StatusCode (api.handleServiceError text (wrapError prefix err))
          = api.StatusCode response)
    /\ (exists detail,
          errorDetail response = Some detail
          /\ (api.Type_ detail = "invalid_request_error" <-> statusOfError err <> 500)
          /\ (statusOfError err = 500 ->
              api.Message detail = "An internal error occurred")).
Proof.
  intros text err response. subst response.
  split; [apply handleServiceError_status|].
  split; [intros; apply handleServiceError_wrapError|].
  destruct (handleServiceError_detail text err) as (message & param & ->).
  eexists. split; [reflexivity|]. simpl.
  assert (Hkinds : statusOfError err = 404 \/ statusOfError err = 400
                   \/ statusOfError err = 409 \/ statusOfError err = 500).
  { induction err; simpl; auto. }
  split.
  - destruct Hkinds as [H | [H | [H | H]]]; rewrite H; simpl; split; congruence.
  - intros ->. now rewrite sanitizeErrorMessage_cases.
Qed.

(** X3. The [code] field of the error document that [handleServiceError]
    writes is the full text of the error, whatever the status, while the
    [message] field beside it never mentions "sql", "database" or "postgres":
    the sanitizer covers the message only. *)
Theorem handleServiceError_code_is_raw_text :
  forall (text : generated.DatabaseError -> string) (err : error),
    exists detail,
      errorDetail (api.handleServiceError text err) = Some detail
      /\ api.Code detail = Error text err
      /\ ~ sensitive (api.Message detail).
Proof.
  intros text err.
  destruct (handleServiceError_detail text err) as (message & param & ->).
  eexists. split; [reflexivity|]. split; [reflexivity|].
  simpl. intros Hs. apply detected_iff_sensitive in Hs.
  now rewrite sanitizeErrorMessage_undetected in Hs.
Qed.

Example unavailable_database_code_and_message :
  errorDetail (api.handleServiceError example.databaseErrorText
                 (ServiceUnavailableError "database connection error"))
  = Some {| api.Type_ := "api_error";
            api.Code := "service unavailable: database connection error";
            api.Message := "An internal error occurred";
            api.Param := "" |}.
Proof. reflexivity. Qed.

(** X4. An error that wraps a [*generated.DatabaseError] goes through
    [translateError] and then [handleServiceError] to these statuses: 404
    when [IsNotFound] holds, else 409 when [IsAlreadyExists] or
    [IsInvalidReference] holds, else 400 when [IsValidationError] holds, and
    500 in every other case, connection errors and timeouts included. *)
Theorem translated_error_status :
  forall (IsNotFound IsAlreadyExists IsInvalidReference IsValidationError
            IsConnectionError IsTimeout IsDatabaseError : error -> bool)
         (text : generated.DatabaseError -> string)
         (err : error) (dbErr : generated.DatabaseError),
    errors.AsDatabaseError err = Some dbErr ->
    exists app,
      repository.translateError IsNotFound IsAlreadyExists IsInvalidReference
        IsValidationError IsConnectionError IsTimeout IsDatabaseError (Some err)
      = Returns (Some app)
      /\ api.StatusCode (api.handleServiceError text app)
         = (if IsNotFound err then 404
            else if IsAlreadyExists err then 409
            else if IsInvalidReference err then 409
            else if IsValidationError err then 400
            else 500).
Proof.
  intros IsNotFound IsAlreadyExists IsInvalidReference IsValidationError
    IsConnectionError IsTimeout IsDatabaseError text err dbErr Has.
  unfold repository.translateError. rewrite Has. simpl.
  destruct (IsNotFound err); [now eexists|].
  destruct (IsAlreadyExists err); [now eexists|].
  destruct (IsInvalidReference err); [now eexists|].
  destruct (IsValidationError err); [now eexists|].
  destruct (IsConnectionError err); [now eexists|].
  destruct (IsTimeout err); [now eexists|].
  destruct (IsDatabaseError err); now eexists.
Qed.

Lemma translated_error_status_witness :
  errors.AsDatabaseError sample.queryError = Some sample.productError
  /\ exists app,
      repository.translateError example.never example.never example.never
        example.never example.never sample.always example.never
        (Some sample.queryError)
      = Returns (Some app)
      /\ api.StatusCode (api.handleServiceError example.databaseErrorText app) = 500.
Proof.
  split; [reflexivity|].
  exact (translated_error_status example.never example.never example.never
           example.never example.never sample.always example.never
           example.databaseErrorText sample.queryError sample.productError eq_refl).
Defined.

(** ** The size of a page and the limits that reach the repository *)

Lemma trimmed_Returns (filter : models.ListProductsFilter)
    (rows results : list generated.Row) :
  trimmed filter rows = Returns results ->
  0 <= models.Limit filter
  /\ count results <= models.Limit filter
  /\ ((models.Limit filter <? count rows) = true -> count results = models.Limit filter).
Proof.
  unfold trimmed, sliceTo.
  destruct (models.Limit filter <? count rows) eqn:Hmore.
  - destruct ((0 <=? models.Limit filter)
              && (models.Limit filter <=? Z.of_nat (length rows))) eqn:Hin;
      [|discriminate].
    apply andb_true_iff in Hin as [H0 H1].
    apply Z.leb_le in H0, H1. intros [= <-].
    assert (count (take (Z.to_nat (models.Limit filter)) rows) = models.Limit filter)
      by (apply count_take; unfold count; lia).
    lia.
  - apply Z.ltb_ge in Hmore. intros [= <-].
    unfold count in *. split; [lia|]. split; [lia|discriminate].
Qed.

Lemma trimmed_negative (filter : models.ListProductsFilter) (rows : list generated.Row) :
  models.Limit filter < 0 -> trimmed filter rows = Panics SliceBounds.
Proof.
  intros Hneg. unfold trimmed.
  assert (H : (models.Limit filter <? count rows) = true)
    by (apply Z.ltb_lt; unfold count; lia).
  rewrite H. now apply sliceTo_negative.
Qed.

Section PageSize.

Variable Unmarshal : string -> result (option (gmap string string)).
Variable ListProducts :
  option bool -> Z -> option string -> option string -> result (list generated.Row).
Variables (filter : models.ListProductsFilter) (page : models.ListProductsResult).

Lemma docs_many_page_size :
  outcome (run (docs_many.ListWithFilters Unmarshal ListProducts filter))
  = Returns (Ok page) ->
  0 <= count (models.Products page) <= models.Limit filter
  /\ (models.HasMore page = true -> count (models.Products page) = models.Limit filter).
Proof.
  rewrite docs_many_unfold. unfold outcome. simpl.
  destruct (ListProducts _ _ _ _) as [rows|e]; [|discriminate].
  destruct (trimmed filter rows) as [results|p] eqn:Htrim; [|discriminate].
  destruct (convertRows _ _) as [products|e] eqn:Hconv; [|discriminate].
  intros H. injection H as <-. simpl.
  apply trimmed_Returns in Htrim as (H0 & Hle & Hfull).
  apply convertRows_length in Hconv. rewrite Hconv.
  split; [unfold count in *; lia|exact Hfull].
Qed.

Lemma repository_many_page_size :
  outcome (run (repository_many.ListWithFilters Unmarshal ListProducts filter))
  = Returns (Ok page) ->
  0 <= count (models.Products page) <= models.Limit filter
  /\ (models.HasMore page = true -> count (models.Products page) = models.Limit filter).
Proof.
  rewrite repository_many_unfold. unfold outcome. simpl.
  destruct (ListProducts _ _ _ _) as [rows|e]; [|discriminate].
  destruct (trimmed filter rows) as [results|p] eqn:Htrim; [|discriminate].
  destruct (convertRows _ _) as [products|e] eqn:Hconv; [|discriminate].
  intros H. injection H as <-. simpl.
  apply trimmed_Returns in Htrim as (H0 & Hle & Hfull).
  apply convertRows_length in Hconv. rewrite Hconv.
  split; [unfold count in *; lia|exact Hfull].
Qed.

End PageSize.

(** X5. Whatever the store returns, a page that [ListWithFilters] over the
    [:many] query returns never has more than [limit] items, and it has
    exactly [limit] items when [HasMore] is set. Stated for the documented
    method and for its Go source. *)
Theorem page_never_exceeds_limit :
  forall (Unmarshal : string -> result (option (gmap string string)))
         (ListProducts : option bool -> Z -> option string -> option string ->
                         result (list generated.Row))
         (filter : models.ListProductsFilter) (page : models.ListProductsResult),
    (outcome (run (docs_many.ListWithFilters Unmarshal ListProducts filter))
       = Returns (Ok page) ->
     0 <= count (models.Products page) <= models.Limit filter
     /\ (models.HasMore page = true ->
         count (models.Products page) = models.Limit filter))
    /\ (outcome (run (repository_many.ListWithFilters Unmarshal ListProducts filter))
          = Returns (Ok page) ->
        0 <= count (models.Products page) <= models.Limit filter
        /\ (models.HasMore page = true ->
            count (models.Products page) = models.Limit filter)).
Proof.
  intros. split; [apply docs_many_page_size|apply repository_many_page_size].
Qed.

(** X6. With a negative limit [ListWithFilters] over the [:many] query never
    returns a page: it returns the store's error when the store fails, and
    when the store answers, with any rows or none, the slice expression
    [results[:filter.Limit]] panics. *)
Theorem negative_limit_never_pages :
  forall (Unmarshal : string -> result (option (gmap string string)))
         (ListProducts : option bool -> Z -> option string -> option string ->
                         result (list generated.Row))
         (filter : models.ListProductsFilter),
    models.Limit filter < 0 ->
    let answer :=
      ListProducts (models.FilterActive filter) (GoInt.add (models.Limit filter) 1)
        (models.StartingAfter filter) (models.EndingBefore filter) in
    let expected : go (result models.ListProductsResult) :=
      match answer with
      | Err err => Returns (Err err)
      | Ok _ => Panics SliceBounds
      end in
    outcome (run (docs_many.ListWithFilters Unmarshal ListProducts filter)) = expected
    /\ outcome (run (repository_many.ListWithFilters Unmarshal ListProducts filter))
       = expected.
Proof.
  intros Unmarshal ListProducts filter Hneg answer expected.
  subst expected answer.
  rewrite docs_many_unfold, repository_many_unfold. unfold outcome. simpl.
  destruct (ListProducts _ _ _ _) as [rows|e]; [|now split].
  now rewrite trimmed_negative.
Qed.

Lemma negative_limit_never_pages_witness :
  -1 < 0
  /\ outcome (run (repository_many.ListWithFilters example.Unmarshal
                     (sql.ListProducts example.table)
                     {| models.FilterActive := None; models.Limit := -1;
                        models.StartingAfter := None; models.EndingBefore := None |}))
     = Panics SliceBounds.
Proof.
  assert (H : -1 < 0) by lia.
  split; [exact H|].
  exact (proj2 (negative_limit_never_pages example.Unmarshal
                  (sql.ListProducts example.table)
                  {| models.FilterActive := None; models.Limit := -1;
                     models.StartingAfter := None; models.EndingBefore := None |} H)).
Defined.

Lemma queryLimit_range (query : api.Values) : 1 <= api.queryLimit query <= 100.
Proof.
  rewrite queryLimit_unfold.
  destruct (strconv.Atoi _) as [parsed|]; [|lia].
  destruct ((0 <? parsed) && (parsed <=? 100)) eqn:Hrange; [|lia].
  apply andb_true_iff in Hrange as [Hlo Hhi].
  apply Z.ltb_lt in Hlo. apply Z.leb_le in Hhi. lia.
Qed.

Lemma trimmed_in_range (filter : models.ListProductsFilter) (rows : list generated.Row) :
  0 <= models.Limit filter -> exists results, trimmed filter rows = Returns results.
Proof.
  intros H0. unfold trimmed.
  destruct (models.Limit filter <? count rows) eqn:Hmore; [|now eexists].
  apply Z.ltb_lt in Hmore. rewrite sliceTo_within by lia. now eexists.
Qed.

(** X7. Through the list handler the repository over the [:many] query never
    panics, whatever the request, the store and the JSON decoder do: the page
    size that reaches it is from 1 to 100, the statement asks for at most 101
    rows, and the handler always writes a response. *)
Theorem list_handler_always_responds :
  forall (text : generated.DatabaseError -> string) (format : Time -> string)
         (Unmarshal : string -> result (option (gmap string string)))
         (ListProducts : option bool -> Z -> option string -> option string ->
                         result (list generated.Row))
         (query : api.Values),
    exists limit response,
      1 <= limit <= 100
      /\ api.ListProducts text format
           (service.ListProducts
              (repository_many.ListWithFilters Unmarshal ListProducts))
           query []
         = ([CallListProducts (api.queryActive query) (limit + 1)
               (api.ptrOrNil (api.Get query "starting_after")) None],
            Returns response).
Proof.
  intros text format Unmarshal ListProducts query.
  pose proof (queryLimit_range query) as Hrange.
  exists (api.queryLimit query).
  unfold api.ListProducts, service.ListProducts.
  change (repository_many.ListWithFilters Unmarshal ListProducts
            (api.listFilter query) [])
    with (run (repository_many.ListWithFilters Unmarshal ListProducts
                 (api.listFilter query))).
  rewrite repository_many_unfold. unfold manyStatement.
  change (models.Limit (api.listFilter query)) with (api.queryLimit query).
  rewrite add_no_overflow by (unfold GoInt.maxInt; lia).
  simpl.
  destruct (ListProducts _ _ _ _) as [rows|e]; [|now eexists].
  destruct (trimmed_in_range (api.listFilter query) rows) as [results ->];
    [simpl; lia|].
  destruct (convertRows _ _); now eexists.
Qed.

(** ** The order of text *)

Lemma ascii_compare_refl (a : ascii) : Ascii.compare a a = Eq.
Proof. unfold Ascii.compare. apply N.compare_refl. Qed.

Lemma string_compare_refl (s : string) : String.compare s s = Eq.
Proof.
  induction s as [|c s IH]; simpl; [reflexivity|].
  now rewrite ascii_compare_refl.
Qed.

Lemma ascii_compare_Lt_trans (a b c : ascii) :
  Ascii.compare a b = Lt -> Ascii.compare b c = Lt -> Ascii.compare a c = Lt.
Proof.
  unfold Ascii.compare. rewrite !N.compare_lt_iff. lia.
Qed.

Lemma string_compare_Lt_trans (s1 s2 s3 : string) :
  String.compare s1 s2 = Lt -> String.compare s2 s3 = Lt -> String.compare s1 s3 = Lt.
Proof.
  revert s2 s3. induction s1 as [|a s1 IH]; intros [|b s2] [|c s3]; simpl;
    try discriminate; try reflexivity.
  destruct (Ascii.compare a b) eqn:Hab; try discriminate.
  - apply Ascii.compare_eq_iff in Hab as ->.
    destruct (Ascii.compare b c) eqn:Hbc; try discriminate; [|reflexivity].
    apply IH.
  - intros _.
    destruct (Ascii.compare b c) eqn:Hbc; try discriminate.
    + apply Ascii.compare_eq_iff in Hbc as <-. now rewrite Hab.
    + intros _. now rewrite (ascii_compare_Lt_trans a b c Hab Hbc).
Qed.

Lemma ltb_Lt (s1 s2 : string) : String.ltb s1 s2 = true <-> String.compare s1 s2 = Lt.
Proof. unfold String.ltb. destruct (String.compare s1 s2); split; congruence. Qed.

Lemma leb_cases (s1 s2 : string) :
  String.leb s1 s2 = true <-> String.ltb s1 s2 = true \/ s1 = s2.
Proof.
  unfold String.leb, String.ltb.
  destruct (String.compare s1 s2) eqn:Hc; split; try tauto; try congruence.
  - intros _. right. now apply String.compare_eq_iff.
  - intros [H|H]; [discriminate|]. subst. rewrite string_compare_refl in Hc. discriminate.
Qed.

Lemma ltb_irrefl (s : string) : String.ltb s s = false.
Proof. unfold String.ltb. now rewrite string_compare_refl. Qed.

Lemma ltb_trans (s1 s2 s3 : string) :
  String.ltb s1 s2 = true -> String.ltb s2 s3 = true -> String.ltb s1 s3 = true.
Proof. rewrite !ltb_Lt. apply string_compare_Lt_trans. Qed.

Lemma ltb_asym (s1 s2 : string) :
  String.ltb s1 s2 = true -> String.ltb s2 s1 = false.
Proof.
  intros H. destruct (String.ltb s2 s1) eqn:H'; [|reflexivity].
  pose proof (ltb_trans _ _ _ H H') as Hc. now rewrite ltb_irrefl in Hc.
Qed.

Lemma leb_trans (s1 s2 s3 : string) :
  String.leb s1 s2 = true -> String.leb s2 s3 = true -> String.leb s1 s3 = true.
Proof.
  rewrite !leb_cases. intros [H1 | ->] [H2 | ->]; auto.
  left. now apply ltb_trans with s2.
Qed.

Lemma leb_false_ltb (s1 s2 : string) :
  String.leb s1 s2 = false -> String.ltb s2 s1 = true.
Proof.
  unfold String.leb, String.ltb. rewrite (String.compare_antisym s2 s1).
  now destruct (String.compare s1 s2).
Qed.

Lemma ltb_leb (s1 s2 : string) : String.ltb s1 s2 = true -> String.leb s1 s2 = true.
Proof. intros H. apply leb_cases. now left. Qed.

(** ** The statement of products.sql *)

Lemma Forall_insertById (P : generated.Row -> Prop) (row : generated.Row)
    (rows : list generated.Row) :
  Forall P (sql.insertById row rows) <-> P row /\ Forall P rows.
Proof.
  induction rows as [|r rows IH]; simpl.
  - rewrite Forall_singleton. split; [intros H; split; [exact H|constructor]|tauto].
  - destruct (String.leb _ _).
    + rewrite Forall_cons. reflexivity.
    + rewrite !Forall_cons, IH. tauto.
Qed.

Lemma Forall_orderById (P : generated.Row -> Prop) (rows : list generated.Row) :
  Forall P (sql.orderById rows) <-> Forall P rows.
Proof.
  unfold sql.orderById. induction rows as [|r rows IH]; simpl; [reflexivity|].
  rewrite Forall_insertById, Forall_cons, IH. reflexivity.
Qed.

Lemma insertById_Permutation (row : generated.Row) (rows : list generated.Row) :
  sql.insertById row rows ≡ₚ row :: rows.
Proof.
  induction rows as [|r rows IH]; simpl; [reflexivity|].
  destruct (String.leb _ _); [reflexivity|].
  rewrite IH. apply Permutation_swap.
Qed.

Lemma orderById_Permutation (rows : list generated.Row) : sql.orderById rows ≡ₚ rows.
Proof.
  unfold sql.orderById. induction rows as [|r rows IH]; simpl; [reflexivity|].
  now rewrite insertById_Permutation, IH.
Qed.

Lemma insertById_ascending (row : generated.Row) (rows : list generated.Row) :
  ascending rows -> ascending (sql.insertById row rows).
Proof.
  induction rows as [|r rows IH]; simpl.
  - intros _. split; [constructor|exact I].
  - intros [Hr Hrest].
    destruct (String.leb (generated.Id row) (generated.Id r)) eqn:Hle; simpl.
    + split; [|now split].
      constructor; [exact Hle|].
      eapply Forall_impl; [exact Hr|]. intros later Hlater. simpl in Hlater.
      now apply leb_trans with (generated.Id r).
    + split; [|now apply IH].
      apply Forall_insertById. split; [|exact Hr].
      apply ltb_leb. now apply leb_false_ltb.
Qed.

Lemma orderById_ascending (rows : list generated.Row) : ascending (sql.orderById rows).
Proof.
  unfold sql.orderById. induction rows as [|r rows IH]; simpl; [exact I|].
  now apply insertById_ascending.
Qed.

Lemma insertById_first (row : generated.Row) (rows : list generated.Row) :
  Forall (fun later => String.leb (generated.Id row) (generated.Id later) = true) rows ->
  sql.insertById row rows = row :: rows.
Proof.
  destruct rows as [|r rows]; [reflexivity|].
  intros H. apply Forall_cons in H as [H _]. simpl. now rewrite H.
Qed.

Lemma Forall_filter_bool {A : Type} (P : A -> Prop) (keep : A -> bool) (l : list A) :
  Forall P l -> Forall P (List.filter keep l).
Proof.
  induction 1 as [|x l Hx _ IH]; simpl; [constructor|].
  destruct (keep x); [now constructor|exact IH].
Qed.

Lemma filter_ascending (keep : generated.Row -> bool) (rows : list generated.Row) :
  ascending rows -> ascending (List.filter keep rows).
Proof.
  induction rows as [|r rows IH]; simpl; [tauto|].
  intros [Hr Hrest]. destruct (keep r); simpl; [|now apply IH].
  split; [now apply Forall_filter_bool|now apply IH].
Qed.

(** Sorting by insertion is stable, so it commutes with a filter. *)
Lemma filter_insertById (keep : generated.Row -> bool) (row : generated.Row)
    (rows : list generated.Row) :
  ascending rows ->
  List.filter keep (sql.insertById row rows)
  = if keep row then sql.insertById row (List.filter keep rows)
    else List.filter keep rows.
Proof.
  induction rows as [|r rows IH]; simpl.
  - intros _. now destruct (keep row).
  - intros [Hr Hrest].
    destruct (String.leb (generated.Id row) (generated.Id r)) eqn:Hle; simpl.
    + destruct (keep row) eqn:Hrow; [|reflexivity].
      destruct (keep r) eqn:Hkr; simpl; [now rewrite Hle|].
      symmetry. apply insertById_first. apply Forall_filter_bool.
      eapply Forall_impl; [exact Hr|]. intros later Hlater. simpl in Hlater.
      now apply leb_trans with (generated.Id r).
    + rewrite (IH Hrest).
      destruct (keep r) eqn:Hkr; destruct (keep row) eqn:Hrow; simpl;
        rewrite ?Hle; reflexivity.
Qed.

Lemma orderById_filter (keep : generated.Row -> bool) (rows : list generated.Row) :
  sql.orderById (List.filter keep rows) = List.filter keep (sql.orderById rows).
Proof.
  induction rows as [|r rows IH]; [reflexivity|].
  change (sql.orderById (r :: rows)) with (sql.insertById r (sql.orderById rows)).
  rewrite filter_insertById by apply orderById_ascending.
  simpl. destruct (keep r); [|exact IH].
  change (sql.orderById (r :: List.filter keep rows))
    with (sql.insertById r (sql.orderById (List.filter keep rows))).
  now rewrite IH.
Qed.

Lemma filter_andb {A : Type} (p q : A -> bool) (l : list A) :
  List.filter (fun x => p x && q x) l = List.filter q (List.filter p l).
Proof.
  induction l as [|x l IH]; simpl; [reflexivity|].
  destruct (p x); simpl; [destruct (q x)|]; now rewrite IH.
Qed.

(** The test a cursor adds to the statement. *)
Lemma matches_cursors (active : option bool) (startingAfter endingBefore : option string)
    (row : generated.Row) :
  sql.matches active startingAfter endingBefore row
  = listed active row
    && (match startingAfter with
        | Some c => String.ltb c (generated.Id row)
        | None => true
        end
        && match endingBefore with
           | Some c => String.ltb (generated.Id row) c
           | None => true
           end).
Proof.
  unfold listed, sql.matches. rewrite !andb_true_r, andb_assoc. reflexivity.
Qed.

(** The rows of the statement: the listing, cut to the rows between the
    cursors, cut to the limit. *)
Lemma ListProducts_listing (table : list generated.Row) (active : option bool)
    (limit : Z) (startingAfter endingBefore : option string) :
  0 <= limit ->
  sql.ListProducts table active limit startingAfter endingBefore
  = Ok (take (Z.to_nat limit)
          (List.filter
             (fun row =>
                match startingAfter with
                | Some c => String.ltb c (generated.Id row)
                | None => true
                end
                && match endingBefore with
                   | Some c => String.ltb (generated.Id row) c
                   | None => true
                   end)
             (listing table active))).
Proof.
  intros Hlimit. unfold sql.ListProducts, listing.
  apply Z.ltb_ge in Hlimit. rewrite Hlimit. do 2 f_equal.
  rewrite <- orderById_filter, <- filter_andb. f_equal.
  apply List.filter_ext. intros row. apply matches_cursors.
Qed.

Lemma matches_selected (active : option bool) (startingAfter endingBefore : option string)
    (row : generated.Row) :
  sql.matches active startingAfter endingBefore row = true
  <-> selected active startingAfter endingBefore row.
Proof.
  unfold sql.matches, selected.
  rewrite !andb_true_iff, bool_decide_eq_true.
  destruct active as [a|], startingAfter as [c|], endingBefore as [d|];
    rewrite ?Bool.eqb_true_iff; split;
    try (intros [[[H1 H2] H3] H4]; repeat split; try congruence;
         intros ? [= <-]; assumption);
    try (intros (H1 & H2 & H3 & H4); repeat split; auto).
Qed.

Lemma take_ascending (n : nat) (rows : list generated.Row) :
  ascending rows -> ascending (take n rows).
Proof.
  revert n. induction rows as [|r rows IH]; intros [|n]; simpl; try tauto.
  intros [Hr Hrest]. split; [now apply Forall_take|now apply IH].
Qed.

(** X8. The [:many] statement of products.sql, run with a limit that is not
    negative, returns at most [limit] rows in ascending order of id; each is a
    row of the table that is not soft-deleted, has the requested activity,
    and lies strictly after [starting_after] and strictly before
    [ending_before]; and unless the limit is reached, no such row of the table
    is left out. A negative limit is an error. *)
Theorem ListProducts_statement :
  forall (table : list generated.Row) (active : option bool) (limit : Z)
         (startingAfter endingBefore : option string),
    (limit < 0 ->
     exists err, sql.ListProducts table active limit startingAfter endingBefore = Err err)
    /\ (0 <= limit ->
        exists rows,
          sql.ListProducts table active limit startingAfter endingBefore = Ok rows
          /\ count rows <= limit
          /\ ascending rows
          /\ Forall (fun row => In row table
                                /\ selected active startingAfter endingBefore row) rows
          /\ (count rows < limit ->
              forall row, In row table ->
                          selected active startingAfter endingBefore row ->
                          In row rows)).
Proof.
  intros table active limit startingAfter endingBefore. split.
  - intros Hneg. unfold sql.ListProducts. apply Z.ltb_lt in Hneg. rewrite Hneg.
    now eexists.
  - intros Hlimit. unfold sql.ListProducts.
    assert (H : (limit <? 0) = false) by now apply Z.ltb_ge.
    rewrite H. eexists. split; [reflexivity|].
    set (found := List.filter (sql.matches active startingAfter endingBefore) table).
    split; [|split; [|split]].
    + unfold count. rewrite length_take. lia.
    + apply take_ascending, orderById_ascending.
    + apply Forall_take, Forall_orderById, Forall_forall.
      intros row Hrow. apply list_elem_of_In, List.filter_In in Hrow as [Hin Hm].
      split; [exact Hin|now apply matches_selected].
    + unfold count. rewrite length_take. intros Hshort row Hin Hsel.
      rewrite take_ge by lia.
      apply (Permutation_in _ (Permutation_sym (orderById_Permutation found))).
      apply List.filter_In. split; [exact Hin|now apply matches_selected].
Qed.

(** ** Paging forward through the listing *)

Lemma ascending_increasing (rows : list generated.Row) :
  ascending rows -> NoDup (generated.Id <$> rows) -> increasing rows.
Proof.
  induction rows as [|r rows IH]; simpl; [tauto|].
  intros [Hr Hrest] Hnodup. apply NoDup_cons in Hnodup as [Hfresh Hnodup].
  split; [|now apply IH].
  apply Forall_forall. intros later Hin.
  pose proof (proj1 (Forall_forall _ _) Hr later Hin) as Hle. simpl in Hle.
  apply leb_cases in Hle as [Hlt|Heq]; [exact Hlt|].
  destruct Hfresh. rewrite Heq. now apply list_elem_of_fmap_2.
Qed.

Lemma NoDup_filter_ids (keep : generated.Row -> bool) (rows : list generated.Row) :
  NoDup (generated.Id <$> rows) -> NoDup (generated.Id <$> List.filter keep rows).
Proof.
  induction rows as [|r rows IH]; simpl; [tauto|].
  intros Hnodup. apply NoDup_cons in Hnodup as [Hfresh Hnodup].
  destruct (keep r); [|now apply IH].
  simpl. apply NoDup_cons. split; [|now apply IH].
  intros Hin. apply Hfresh.
  apply list_elem_of_fmap in Hin as (row & -> & Hrow).
  apply list_elem_of_In, List.filter_In in Hrow as [Hrow _].
  apply list_elem_of_fmap_2. now apply list_elem_of_In.
Qed.

Lemma listing_increasing (table : list generated.Row) (active : option bool) :
  NoDup (generated.Id <$> table) -> increasing (listing table active).
Proof.
  intros Hnodup. unfold listing.
  apply ascending_increasing; [apply orderById_ascending|].
  rewrite orderById_Permutation. now apply NoDup_filter_ids.
Qed.

Lemma increasing_app (a b : list generated.Row) :
  increasing (a ++ b) ->
  increasing a /\ increasing b
  /\ Forall (fun x => Forall (fun y => String.ltb (generated.Id x) (generated.Id y) = true) b) a.
Proof.
  induction a as [|x a IH]; simpl.
  - intros H. repeat split; [exact H|constructor].
  - intros [Hx Hrest]. apply Forall_app in Hx as [Hxa Hxb].
    destruct (IH Hrest) as (Ha & Hb & Hab).
    repeat split; try assumption. now constructor.
Qed.

Lemma filter_all {A : Type} (keep : A -> bool) (l : list A) :
  Forall (fun x => keep x = true) l -> List.filter keep l = l.
Proof.
  induction 1 as [|x l Hx _ IH]; simpl; [reflexivity|]. now rewrite Hx, IH.
Qed.

Lemma filter_none {A : Type} (keep : A -> bool) (l : list A) :
  Forall (fun x => keep x = false) l -> List.filter keep l = [].
Proof.
  induction 1 as [|x l Hx _ IH]; simpl; [reflexivity|]. now rewrite Hx, IH.
Qed.

(** On a strictly ascending listing, the rows after the id of one of its rows
    are the rows that follow it, and the rows before that id are the rows
    that precede it. *)
Lemma filter_after (earlier later : list generated.Row) (row : generated.Row) :
  increasing (earlier ++ row :: later) ->
  List.filter (fun r => String.ltb (generated.Id row) (generated.Id r))
    (earlier ++ row :: later) = later.
Proof.
  intros Hinc. apply increasing_app in Hinc as (_ & [Hlater _] & Hcross).
  rewrite List.filter_app. simpl. rewrite ltb_irrefl.
  rewrite filter_none, filter_all; [reflexivity|exact Hlater|].
  eapply Forall_impl; [exact Hcross|]. intros x Hx. simpl in Hx.
  apply Forall_cons in Hx as [Hx _]. now apply ltb_asym.
Qed.

Lemma filter_before (earlier later : list generated.Row) (row : generated.Row) :
  increasing (earlier ++ row :: later) ->
  List.filter (fun r => String.ltb (generated.Id r) (generated.Id row))
    (earlier ++ row :: later) = earlier.
Proof.
  intros Hinc. apply increasing_app in Hinc as (_ & [Hlater _] & Hcross).
  rewrite List.filter_app. simpl. rewrite ltb_irrefl.
  rewrite filter_all, filter_none; [apply app_nil_r| |].
  - eapply Forall_impl; [exact Hlater|]. intros x Hx. simpl in Hx. now apply ltb_asym.
  - eapply Forall_impl; [exact Hcross|]. intros x Hx. simpl in Hx.
    now apply Forall_cons in Hx as [Hx _].
Qed.

(** The statement, asked for the rows after a cursor that stands in the
    listing, returns the rows that follow it, up to the limit. *)
Lemma ListProducts_after (table : list generated.Row) (active : option bool)
    (limit : Z) (seen rest : list generated.Row) (cursor : option string) :
  NoDup (generated.Id <$> table) ->
  listing table active = (seen ++ rest)%list ->
  standsAfter seen cursor ->
  0 <= limit ->
  sql.ListProducts table active limit cursor None = Ok (take (Z.to_nat limit) rest).
Proof.
  intros Hnodup Hlisting Hcursor Hlimit.
  rewrite ListProducts_listing by exact Hlimit.
  pose proof (listing_increasing table active Hnodup) as Hinc.
  rewrite Hlisting in *. do 2 f_equal.
  destruct cursor as [c|]; simpl in Hcursor.
  - destruct Hcursor as (earlier & row & -> & ->).
    rewrite <- app_assoc in *. simpl in *.
    rewrite <- (filter_after earlier rest row Hinc) at 2.
    apply List.filter_ext. intros r. apply andb_true_r.
  - subst seen. simpl. now apply filter_all, Forall_forall.
Qed.

Lemma Forall_decodable_listing
    (Unmarshal : string -> result (option (gmap string string)))
    (table : list generated.Row) (active : option bool) :
  Forall (decodable Unmarshal) table ->
  Forall (decodable Unmarshal) (listing table active).
Proof.
  intros H. unfold listing. apply Forall_orderById. now apply Forall_filter_bool.
Qed.

Lemma snoc_nonempty {A : Type} (l : list A) :
  l <> [] -> exists earlier x, l = (earlier ++ [x])%list.
Proof.
  induction l as [|y l IH]; [congruence|]. intros _.
  destruct l as [|z l]; [now exists [], y|].
  destruct IH as (earlier & x & ->); [discriminate|].
  now exists (y :: earlier), x.
Qed.

Section ForwardPage.

Variable Unmarshal : string -> result (option (gmap string string)).
Variable table : list generated.Row.
Variable active : option bool.
Variable limit : Z.

Hypothesis limit_range : 1 <= limit < GoInt.maxInt.
Hypothesis primary_key : NoDup (generated.Id <$> table).
Hypothesis metadata_decodes : Forall (decodable Unmarshal) table.

(** One request: the page that follows the rows already seen. *)
Lemma forwardRequest_page (seen rest : list generated.Row) (cursor : option string) :
  listing table active = (seen ++ rest)%list ->
  standsAfter seen cursor ->
  exists page,
    forwardRequest Unmarshal table active limit cursor = Returns (Ok page)
    /\ Forall2 (fun row product => toProduct Unmarshal row = Ok product)
         (take (Z.to_nat limit) rest) (models.Products page)
    /\ models.HasMore page = (limit <? count rest)
    /\ (models.HasMore page = true ->
        exists earlier row,
          take (Z.to_nat limit) rest = (earlier ++ [row])%list
          /\ models.NextCursor page = Some (generated.Id row)).
Proof.
  intros Hlisting Hcursor.
  set (filter := {| models.FilterActive := active; models.Limit := limit;
                    models.StartingAfter := cursor; models.EndingBefore := None |}).
  assert (Hstore :
    sql.ListProducts table (models.FilterActive filter)
      (GoInt.add (models.Limit filter) 1)
      (models.StartingAfter filter) (models.EndingBefore filter)
    = Ok (take (Z.to_nat (limit + 1)) rest)).
  { simpl. rewrite add_no_overflow by lia.
    apply ListProducts_after with seen; try assumption. lia. }
  assert (H0 : 0 <= models.Limit filter) by (simpl; lia).
  unfold forwardRequest. fold filter.
  rewrite (repository_many_run _ _ _ _ Hstore H0).
  assert (Hmore : (models.Limit filter <? count (take (Z.to_nat (limit + 1)) rest))
                  = (limit <? count rest)).
  { simpl. unfold count. rewrite length_take.
    destruct (limit <? Z.of_nat (length rest)) eqn:Hlt.
    - apply Z.ltb_lt in Hlt. apply Z.ltb_lt. lia.
    - apply Z.ltb_ge in Hlt. apply Z.ltb_ge. lia. }
  assert (Hkept : kept filter (take (Z.to_nat (limit + 1)) rest)
                  = take (Z.to_nat limit) rest).
  { unfold kept. rewrite Hmore. simpl.
    destruct (limit <? count rest) eqn:Hlt.
    - rewrite take_take. f_equal. lia.
    - apply Z.ltb_ge in Hlt. unfold count in Hlt.
      rewrite !take_ge by lia. reflexivity. }
  rewrite Hkept, Hmore.
  destruct (convertRows_total (toProduct Unmarshal) (take (Z.to_nat limit) rest))
    as [products Hconv].
  { apply Forall_take.
    pose proof (Forall_decodable_listing Unmarshal table active metadata_decodes) as Hd.
    rewrite Hlisting in Hd. apply Forall_app in Hd as [_ Hd].
    eapply Forall_impl; [exact Hd|]. apply toProduct_decodable. }
  unfold outcome. simpl. rewrite Hconv. eexists. split; [reflexivity|]. simpl.
  pose proof (proj1 (convertRows_Forall2 _ _ _) Hconv) as Hall.
  split; [exact Hall|]. split; [reflexivity|].
  intros Hlt. rewrite Hlt.
  assert (Hne : take (Z.to_nat limit) rest <> []).
  { apply Z.ltb_lt in Hlt. unfold count in Hlt.
    intros Hnil. apply (f_equal length) in Hnil.
    rewrite length_take in Hnil. simpl in Hnil. lia. }
  destruct (snoc_nonempty _ Hne) as (earlier & row & Hsnoc).
  exists earlier, row. split; [exact Hsnoc|].
  rewrite Hsnoc in Hall.
  apply Forall2_app_inv_l in Hall as (ps & pl & Hps & Hpl & ->).
  apply Forall2_cons_inv_l in Hpl as (p & pnil & Hp & Hnil & ->).
  apply Forall2_nil_inv_l in Hnil as ->.
  apply toProduct_fields in Hp as (Hid & _).
  rewrite last_snoc. simpl. rewrite Hid.
  replace (0 <? count (ps ++ [p])) with true; [reflexivity|].
  symmetry. apply Z.ltb_lt. unfold count. rewrite length_app. simpl. lia.
Qed.

(** All the requests: from any cursor that stands in the listing, the client
    collects the rest of the listing. *)
Lemma pageForward_rest (pages : nat) :
  forall (seen rest : list generated.Row) (cursor : option string),
    listing table active = (seen ++ rest)%list ->
    standsAfter seen cursor ->
    (length rest < pages)%nat ->
    exists products,
      pageForward (forwardRequest Unmarshal table active limit) pages cursor
      = Some products
      /\ Forall2 (fun row product => toProduct Unmarshal row = Ok product)
           rest products.
Proof.
  induction pages as [|pages IH]; intros seen rest cursor Hlisting Hcursor Hlen;
    [lia|].
  destruct (forwardRequest_page seen rest cursor Hlisting Hcursor)
    as (page & Hpage & Hitems & Hmore & Hnext).
  cbn [pageForward]. rewrite Hpage.
  destruct (models.HasMore page) eqn:Hhas.
  - destruct (Hnext eq_refl) as (earlier & row & Hsnoc & ->).
    symmetry in Hmore. apply Z.ltb_lt in Hmore. unfold count in Hmore.
    destruct (IH (seen ++ take (Z.to_nat limit) rest)%list
                 (drop (Z.to_nat limit) rest) (Some (generated.Id row)))
      as (more & -> & Hrest).
    + now rewrite <- app_assoc, take_drop.
    + exists (seen ++ earlier)%list, row. split; [|reflexivity].
      now rewrite Hsnoc, app_assoc.
    + rewrite length_drop. lia.
    + eexists. split; [reflexivity|].
      rewrite <- (take_drop (Z.to_nat limit) rest). now apply Forall2_app.
  - symmetry in Hmore. apply Z.ltb_ge in Hmore. unfold count in Hmore.
    rewrite take_ge in Hitems by lia.
    now exists (models.Products page).
Qed.

End ForwardPage.

(** X9. Paging forward is complete. Over a table whose ids are distinct and
    whose metadata decodes, a client of the Go repository over the [:many]
    statement that starts without a cursor and follows each next cursor while
    [HasMore] is set collects, for any page size from 1 up, every listed row
    of the table exactly once and in ascending order of id, as soon as it may
    make more requests than there are listed rows. *)
Theorem forward_paging_is_complete :
  forall (Unmarshal : string -> result (option (gmap string string)))
         (table : list generated.Row) (active : option bool) (limit : Z)
         (pages : nat),
    1 <= limit < GoInt.maxInt ->
    NoDup (generated.Id <$> table) ->
    Forall (decodable Unmarshal) table ->
    (length (listing table active) < pages)%nat ->
    exists products,
      pageForward (forwardRequest Unmarshal table active limit) pages None
      = Some products
      /\ Forall2 (fun row product => toProduct Unmarshal row = Ok product)
           (listing table active) products
      /\ models.ID <$> products = generated.Id <$> listing table active.
Proof.
  intros Unmarshal table active limit pages Hlimit Hkey Hdec Hpages.
  destruct (pageForward_rest Unmarshal table active limit Hlimit Hkey Hdec pages
              [] (listing table active) None eq_refl eq_refl Hpages)
    as (products & Hrun & Hall).
  exists products. split; [exact Hrun|]. split; [exact Hall|].
  clear Hrun Hpages. induction Hall as [|row p rows ps Hp _ IH]; [reflexivity|].
  apply toProduct_fields in Hp as (Hid & _).
  rewrite !fmap_cons. now rewrite Hid, IH.
Qed.


Lemma forward_paging_is_complete_witness :
  1 <= 2 < GoInt.maxInt
  /\ NoDup (generated.Id <$> example.table)
  /\ (length (listing example.table None) < 6)%nat
  /\ exists products,
       pageForward (forwardRequest example.Unmarshal example.table None 2) 6 None
       = Some products
       /\ Forall2 (fun row product => toProduct example.Unmarshal row = Ok product)
            (listing example.table None) products
       /\ models.ID <$> products
          = ["prod_001"; "prod_002"; "prod_003"; "prod_004"; "prod_005"].
Proof.
  assert (Hlimit : 1 <= 2 < GoInt.maxInt) by (unfold GoInt.maxInt; lia).
  assert (Hkey : NoDup (generated.Id <$> example.table)).
  { apply (bool_decide_unpack _). vm_compute. exact I. }
  assert (Hpages : (length (listing example.table None) < 6)%nat).
  { vm_compute. lia. }
  split; [exact Hlimit|]. split; [exact Hkey|]. split; [exact Hpages|].
  exact (forward_paging_is_complete example.Unmarshal example.table None 2 6
           Hlimit Hkey
           (example_rows_decodable
              ["prod_003"; "prod_001"; "prod_005"; "prod_002"; "prod_004"])
           Hpages).
Defined.


(** ** Paging backward over the statement *)

(** The page the Go repository assembles when the statement answers with the
    first [limit + 1] rows of [rest]. *)
Lemma many_page
    (Unmarshal : string -> result (option (gmap string string)))
    (table : list generated.Row) (filter : models.ListProductsFilter)
    (rest : list generated.Row) :
  0 <= models.Limit filter < GoInt.maxInt ->
  Forall (decodable Unmarshal) rest ->
  sql.ListProducts table (models.FilterActive filter)
    (GoInt.add (models.Limit filter) 1)
    (models.StartingAfter filter) (models.EndingBefore filter)
  = Ok (take (Z.to_nat (models.Limit filter + 1)) rest) ->
  exists page,
    outcome (run (repository_many.ListWithFilters Unmarshal (sql.ListProducts table)
                    filter)) = Returns (Ok page)
    /\ convertRows (toProduct Unmarshal) (take (Z.to_nat (models.Limit filter)) rest)
       = Ok (models.Products page)
    /\ models.HasMore page = (models.Limit filter <? count rest).
Proof.
  intros Hlimit Hdec Hstore.
  assert (H0 : 0 <= models.Limit filter) by lia.
  rewrite (repository_many_run _ _ _ _ Hstore H0).
  set (limit := models.Limit filter) in *.
  assert (Hmore : (limit <? count (take (Z.to_nat (limit + 1)) rest))
                  = (limit <? count rest)).
  { unfold count. rewrite length_take.
    destruct (limit <? Z.of_nat (length rest)) eqn:Hlt.
    - apply Z.ltb_lt in Hlt. apply Z.ltb_lt. lia.
    - apply Z.ltb_ge in Hlt. apply Z.ltb_ge. lia. }
  assert (Hkept : kept filter (take (Z.to_nat (limit + 1)) rest)
                  = take (Z.to_nat limit) rest).
  { unfold kept. fold limit. rewrite Hmore.
    destruct (limit <? count rest) eqn:Hlt.
    - rewrite take_take. f_equal. lia.
    - apply Z.ltb_ge in Hlt. unfold count in Hlt.
      rewrite !take_ge by lia. reflexivity. }
  rewrite Hkept, Hmore.
  destruct (convertRows_total (toProduct Unmarshal) (take (Z.to_nat limit) rest))
    as [products Hconv].
  { apply Forall_take. eapply Forall_impl; [exact Hdec|]. apply toProduct_decodable. }
  unfold outcome. simpl. rewrite Hconv. eexists. split; [reflexivity|]. simpl.
  now split.
Qed.

(** X10. The backward cursor does not page backward. Over a table whose ids
    are distinct and whose metadata decodes, a request to the Go repository
    over the [:many] statement with [EndingBefore] set to the id of a listed
    row, and no more items asked for than rows precede it, is answered with
    exactly the items of the first page of the listing (the page a request
    without cursors gets), not with the rows next to the cursor; and
    [HasMore] tells whether more than [limit] rows precede the cursor. *)
Theorem backward_request_returns_first_page :
  forall (Unmarshal : string -> result (option (gmap string string)))
         (table : list generated.Row) (active : option bool) (limit : Z)
         (earlier later : list generated.Row) (row : generated.Row),
    0 <= limit < GoInt.maxInt ->
    NoDup (generated.Id <$> table) ->
    Forall (decodable Unmarshal) table ->
    listing table active = (earlier ++ row :: later)%list ->
    limit <= count earlier ->
    exists first back,
      forwardRequest Unmarshal table active limit None = Returns (Ok first)
      /\ backwardRequest Unmarshal table active limit (generated.Id row)
         = Returns (Ok back)
      /\ models.Products back = models.Products first
      /\ Forall2 (fun r product => toProduct Unmarshal r = Ok product)
           (take (Z.to_nat limit) earlier) (models.Products back)
      /\ models.HasMore back = (limit <? count earlier).
Proof.
  intros Unmarshal table active limit earlier later row
    Hlimit Hkey Hdec Hlisting Hfits.
  pose proof (Forall_decodable_listing Unmarshal table active Hdec) as Hall.
  pose proof (listing_increasing table active Hkey) as Hinc.
  set (none := {| models.FilterActive := active; models.Limit := limit;
                  models.StartingAfter := None; models.EndingBefore := None |}).
  set (before := {| models.FilterActive := active; models.Limit := limit;
                    models.StartingAfter := None;
                    models.EndingBefore := Some (generated.Id row) |}).
  destruct (many_page Unmarshal table none (listing table active))
    as (first & Hfirst & Hitems & _); [exact Hlimit|exact Hall| |].
  { simpl. rewrite add_no_overflow by lia.
    apply ListProducts_after with []; [exact Hkey|reflexivity|reflexivity|lia]. }
  destruct (many_page Unmarshal table before earlier)
    as (back & Hback & Hitems' & Hmore); [exact Hlimit| | |].
  { rewrite Hlisting in Hall. now apply Forall_app in Hall as [Hall _]. }
  { simpl. rewrite add_no_overflow by lia.
    rewrite ListProducts_listing by lia. do 2 f_equal.
    rewrite Hlisting in *.
    rewrite <- (filter_before earlier later row Hinc) at 2.
    apply List.filter_ext. intros r. reflexivity. }
  simpl in Hitems, Hitems', Hmore.
  rewrite Hlisting in Hitems.
  unfold count in Hfits.
  rewrite take_app_le in Hitems by lia.
  exists first, back. split; [exact Hfirst|]. split; [exact Hback|].
  split; [congruence|]. split; [|exact Hmore].
  now apply convertRows_Forall2.
Qed.

Lemma backward_request_returns_first_page_witness :
  exists first back,
    forwardRequest example.Unmarshal example.table None 2 None = Returns (Ok first)
    /\ backwardRequest example.Unmarshal example.table None 2 "prod_005"
       = Returns (Ok back)
    /\ models.Products back = models.Products first
    /\ Forall2 (fun r product => toProduct example.Unmarshal r = Ok product)
         (take 2 (example.product <$> ["prod_001"; "prod_002"; "prod_003"; "prod_004"]))
         (models.Products back)
    /\ models.HasMore back = true.
Proof.
  assert (Hlimit : 0 <= 2 < GoInt.maxInt) by (unfold GoInt.maxInt; lia).
  assert (Hkey : NoDup (generated.Id <$> example.table)).
  { apply (bool_decide_unpack _). vm_compute. exact I. }
  assert (Hlisting :
    listing example.table None
    = ((example.product <$> ["prod_001"; "prod_002"; "prod_003"; "prod_004"])
       ++ example.product "prod_005" :: [])%list) by reflexivity.
  assert (Hfits :
    2 <= count (example.product <$> ["prod_001"; "prod_002"; "prod_003"; "prod_004"]))
    by (vm_compute; discriminate).
  exact (backward_request_returns_first_page example.Unmarshal example.table None 2
           _ _ _ Hlimit Hkey
           (example_rows_decodable
              ["prod_003"; "prod_001"; "prod_005"; "prod_002"; "prod_004"])
           Hlisting Hfits).
Defined.


(** * Properties of the product methods *)

(** ** Reading a product *)

(** A translated error is never nil, and is an application error. *)
Lemma translateError_application_error
    (IsNotFound IsAlreadyExists IsInvalidReference IsValidationError
       IsConnectionError IsTimeout IsDatabaseError : error -> bool)
    (err : error) (translated : option error) :
  repository.translateError IsNotFound IsAlreadyExists IsInvalidReference
    IsValidationError IsConnectionError IsTimeout IsDatabaseError (Some err)
  = Returns translated ->
  exists app, translated = Some app /\ apperrors.isAppError app = true.
Proof.
  unfold repository.translateError.
  destruct (IsNotFound err), (IsAlreadyExists err), (IsInvalidReference err),
    (IsValidationError err), (IsConnectionError err), (IsTimeout err),
    (IsDatabaseError err), (errors.AsDatabaseError err);
    simpl; intros H; try discriminate; injection H as <-; now eexists.
Qed.

Lemma translateError_panic
    (IsNotFound IsAlreadyExists IsInvalidReference IsValidationError
       IsConnectionError IsTimeout IsDatabaseError : error -> bool)
    (err : option error) (p : runtimeError) :
  repository.translateError IsNotFound IsAlreadyExists IsInvalidReference
    IsValidationError IsConnectionError IsTimeout IsDatabaseError err
  = Panics p ->
  p = NilDereference.
Proof.
  unfold repository.translateError. destruct err as [err|]; [|discriminate].
  destruct (IsNotFound err), (IsAlreadyExists err), (IsInvalidReference err),
    (IsValidationError err), (IsConnectionError err), (IsTimeout err),
    (IsDatabaseError err), (errors.AsDatabaseError err);
    simpl; intros H; try discriminate; now injection H as <-.
Qed.

(** The error of a row that does not convert is the error of [json.Unmarshal]
    on its metadata, wrapped. *)
Lemma toProduct_error
    (Unmarshal : string -> result (option (gmap string string)))
    (row : generated.Row) (err : error) :
  toProduct Unmarshal row = Err err ->
  exists data cause,
    generated.Metadata row = Some data
    /\ Unmarshal data = Err cause
    /\ err = wrapError "unmarshal metadata: " cause.
Proof.
  unfold toProduct, decodeMetadata.
  destruct (generated.Metadata row) as [data|]; [|discriminate].
  destruct (0 <? len data); [|discriminate].
  destruct (Unmarshal data) as [m|cause] eqn:Hdata; [discriminate|].
  intros H. injection H as <-. now exists data, cause.
Qed.

(** X11. [GetByID] sends the one read statement and never returns a nil
    product without an error. An error it returns is either an application
    error, made by [translateError] from the store's error, which is never
    passed on as it is, or the error of decoding the metadata of the row,
    wrapped; a product it returns is the conversion of the row the store
    answered with; and it panics only on a nil pointer, when the store
    answers with a nil row and no error or when [translateError] panics. *)
Theorem GetByID_product_or_error :
  forall (env : app.Environment) (productID : string) (tr : list store.Statement),
    let answer := store.getProductByID (app.db env) tr productID in
    exists out,
      app.GetByID env productID tr
      = ((tr ++ [store.GetProductByID productID])%list, out)
      /\ out <> Returns (Ok None)
      /\ (forall err, out = Returns (Err err) ->
            (exists cause, answer = Err cause /\ apperrors.isAppError err = true)
            \/ (exists row data cause,
                  answer = Ok (Some row)
                  /\ generated.Metadata row = Some data
                  /\ app.Unmarshal env data = Err cause
                  /\ err = wrapError "unmarshal metadata: " cause))
      /\ (forall product, out = Returns (Ok (Some product)) ->
            exists row, answer = Ok (Some row)
                        /\ toProduct (app.Unmarshal env) row = Ok product)
      /\ (forall p, out = Panics p ->
            p = NilDereference
            /\ (answer = Ok None
                \/ exists cause, answer = Err cause
                                 /\ app.translateError env (Some cause)
                                    = Panics NilDereference)).
Proof.
  intros env productID tr answer.
  unfold app.GetByID, product_repository.GetByID.
  fold (app.translateError env). fold answer.
  destruct answer as [[row|]|cause].
  - simpl.
    destruct (toProduct (app.Unmarshal env) row) as [product|err] eqn:Hrow;
      (eexists; split; [reflexivity|]).
    + split; [discriminate|]. split; [discriminate|].
      split; [|discriminate].
      intros product' H. injection H as <-. now exists row.
    + split; [discriminate|]. split; [|split; discriminate].
      intros err' H. injection H as <-. right.
      destruct (toProduct_error _ _ _ Hrow) as (data & cause & Hdata & Hcause & ->).
      now exists row, data, cause.
  - simpl. eexists; split; [reflexivity|].
    split; [discriminate|]. split; [discriminate|]. split; [discriminate|].
    intros p H. injection H as <-. split; [reflexivity|]. now left.
  - destruct (app.translateError env (Some cause)) as [translated|p] eqn:Htr.
    + destruct (translateError_application_error _ _ _ _ _ _ _ _ _ Htr)
        as (app & -> & Happ).
      eexists; split; [reflexivity|]. cbn [go_bind].
      split; [discriminate|]. split; [|split; discriminate].
      intros err H. injection H as <-. left. now exists cause.
    + eexists; split; [reflexivity|]. cbn [go_bind].
      split; [discriminate|]. split; [discriminate|]. split; [discriminate|].
      intros p' H. injection H as <-.
      pose proof (translateError_panic _ _ _ _ _ _ _ _ _ Htr) as ->.
      split; [reflexivity|]. right. now exists cause.
Qed.


(** ** The service on the repository *)

Lemma IsErrNotFound_application_error (foreign : error -> bool) (err : error) :
  apperrors.isAppError err = true ->
  product_service.IsErrNotFound foreign err = false.
Proof. destruct err; simpl; congruence. Qed.

Section AppRuns.

Variable env : app.Environment.

(** The read always sends its one statement. *)
Lemma GetByID_trace (id : string) (tr : list store.Statement) :
  app.GetByID env id tr
  = ((tr ++ [store.GetProductByID id])%list, snd (app.GetByID env id tr)).
Proof.
  unfold app.GetByID, product_repository.GetByID.
  now destruct (store.getProductByID (app.db env) tr id).
Qed.

Lemma GetByID_readable (id : string) (tr : list store.Statement) (product : models.Product) :
  readable env tr id = Some product ->
  snd (app.GetByID env id tr) = Returns (Ok (Some product)).
Proof.
  unfold readable, app.GetByID, product_repository.GetByID.
  destruct (store.getProductByID (app.db env) tr id) as [[row|]|cause];
    try discriminate.
  simpl. destruct (toProduct (app.Unmarshal env) row); [|discriminate].
  now intros [= <-].
Qed.

(** An error of the read is an application error or a wrapped error of
    [json.Unmarshal]. *)
Lemma GetByID_error (id : string) (tr : list store.Statement) (err : error) :
  snd (app.GetByID env id tr) = Returns (Err err) ->
  apperrors.isAppError err = true
  \/ exists data cause,
       app.Unmarshal env data = Err cause
       /\ err = wrapError "unmarshal metadata: " cause.
Proof.
  unfold app.GetByID, product_repository.GetByID.
  fold (app.translateError env).
  destruct (store.getProductByID (app.db env) tr id) as [[row|]|cause].
  - simpl. destruct (toProduct (app.Unmarshal env) row) as [product|e] eqn:Hrow;
      [discriminate|].
    intros [= <-]. right.
    destruct (toProduct_error _ _ _ Hrow) as (data & cause & _ & Hcause & ->).
    now exists data, cause.
  - discriminate.
  - cbn [snd].
    destruct (app.translateError env (Some cause)) as [translated|p] eqn:Htr;
      [|discriminate].
    destruct (translateError_application_error _ _ _ _ _ _ _ _ _ Htr)
      as (e & -> & He).
    cbn [go_bind]. intros [= <-]. now left.
Qed.

Lemma GetByID_unreadable (id : string) (tr : list store.Statement) :
  readable env tr id = None ->
  forall outcome, snd (app.GetByID env id tr) = Returns outcome ->
                  exists err, outcome = Err err.
Proof.
  unfold readable, app.GetByID, product_repository.GetByID.
  fold (app.translateError env).
  destruct (store.getProductByID (app.db env) tr id) as [[row|]|cause].
  - simpl. destruct (toProduct (app.Unmarshal env) row) as [product|e];
      [discriminate|].
    intros _ outcome [= <-]. now exists e.
  - discriminate.
  - intros _ outcome. cbn [snd].
    destruct (app.translateError env (Some cause)) as [translated|p] eqn:Htr;
      [|discriminate].
    destruct (translateError_application_error _ _ _ _ _ _ _ _ _ Htr)
      as (e & -> & He).
    cbn [go_bind]. intros [= <-]. now exists e.
Qed.

Lemma GetByID_found (id : string) (tr : list store.Statement)
    (product : option models.Product) :
  snd (app.GetByID env id tr) = Returns (Ok product) ->
  exists p, product = Some p /\ readable env tr id = Some p.
Proof.
  intros Hread.
  destruct (readable env tr id) as [p|] eqn:Hp.
  - rewrite (GetByID_readable _ _ _ Hp) in Hread. injection Hread as <-.
    now exists p.
  - destruct (GetByID_unreadable _ _ Hp _ Hread) as [err Herr]. discriminate.
Qed.

End AppRuns.

(** X12. Over this repository the not-found translation of the service never
    applies. Provided [json.Unmarshal] does not fail with the repository's
    [ErrNotFound], no error that [GetByID] returns matches that sentinel:
    [ProductService.GetProduct] returns exactly what [GetByID] returns, and
    [UpdateProduct] and [DeleteProduct] pass the error of their existence
    check on unchanged, after the one read statement. *)
Theorem service_passes_repository_errors_on :
  forall (env : app.Environment),
    (forall data cause,
       app.Unmarshal env data = Err cause ->
       product_service.IsErrNotFound (app.foreign env) cause = false) ->
    forall (productID : string) (tr : list store.Statement),
      app.serviceGetProduct env productID tr = app.GetByID env productID tr
      /\ forall err,
           snd (app.GetByID env productID tr) = Returns (Err err) ->
           product_service.notFoundOr (app.foreign env) productID err = err
           /\ app.serviceDeleteProduct env productID tr
              = ((tr ++ [store.GetProductByID productID])%list, Returns (Err err))
           /\ forall req,
                requests.ID req = productID ->
                app.serviceUpdateProduct env req tr
                = ((tr ++ [store.GetProductByID productID])%list, Returns (Err err)).
Proof.
  intros env Hjson productID tr.
  assert (Hkeep : forall err,
            snd (app.GetByID env productID tr) = Returns (Err err) ->
            product_service.notFoundOr (app.foreign env) productID err = err).
  { intros err Herr. unfold product_service.notFoundOr.
    destruct (GetByID_error env _ _ _ Herr) as [Happ|(data & cause & Hcause & ->)].
    - now rewrite IsErrNotFound_application_error.
    - simpl. now rewrite (Hjson _ _ Hcause). }
  split.
  - unfold app.serviceGetProduct, product_service.GetProduct.
    rewrite (GetByID_trace env productID tr) in *.
    destruct (snd (app.GetByID env productID tr)) as [[product|err]|p] eqn:Hout;
      try reflexivity.
    cbn [snd] in Hkeep. now rewrite (Hkeep err eq_refl).
  - intros err Herr.
    split; [now apply Hkeep|]. split.
    + unfold app.serviceDeleteProduct, product_service.DeleteProduct.
      rewrite (GetByID_trace env productID tr), Herr.
      now rewrite (Hkeep err Herr).
    + intros req <-.
      unfold app.serviceUpdateProduct, product_service.UpdateProduct.
      rewrite (GetByID_trace env (requests.ID req) tr), Herr.
      now rewrite (Hkeep err Herr).
Qed.

Lemma service_passes_repository_errors_on_witness :
  app.serviceGetProduct demo.environment "widget" []
  = app.GetByID demo.environment "widget" []
  /\ app.serviceGetProduct demo.environment "widget" []
     = ([store.GetProductByID "widget"], Returns (Err (NotFoundError "product" ""))).
Proof.
  assert (Hjson : forall data cause,
            app.Unmarshal demo.environment data = Err cause ->
            product_service.IsErrNotFound (app.foreign demo.environment) cause = false).
  { intros data cause. simpl. unfold example.Unmarshal.
    destruct (String.eqb data "{}"); [discriminate|].
    destruct (String.eqb data "null"); [discriminate|].
    now intros [= <-]. }
  pose proof (proj1 (service_passes_repository_errors_on demo.environment Hjson
                       "widget" [])) as Hsame.
  split; [exact Hsame|]. rewrite Hsame. reflexivity.
Defined.


(** ** The handlers on the service *)

Lemma statusOfError_kinds (err : error) :
  statusOfError err = 400 \/ statusOfError err = 404
  \/ statusOfError err = 409 \/ statusOfError err = 500.
Proof. induction err; simpl; auto. Qed.

(** X13. Deleting reads first. [DeleteProduct], through the service and the
    repository, always sends the read of the product, and sends the delete
    statement after it exactly when the product is readable: the store
    answers the read with a row and the metadata of the row decodes. It
    answers 204 exactly when, besides, the delete statement succeeds; in every
    other case that it answers at all the status is 400, 404, 409 or 500. A
    product whose stored metadata does not decode is therefore never deleted. *)
Theorem delete_reads_before_deleting :
  forall (env : app.Environment) (id : string) (tr : list store.Statement),
    let read := (tr ++ [store.GetProductByID id])%list in
    let run := app.DeleteProduct env id tr in
    fst run = match readable env tr id with
              | Some _ => (read ++ [store.Delete id])%list
              | None => read
              end
    /\ (forall status,
          snd run = Returns (product_handlers.HeaderOnly status)
          <-> readable env tr id <> None
              /\ store.delete (app.db env) read id = None
              /\ status = 204)
    /\ (forall status,
          answered run = Some status ->
          status = 204 \/ status = 400 \/ status = 404
          \/ status = 409 \/ status = 500).
Proof.
  intros env id tr read run. subst run.
  unfold answered, app.DeleteProduct, product_handlers.DeleteProduct,
    app.serviceDeleteProduct, product_service.DeleteProduct.
  rewrite (GetByID_trace env id tr). fold read.
  destruct (readable env tr id) as [product|] eqn:Hreadable.
  - rewrite (GetByID_readable env _ _ _ Hreadable).
    unfold app.Delete, product_repository.Delete, send, errorOnly.
    destruct (store.delete (app.db env) read id) as [err|]; cbn [fst snd].
    + split; [reflexivity|]. split.
      * intros status. split; [discriminate|]. now intros (_ & ? & _).
      * intros status [= <-]. cbn [product_handlers.statusWritten].
        rewrite handleServiceError_status.
        destruct (statusOfError_kinds err) as [H | [H | [H | H]]]; rewrite H; auto.
    + split; [reflexivity|]. split.
      * intros status. split.
        -- intros [= <-]. now repeat split.
        -- now intros (_ & _ & ->).
      * intros status [= <-]. now left.
  - destruct (snd (app.GetByID env id tr)) as [[found|err]|p] eqn:Hout.
    + destruct (GetByID_unreadable env _ _ Hreadable _ Hout) as [err Herr].
      discriminate.
    + cbn [fst snd]. split; [reflexivity|]. split.
      * intros status. split; [discriminate|]. now intros (Hno & _).
      * intros status [= <-]. cbn [product_handlers.statusWritten].
        rewrite handleServiceError_status.
        destruct (statusOfError_kinds
                    (product_service.notFoundOr (app.foreign env) id err))
          as [H | [H | [H | H]]]; rewrite H; auto.
    + cbn [fst snd]. split; [reflexivity|]. split.
      * intros status. split; [discriminate|]. now intros (Hno & _).
      * discriminate.
Qed.


(** ** Creating and updating *)

Section Writes.

Variable env : app.Environment.

Lemma Update_run (req : requests.UpdateProductRequest) (tr : list store.Statement) :
  app.Update env req tr
  = match app.marshalToRawMessage env (requests.NewMetadata req) with
    | Err err => (tr, Returns (Err err))
    | Ok metadataJSON =>
        let params :=
          {| store.NewName := requests.NewName req;
             store.NewDescription := requests.NewDescription req;
             store.NewActive := requests.NewActive req;
             store.NewMetadata := metadataJSON |} in
        let written := (tr ++ [store.Update (requests.ID req) params])%list in
        match store.update (app.db env) tr (requests.ID req) params with
        | Some err => (written, Returns (Err err))
        | None => app.GetByID env (requests.ID req) written
        end
    end.
Proof.
  unfold app.Update, product_repository.Update, app.marshalToRawMessage,
    andThen, fromResult, send, errorOnly.
  destruct (repository.marshalToRawMessage _ _ _) as [metadataJSON|err];
    [|reflexivity].
  cbn zeta. now destruct (store.update _ _ _ _).
Qed.

Lemma Create_run (req : requests.CreateProductRequest) (tr : list store.Statement) :
  app.Create env req tr
  = match app.marshalToRawMessage env (requests.Metadata req) with
    | Err err => (tr, Returns (Err err))
    | Ok metadataJSON =>
        let params :=
          {| store.Name := requests.Name req;
             store.Description := requests.Description req;
             store.Active := requests.Active req;
             store.Metadata := metadataJSON |} in
        let sent := (tr ++ [store.Create params])%list in
        match store.create (app.db env) tr params with
        | Err err => (sent, Returns (Err err))
        | Ok None => (sent, Panics NilDereference)
        | Ok (Some created) => app.GetByID env (app.Id env created) sent
        end
    end.
Proof.
  unfold app.Create, product_repository.Create, app.marshalToRawMessage,
    andThen, fromResult, fromGo, send.
  destruct (repository.marshalToRawMessage _ _ _) as [metadataJSON|err];
    [|reflexivity].
  cbn zeta. now destruct (store.create _ _ _) as [[created|]|err].
Qed.

Lemma respond_document (write : api.ProductResponse -> product_handlers.Written)
    (outcome : result (option models.Product)) (w : product_handlers.Written) :
  (forall data, exists status, write data = product_handlers.ProductDocument status data) ->
  product_handlers.respond (app.databaseErrorText env) (app.formatRFC3339 env)
    write outcome = Returns w ->
  (exists response, w = product_handlers.ErrorWritten response
                    /\ exists err, outcome = Err err)
  \/ (exists product,
        outcome = Ok (Some product)
        /\ w = write (api.convertToProductResponse (app.formatRFC3339 env) product)).
Proof.
  intros Hwrite. unfold product_handlers.respond.
  destruct outcome as [[product|]|err]; simpl.
  - intros [= <-]. right. now exists product.
  - discriminate.
  - intros [= <-]. left. eexists. split; [reflexivity|]. now exists err.
Qed.

End Writes.

(** X14. An update answers with the row read after it. [UpdateProduct]
    writes a product document exactly when the body decodes and validates,
    the product is readable before the update, its new metadata marshals, the
    update statement succeeds, and the product is readable again after it.
    The statements sent are then the read, the update and a second read, in
    that order; the status is 200; and the document is the conversion of the
    product as read the second time. *)
Theorem update_answers_with_row_read_after :
  forall (env : app.Environment) (id body : string)
         (tr trace : list store.Statement) (status : Z) (data : api.ProductResponse),
    app.UpdateProduct env id body tr
    = (trace, Returns (product_handlers.ProductDocument status data))
    <-> exists req metadataJSON after,
          let read := (tr ++ [store.GetProductByID id])%list in
          let written :=
            (read ++ [store.Update id (updateParams req metadataJSON)])%list in
          app.DecodeUpdate env body = Ok req
          /\ app.ValidateUpdate env req = None
          /\ readable env tr id <> None
          /\ app.marshalToRawMessage env (product_handlers.NewMetadata req)
             = Ok metadataJSON
          /\ store.update (app.db env) read id (updateParams req metadataJSON) = None
          /\ readable env written id = Some after
          /\ trace = (written ++ [store.GetProductByID id])%list
          /\ status = 200
          /\ data = api.convertToProductResponse (app.formatRFC3339 env) after.
Proof.
  intros env id body tr trace status data.
  unfold app.UpdateProduct, product_handlers.UpdateProduct.
  split.
  - destruct (app.DecodeUpdate env body) as [req|err]; [|discriminate].
    destruct (app.ValidateUpdate env req) as [err|] eqn:Hvalid; [discriminate|].
    unfold app.serviceUpdateProduct, product_service.UpdateProduct.
    cbn [requests.ID]. rewrite (GetByID_trace env id tr).
    destruct (snd (app.GetByID env id tr)) as [[found|err]|p] eqn:Hfirst;
      [|discriminate|discriminate].
    destruct (GetByID_found env _ _ _ Hfirst) as (before & -> & Hbefore).
    rewrite Update_run. cbn [requests.ID requests.NewName requests.NewDescription
                               requests.NewActive requests.NewMetadata].
    destruct (app.marshalToRawMessage env (product_handlers.NewMetadata req))
      as [metadataJSON|err] eqn:Hmarshal; [|discriminate].
    cbn zeta. fold (updateParams req metadataJSON).
    destruct (store.update (app.db env) _ id (updateParams req metadataJSON))
      as [err|] eqn:Hupdate; [discriminate|].
    set (written := ((tr ++ [store.GetProductByID id])
                     ++ [store.Update id (updateParams req metadataJSON)])%list) in *.
    rewrite (GetByID_trace env id written).
    destruct (snd (app.GetByID env id written)) as [[again|err]|p] eqn:Hsecond;
      [|discriminate|discriminate].
    destruct (GetByID_found env _ _ _ Hsecond) as (after & -> & Hafter).
    simpl. intros [= <- <- <-].
    exists req, metadataJSON, after. cbn zeta. fold written.
    repeat (split; [first [reflexivity | assumption | congruence]|]).
    reflexivity.
  - intros (req & metadataJSON & after & Hdecode & Hvalid & Hbefore & Hmarshal
            & Hupdate & Hafter & -> & -> & ->).
    rewrite Hdecode, Hvalid.
    unfold app.serviceUpdateProduct, product_service.UpdateProduct.
    cbn [requests.ID].
    rewrite (GetByID_trace env id tr).
    destruct (readable env tr id) as [before|] eqn:Hreadable; [|congruence].
    rewrite (GetByID_readable env _ _ _ Hreadable).
    rewrite Update_run. cbn [requests.ID requests.NewName requests.NewDescription
                               requests.NewActive requests.NewMetadata].
    rewrite Hmarshal. cbn zeta. fold (updateParams req metadataJSON).
    rewrite Hupdate, GetByID_trace, (GetByID_readable env _ _ _ Hafter).
    reflexivity.
Qed.


(** X15. A created product is answered as read back. [CreateProduct] writes
    a product document exactly when the body decodes and validates, its
    metadata marshals, the create statement returns a product, and the
    product is readable by the id the store gave it. The statements sent are
    then the create and the read of that id; the status is 201; and the
    document is the conversion of the product as read back, not of the
    request. *)
Theorem create_answers_with_row_read_back :
  forall (env : app.Environment) (body : string)
         (tr trace : list store.Statement) (status : Z) (data : api.ProductResponse),
    app.CreateProduct env body tr
    = (trace, Returns (product_handlers.ProductDocument status data))
    <-> exists req metadataJSON created after,
          let sent := (tr ++ [store.Create (createParams req metadataJSON)])%list in
          app.DecodeCreate env body = Ok req
          /\ app.ValidateCreate env req = None
          /\ app.marshalToRawMessage env (product_handlers.Metadata req)
             = Ok metadataJSON
          /\ store.create (app.db env) tr (createParams req metadataJSON)
             = Ok (Some created)
          /\ readable env sent (app.Id env created) = Some after
          /\ trace = (sent ++ [store.GetProductByID (app.Id env created)])%list
          /\ status = 201
          /\ data = api.convertToProductResponse (app.formatRFC3339 env) after.
Proof.
  intros env body tr trace status data.
  unfold app.CreateProduct, product_handlers.CreateProduct,
    app.serviceCreateProduct, product_service.CreateProduct.
  split.
  - destruct (app.DecodeCreate env body) as [req|err]; [|discriminate].
    destruct (app.ValidateCreate env req) as [err|] eqn:Hvalid; [discriminate|].
    rewrite Create_run. cbn [requests.Name requests.Description requests.Active
                               requests.Metadata].
    destruct (app.marshalToRawMessage env (product_handlers.Metadata req))
      as [metadataJSON|err] eqn:Hmarshal; [|discriminate].
    cbn zeta. fold (createParams req metadataJSON).
    destruct (store.create (app.db env) tr (createParams req metadataJSON))
      as [[created|]|err] eqn:Hcreate; [|discriminate|discriminate].
    set (sent := (tr ++ [store.Create (createParams req metadataJSON)])%list) in *.
    rewrite (GetByID_trace env (app.Id env created) sent).
    destruct (snd (app.GetByID env (app.Id env created) sent))
      as [[again|err]|p] eqn:Hread; [|discriminate|discriminate].
    destruct (GetByID_found env _ _ _ Hread) as (after & -> & Hafter).
    simpl. intros [= <- <- <-].
    exists req, metadataJSON, created, after. cbn zeta. fold sent.
    repeat (split; [first [reflexivity | assumption | congruence]|]).
    reflexivity.
  - intros (req & metadataJSON & created & after & Hdecode & Hvalid & Hmarshal
            & Hcreate & Hafter & -> & -> & ->).
    rewrite Hdecode, Hvalid, Create_run.
    cbn [requests.Name requests.Description requests.Active requests.Metadata].
    rewrite Hmarshal. cbn zeta. fold (createParams req metadataJSON).
    rewrite Hcreate, GetByID_trace, (GetByID_readable env _ _ _ Hafter).
    reflexivity.
Qed.

(** X16. A body that does not decode, or that decodes and fails validation,
    never reaches the service: [CreateProduct] and [UpdateProduct] answer
    it with 400 and an "invalid_request_error" whose message mentions none
    of the withheld words, and the outcome and the statements are the same
    whatever the service would have done. *)
Theorem rejected_body_never_reaches_service :
  forall (text : generated.DatabaseError -> string) (format : Time -> string)
         (DecodeCreate : string -> result product_handlers.CreateProductRequest)
         (DecodeUpdate : string -> result product_handlers.UpdateProductRequest)
         (ValidateCreate : product_handlers.CreateProductRequest -> option error)
         (ValidateUpdate : product_handlers.UpdateProductRequest -> option error)
         (id body : string) (tr : list store.Statement),
    let rejected (run : list store.Statement * go product_handlers.Written) :=
      exists response detail,
        run = (tr, Returns (product_handlers.ErrorWritten response))
        /\ api.StatusCode response = 400
        /\ errorDetail response = Some detail
        /\ api.Type_ detail = "invalid_request_error"
        /\ ~ sensitive (api.Message detail) in
    ((forall req, DecodeCreate body = Ok req -> ValidateCreate req <> None) ->
     forall svcCreateProduct,
       rejected (product_handlers.CreateProduct text format DecodeCreate
                   ValidateCreate svcCreateProduct body tr))
    /\ ((forall req, DecodeUpdate body = Ok req -> ValidateUpdate req <> None) ->
        forall svcUpdateProduct,
          rejected (product_handlers.UpdateProduct text format DecodeUpdate
                      ValidateUpdate svcUpdateProduct id body tr)).
Proof.
  intros text format DecodeCreate DecodeUpdate ValidateCreate ValidateUpdate
    id body tr rejected.
  assert (Hbad : forall err message,
            rejected (tr, Returns (product_handlers.ErrorWritten
                                     (api.BadRequest text (Some err) message "")))).
  { intros err message. eexists _, _. split; [reflexivity|].
    split; [reflexivity|]. split; [reflexivity|]. split; [reflexivity|].
    simpl. intros Hs. apply detected_sensitive in Hs.
    now rewrite sanitizeErrorMessage_undetected in Hs. }
  split.
  - intros Hinvalid svc. unfold product_handlers.CreateProduct.
    destruct (DecodeCreate body) as [req|err]; [|apply Hbad].
    specialize (Hinvalid req eq_refl).
    destruct (ValidateCreate req) as [err|]; [apply Hbad|congruence].
  - intros Hinvalid svc. unfold product_handlers.UpdateProduct.
    destruct (DecodeUpdate body) as [req|err]; [|apply Hbad].
    specialize (Hinvalid req eq_refl).
    destruct (ValidateUpdate req) as [err|]; [apply Hbad|congruence].
Qed.


(** X17. The errors of the write statements are answered untranslated. When
    the create, the update or the delete statement fails, the handler's
    response is [handleServiceError] of the store's own error, after the
    statements sent so far: [translateError] and the category predicates are
    not consulted. A [*generated.DatabaseError] of a write is therefore
    answered 500 with the fixed message, whatever its category. *)
Theorem write_errors_are_answered_untranslated :
  forall (env : app.Environment) (tr : list store.Statement) (err : error),
    let failure :=
      Returns (product_handlers.ErrorWritten
                 (api.handleServiceError (app.databaseErrorText env) err)) in
    (forall body req metadataJSON,
       app.DecodeCreate env body = Ok req ->
       app.ValidateCreate env req = None ->
       app.marshalToRawMessage env (product_handlers.Metadata req) = Ok metadataJSON ->
       store.create (app.db env) tr (createParams req metadataJSON) = Err err ->
       app.CreateProduct env body tr
       = ((tr ++ [store.Create (createParams req metadataJSON)])%list, failure))
    /\ (forall id body req metadataJSON,
          app.DecodeUpdate env body = Ok req ->
          app.ValidateUpdate env req = None ->
          readable env tr id <> None ->
          app.marshalToRawMessage env (product_handlers.NewMetadata req)
          = Ok metadataJSON ->
          store.update (app.db env) (tr ++ [store.GetProductByID id])%list id
            (updateParams req metadataJSON) = Some err ->
          app.UpdateProduct env id body tr
          = ((tr ++ [store.GetProductByID id;
                     store.Update id (updateParams req metadataJSON)])%list, failure))
    /\ (forall id,
          readable env tr id <> None ->
          store.delete (app.db env) (tr ++ [store.GetProductByID id])%list id
          = Some err ->
          app.DeleteProduct env id tr
          = ((tr ++ [store.GetProductByID id; store.Delete id])%list, failure))
    /\ api.StatusCode (api.handleServiceError (app.databaseErrorText env) err)
       = statusOfError err
    /\ (forall d,
          err = DatabaseError d ->
          api.handleServiceError (app.databaseErrorText env) err
          = {| api.StatusCode := 500;
               api.Payload :=
                 api.ErrorDocument
                   {| api.ErrorOf :=
                        {| api.Type_ := "api_error";
                           api.Code := app.databaseErrorText env d;
                           api.Message := "An internal error occurred";
                           api.Param := "" |} |} |}).
Proof.
  intros env tr err failure. subst failure.
  split; [|split; [|split; [|split]]].
  - intros body req metadataJSON Hdecode Hvalid Hmarshal Hcreate.
    unfold app.CreateProduct, product_handlers.CreateProduct,
      app.serviceCreateProduct, product_service.CreateProduct.
    rewrite Hdecode, Hvalid, Create_run.
    cbn [requests.Name requests.Description requests.Active requests.Metadata].
    rewrite Hmarshal. cbn zeta. fold (createParams req metadataJSON).
    now rewrite Hcreate.
  - intros id body req metadataJSON Hdecode Hvalid Hbefore Hmarshal Hupdate.
    unfold app.UpdateProduct, product_handlers.UpdateProduct,
      app.serviceUpdateProduct, product_service.UpdateProduct.
    rewrite Hdecode, Hvalid. cbn [requests.ID].
    rewrite (GetByID_trace env id tr).
    destruct (readable env tr id) as [before|] eqn:Hreadable; [|congruence].
    rewrite (GetByID_readable env _ _ _ Hreadable), Update_run.
    cbn [requests.ID requests.NewName requests.NewDescription
           requests.NewActive requests.NewMetadata].
    rewrite Hmarshal. cbn zeta. fold (updateParams req metadataJSON).
    rewrite Hupdate. simpl. now rewrite <- app_assoc.
  - intros id Hbefore Hdelete.
    unfold app.DeleteProduct, product_handlers.DeleteProduct,
      app.serviceDeleteProduct, product_service.DeleteProduct.
    rewrite (GetByID_trace env id tr).
    destruct (readable env tr id) as [before|] eqn:Hreadable; [|congruence].
    rewrite (GetByID_readable env _ _ _ Hreadable).
    unfold app.Delete, product_repository.Delete, send, errorOnly.
    rewrite Hdelete. simpl. now rewrite <- app_assoc.
  - apply handleServiceError_status.
  - intros d ->. reflexivity.
Qed.

(** The stand-in store refuses the name "taken" with an error that the
    already-exists predicate holds of; the answer is 500 all the same. *)
Example taken_name_is_answered_500 :
  app.IsAlreadyExists demo.environment demo.taken = true
  /\ app.CreateProduct demo.environment "taken" []
     = ([store.Create {| store.Name := "taken"; store.Description := None;
                         store.Active := true; store.Metadata := None |}],
        Returns (product_handlers.ErrorWritten
                   {| api.StatusCode := 500;
                      api.Payload :=
                        api.ErrorDocument
                          {| api.ErrorOf :=
                               {| api.Type_ := "api_error";
                                  api.Code := "create product: duplicate key";
                                  api.Message := "An internal error occurred";
                                  api.Param := "" |} |} |})).
Proof. split; reflexivity. Qed.

(** X18. The metadata of a created product. For a body that decodes and
    validates, a missing or empty metadata map reaches the store as NULL,
    without [json.Marshal] being asked; a map with entries reaches it as the
    bytes [json.Marshal] returns; and when [json.Marshal] fails no statement
    is sent and the error is answered wrapped. The other parameters of the
    create statement are the fields of the body. *)
Theorem create_statement_parameters :
  forall (env : app.Environment) (body : string)
         (req : product_handlers.CreateProductRequest) (tr : list store.Statement),
    app.DecodeCreate env body = Ok req ->
    app.ValidateCreate env req = None ->
    let metadata := product_handlers.Metadata req in
    let marshalled :=
      app.Marshal env (repository.stringMap (app.Dyn env) metadata) in
    let sends (metadataJSON : option string) :=
      exists rest,
        fst (app.CreateProduct env body tr)
        = (tr ++ store.Create (createParams req metadataJSON) :: rest)%list in
    (repository.lenMap metadata = 0 -> sends None)
    /\ (forall data,
          repository.lenMap metadata <> 0 -> marshalled = Ok data -> sends (Some data))
    /\ (forall err,
          repository.lenMap metadata <> 0 -> marshalled = Err err ->
          app.CreateProduct env body tr
          = (tr, Returns (product_handlers.ErrorWritten
                            (api.handleServiceError (app.databaseErrorText env)
                               (wrapError "marshal metadata: " err))))).
Proof.
  intros env body req tr Hdecode Hvalid metadata marshalled sends.
  assert (Hsent : forall metadataJSON,
            app.marshalToRawMessage env metadata = Ok metadataJSON ->
            sends metadataJSON).
  { intros metadataJSON Hmarshal. subst sends. cbn beta.
    unfold app.CreateProduct, product_handlers.CreateProduct,
      app.serviceCreateProduct, product_service.CreateProduct.
    rewrite Hdecode, Hvalid, Create_run.
    cbn [requests.Name requests.Description requests.Active requests.Metadata].
    fold metadata. rewrite Hmarshal. cbn zeta. fold (createParams req metadataJSON).
    destruct (store.create (app.db env) tr (createParams req metadataJSON))
      as [[created|]|err].
    - rewrite GetByID_trace. exists [store.GetProductByID (app.Id env created)].
      destruct (snd (app.GetByID env _ _)); cbn [fst]; now rewrite <- app_assoc.
    - now exists [].
    - now exists []. }
  split; [|split].
  - intros Hempty. apply Hsent.
    unfold app.marshalToRawMessage, repository.marshalToRawMessage.
    apply Z.eqb_eq in Hempty. now rewrite Hempty.
  - intros data Hentries Hdata. apply Hsent.
    unfold app.marshalToRawMessage, repository.marshalToRawMessage.
    apply Z.eqb_neq in Hentries. rewrite Hentries.
    subst marshalled. now rewrite Hdata.
  - intros err Hentries Herr.
    unfold app.CreateProduct, product_handlers.CreateProduct,
      app.serviceCreateProduct, product_service.CreateProduct.
    rewrite Hdecode, Hvalid, Create_run.
    cbn [requests.Name requests.Description requests.Active requests.Metadata].
    fold metadata.
    unfold app.marshalToRawMessage, repository.marshalToRawMessage.
    apply Z.eqb_neq in Hentries. rewrite Hentries.
    subst marshalled. now rewrite Herr.
Qed.

Lemma create_statement_parameters_witness :
  exists rest,
    fst (app.CreateProduct demo.environment "widget" [])
    = ([] ++ store.Create {| store.Name := "widget"; store.Description := None;
                             store.Active := true; store.Metadata := None |}
          :: rest)%list.
Proof.
  exact (proj1 (create_statement_parameters demo.environment "widget"
                  {| product_handlers.Name := "widget";
                     product_handlers.Description := None;
                     product_handlers.Active := true;
                     product_handlers.Metadata := None |}
                  [] eq_refl eq_refl) eq_refl).
Defined.


(** X19. Reading through the three layers. [GetProduct] sends the one read
    statement, and writes a product document exactly when the product is
    readable: the status is then 200 and the document is the conversion of
    the product read. In every other case that it answers at all, the status
    is 400, 404, 409 or 500. *)
Theorem get_answers_readable_product :
  forall (env : app.Environment) (id : string) (tr : list store.Statement),
    let run := app.GetProduct env id tr in
    fst run = (tr ++ [store.GetProductByID id])%list
    /\ (forall status data,
          snd run = Returns (product_handlers.ProductDocument status data)
          <-> exists product,
                readable env tr id = Some product
                /\ status = 200
                /\ data = api.convertToProductResponse (app.formatRFC3339 env) product)
    /\ (forall status,
          answered run = Some status ->
          status = 200 \/ status = 400 \/ status = 404
          \/ status = 409 \/ status = 500).
Proof.
  intros env id tr run. subst run.
  unfold answered, app.GetProduct, product_handlers.GetProduct,
    app.serviceGetProduct, product_service.GetProduct.
  rewrite (GetByID_trace env id tr).
  destruct (snd (app.GetByID env id tr)) as [[found|err]|p] eqn:Hout; cbn [fst snd].
  - destruct (GetByID_found env _ _ _ Hout) as (product & -> & Hreadable).
    split; [reflexivity|]. simpl. split.
    + intros status data. rewrite Hreadable. split.
      * intros [= <- <-]. now exists product.
      * now intros (product' & [= <-] & -> & ->).
    + intros status [= <-]. now left.
  - split; [reflexivity|]. simpl. split.
    + intros status data. split; [discriminate|].
      intros (product & Hreadable & _).
      rewrite (GetByID_readable env _ _ _ Hreadable) in Hout. discriminate.
    + intros status [= <-]. rewrite handleServiceError_status.
      destruct (statusOfError_kinds
                  (product_service.notFoundOr (app.foreign env) id err))
        as [H | [H | [H | H]]]; rewrite H; auto.
  - split; [reflexivity|]. split.
    + intros status data. split; [discriminate|].
      intros (product & Hreadable & _).
      rewrite (GetByID_readable env _ _ _ Hreadable) in Hout. discriminate.
    + discriminate.
Qed.

(** ** The route configuration *)

Lemma Split_nonempty (s : string) (sep : ascii) : routes.Split s sep <> [].
Proof.
  destruct s as [|c rest]; simpl; [discriminate|].
  destruct (Ascii.eqb c sep); [discriminate|].
  now destruct (routes.Split rest sep).
Qed.

Lemma Split_length (s : string) (sep : ascii) :
  length (routes.Split s sep) = S (occurrences sep s).
Proof.
  induction s as [|c rest IH]; simpl; [reflexivity|].
  destruct (Ascii.eqb c sep); simpl; [now rewrite IH|].
  destruct (routes.Split rest sep) as [|field fields] eqn:Hrest;
    [now apply Split_nonempty in Hrest|].
  simpl in *. exact IH.
Qed.

Lemma Split_fields (s : string) (sep : ascii) :
  Forall (fun field => occurrences sep field = 0%nat) (routes.Split s sep).
Proof.
  induction s as [|c rest IH]; simpl; [now repeat constructor|].
  destruct (Ascii.eqb c sep) eqn:Hc; [now constructor|].
  destruct (routes.Split rest sep) as [|field fields];
    [repeat constructor; simpl; now rewrite Hc|].
  apply Forall_cons in IH as [Hfield Hfields].
  constructor; [|exact Hfields]. simpl. now rewrite Hc.
Qed.

Lemma Split_concat (s : string) (sep : ascii) :
  String.concat (String sep EmptyString) (routes.Split s sep) = s.
Proof.
  induction s as [|c rest IH]; simpl; [reflexivity|].
  destruct (Ascii.eqb c sep) eqn:Hc.
  - apply Ascii.eqb_eq in Hc as ->.
    destruct (routes.Split rest sep) as [|field fields] eqn:Hrest;
      [now apply Split_nonempty in Hrest|].
    simpl in *. now rewrite IH.
  - destruct (routes.Split rest sep) as [|field fields] eqn:Hrest;
      [now apply Split_nonempty in Hrest|].
    destruct fields as [|next fields]; simpl in *; now rewrite <- IH.
Qed.

Lemma ParseAllowedOrigins_nonempty (TrimSpace : string -> string) (originsStr : string) :
  routes.ParseAllowedOrigins TrimSpace originsStr <> [].
Proof.
  unfold routes.ParseAllowedOrigins.
  destruct (String.eqb originsStr ""); [discriminate|].
  intros Hnil. apply fmap_nil_inv in Hnil. now apply Split_nonempty in Hnil.
Qed.

(** X20. [ParseAllowedOrigins] never returns an empty list. The empty
    setting gives the origins of [DefaultRouteConfig]; any other setting
    gives one origin for each comma-separated field, blank fields included,
    so one more than it has commas; and when trimming changes none of the
    fields, joining the origins with commas gives the setting back. *)
Theorem ParseAllowedOrigins_fields :
  forall (TrimSpace : string -> string) (originsStr : string),
    let origins := routes.ParseAllowedOrigins TrimSpace originsStr in
    origins <> []
    /\ routes.ParseAllowedOrigins TrimSpace ""
       = routes.AllowedOrigins routes.DefaultRouteConfig
    /\ (originsStr <> "" ->
        length origins = S (occurrences "," originsStr)
        /\ Forall2 (fun field origin =>
                      origin = TrimSpace field /\ occurrences "," field = 0%nat)
             (routes.Split originsStr ",") origins
        /\ (Forall (fun field => TrimSpace field = field)
              (routes.Split originsStr ",") ->
            String.concat "," origins = originsStr)).
Proof.
  intros TrimSpace originsStr origins. subst origins.
  unfold routes.ParseAllowedOrigins.
  destruct (String.eqb_spec originsStr "") as [->|Hset].
  - split; [discriminate|]. split; [reflexivity|]. congruence.
  - split.
    { intros Hnil. apply fmap_nil_inv in Hnil. now apply Split_nonempty in Hnil. }
    split; [reflexivity|]. intros _.
    split; [now rewrite length_fmap, Split_length|]. split.
    + pose proof (Split_fields originsStr ",") as Hfields.
      induction Hfields as [|field fields Hfield _ IH]; constructor; auto.
    + intros Hfixed.
      rewrite <- (Split_concat originsStr ",") at 2. f_equal.
      induction Hfixed as [|field fields Hfield _ IH]; [reflexivity|].
      rewrite fmap_cons. now rewrite Hfield, IH.
Qed.

(** X21. The route configuration that [runServe] builds has no zero number
    and no empty origin list, whatever the settings; a number other than 0 is
    taken as it is, negative numbers included; and with nothing set it is
    [DefaultRouteConfig]. *)
Theorem routeConfig_has_no_zero_setting :
  forall (TrimSpace : string -> string)
         (readRPS writeRPS maxRequestBodyBytes : Z) (corsAllowedOrigins : string),
    let config :=
      cmd.routeConfig TrimSpace readRPS writeRPS maxRequestBodyBytes
        corsAllowedOrigins in
    routes.ReadRPS config <> 0
    /\ routes.WriteRPS config <> 0
    /\ routes.MaxBodyBytes config <> 0
    /\ routes.AllowedOrigins config <> []
    /\ (readRPS <> 0 -> routes.ReadRPS config = readRPS)
    /\ (writeRPS <> 0 -> routes.WriteRPS config = writeRPS)
    /\ (maxRequestBodyBytes <> 0 -> routes.MaxBodyBytes config = maxRequestBodyBytes)
    /\ cmd.routeConfig TrimSpace 0 0 0 "" = routes.DefaultRouteConfig.
Proof.
  intros TrimSpace readRPS writeRPS maxRequestBodyBytes corsAllowedOrigins config.
  subst config. unfold cmd.routeConfig. cbn [routes.ReadRPS].
  destruct (Z.eqb_spec readRPS 0) as [->|Hread]; cbn [routes.WriteRPS routes.ReadRPS];
    (destruct (Z.eqb_spec writeRPS 0) as [->|Hwrite];
     cbn [routes.MaxBodyBytes routes.WriteRPS routes.ReadRPS];
     (destruct (Z.eqb_spec maxRequestBodyBytes 0) as [->|Hbody];
      cbn [routes.MaxBodyBytes routes.WriteRPS routes.ReadRPS routes.AllowedOrigins];
      repeat split; try congruence; try discriminate; try reflexivity;
      try (intros Hnil;
           destruct (ParseAllowedOrigins_nonempty TrimSpace corsAllowedOrigins Hnil)))).
Qed.


(** ** A product that is not there *)

Lemma handleServiceError_not_found (text : generated.DatabaseError -> string)
    (id : string) :
  api.handleServiceError text (apperrors.NewNotFoundError "product" id)
  = productNotFound id.
Proof.
  unfold api.handleServiceError, api.NotFound, api.renderError, api.renderJSON,
    api.NewErrorResponse, productNotFound. simpl.
  rewrite sanitizeErrorMessage_cases. simpl.
  now destruct (String.eqb id "").
Qed.

(** X22. Over the repository that goes with the [:many] query the service's
    translation does apply. When the store fails to read a product with the
    generated not-found error, the read, the update of a valid body and the
    delete are each answered 404 with the code "product not found: <id>",
    after the one read statement and without the repository's update or
    delete being called. The message is the same text, unless the id makes it
    mention "sql", "database" or "postgres", in which case it is "Invalid
    request". *)
Theorem missing_product_is_answered_with_its_id :
  forall (Products : Type) (db : store.Answers Products)
         (Unmarshal : string -> result (option (gmap string string)))
         (IsGeneratedErrNotFound foreign : error -> bool)
         (text : generated.DatabaseError -> string) (format : Time -> string)
         (id : string) (tr : list store.Statement) (cause : error),
    foreign product_repository_many.ErrNotFound = true ->
    store.getProductByID db tr id = Err cause ->
    IsGeneratedErrNotFound cause = true ->
    let GetByID :=
      product_repository_many.GetByID Products db Unmarshal IsGeneratedErrNotFound in
    let notFound :=
      ((tr ++ [store.GetProductByID id])%list,
       Returns (product_handlers.ErrorWritten (productNotFound id))) in
    product_handlers.GetProduct text format
      (product_service.GetProduct foreign GetByID) id tr = notFound
    /\ (forall repoDelete,
          product_handlers.DeleteProduct text
            (product_service.DeleteProduct foreign GetByID repoDelete) id tr
          = notFound)
    /\ (forall repoUpdate DecodeUpdate ValidateUpdate body req,
          DecodeUpdate body = Ok req ->
          ValidateUpdate req = None ->
          product_handlers.UpdateProduct text format DecodeUpdate ValidateUpdate
            (product_service.UpdateProduct foreign GetByID repoUpdate) id body tr
          = notFound).
Proof.
  intros Products db Unmarshal IsGeneratedErrNotFound foreign text format id tr
    cause Hsentinel Hread Hcause GetByID notFound.
  assert (Hmissing :
    GetByID id tr
    = ((tr ++ [store.GetProductByID id])%list,
       Returns (Err product_repository_many.ErrNotFound))).
  { subst GetByID. unfold product_repository_many.GetByID.
    now rewrite Hread, Hcause. }
  assert (Hmapped :
    product_service.notFoundOr foreign id product_repository_many.ErrNotFound
    = apperrors.NewNotFoundError "product" id).
  { unfold product_service.notFoundOr, product_repository_many.ErrNotFound in *.
    simpl. now rewrite Hsentinel. }
  subst notFound. split; [|split].
  - unfold product_handlers.GetProduct, product_service.GetProduct.
    rewrite Hmissing, Hmapped. cbn [product_handlers.respond].
    now rewrite handleServiceError_not_found.
  - intros repoDelete.
    unfold product_handlers.DeleteProduct, product_service.DeleteProduct.
    rewrite Hmissing, Hmapped. now rewrite handleServiceError_not_found.
  - intros repoUpdate DecodeUpdate ValidateUpdate body req Hdecode Hvalid.
    unfold product_handlers.UpdateProduct, product_service.UpdateProduct.
    rewrite Hdecode, Hvalid. cbn [requests.ID].
    rewrite Hmissing, Hmapped. cbn [product_handlers.respond].
    now rewrite handleServiceError_not_found.
Qed.

Lemma missing_product_is_answered_with_its_id_witness :
  product_handlers.GetProduct example.databaseErrorText example.formatRFC3339
    (product_service.GetProduct (example.Is "not found")
       (product_repository_many.GetByID string demo.answers example.Unmarshal
          demo.isMissing))
    "widget" []
  = ([store.GetProductByID "widget"],
     Returns (product_handlers.ErrorWritten
                {| api.StatusCode := 404;
                   api.Payload :=
                     api.ErrorDocument
                       {| api.ErrorOf :=
                            {| api.Type_ := "invalid_request_error";
                               api.Code := "product not found: widget";
                               api.Message := "product not found: widget";
                               api.Param := "" |} |} |})).
Proof.
  exact (proj1 (missing_product_is_answered_with_its_id string demo.answers
                  example.Unmarshal demo.isMissing (example.Is "not found")
                  example.databaseErrorText example.formatRFC3339
                  "widget" [] demo.missing eq_refl eq_refl eq_refl)).
Defined.

(** X23. The service on the guide's mock repository. [GetProduct] returns
    what the mock returns: the pointer stored under the id when there is one,
    and otherwise a not-found application error for "product" and the id,
    which [errors.As] finds, as the guide's test expects of the empty mock.
    The handler answers that error with the 404 document of the id, writes
    200 for a stored product, and panics on a stored nil pointer. No
    statement is sent. *)
Theorem service_on_mock_repository :
  forall (products : gmap string (option models.Product))
         (foreign : error -> bool)
         (text : generated.DatabaseError -> string) (format : Time -> string)
         (id : string) (tr : list store.Statement),
    let GetProduct := product_service.GetProduct foreign (mock.GetByID products) in
    let handler := product_handlers.GetProduct text format GetProduct in
    GetProduct id tr = mock.GetByID products id tr
    /\ (products !! id = None ->
        GetProduct id tr = (tr, Returns (Err (NotFoundError "product" id)))
        /\ errors.AsNotFoundError (NotFoundError "product" id) = Some ("product", id)
        /\ handler id tr
           = (tr, Returns (product_handlers.ErrorWritten (productNotFound id))))
    /\ (forall product,
          products !! id = Some (Some product) ->
          handler id tr
          = (tr, Returns (product_handlers.ProductDocument 200
                            (api.convertToProductResponse format product))))
    /\ (products !! id = Some None -> handler id tr = (tr, Panics NilDereference))
    /\ (exists err,
          product_service.GetProduct foreign (mock.GetByID ∅) id tr
          = (tr, Returns (Err err))
          /\ errors.AsNotFoundError err <> None).
Proof.
  intros products foreign text format id tr GetProduct handler.
  subst handler GetProduct.
  unfold product_handlers.GetProduct, product_service.GetProduct, mock.GetByID.
  split; [now destruct (products !! id)|].
  split; [|split; [|split]].
  - intros ->. split; [reflexivity|]. split; [reflexivity|].
    cbn [product_handlers.respond product_service.notFoundOr
           product_service.IsErrNotFound apperrors.NewNotFoundError].
    now rewrite <- handleServiceError_not_found with (text := text).
  - now intros product ->.
  - now intros ->.
  - rewrite lookup_empty. eexists. split; [reflexivity|]. discriminate.
Qed.


(** ** Paging through the list endpoint *)

Lemma Forall_listing (P : generated.Row -> Prop) (table : list generated.Row)
    (active : option bool) :
  Forall P table -> Forall P (listing table active).
Proof.
  intros H. unfold listing. apply Forall_orderById. now apply Forall_filter_bool.
Qed.

Section ListEndpoint.

Variable text : generated.DatabaseError -> string.
Variable format : Time -> string.
Variable Unmarshal : string -> result (option (gmap string string)).
Variable table : list generated.Row.
Variable limit : string.
Variable n : Z.
Variable others : api.Values.

Hypothesis limit_parses : strconv.Atoi limit = Some n.
Hypothesis limit_range : 1 <= n <= 100.
Hypothesis primary_key : NoDup (generated.Id <$> table).
Hypothesis ids_not_empty : Forall (fun row => generated.Id row <> "") table.
Hypothesis metadata_decodes : Forall (decodable Unmarshal) table.

(** The filter the handler builds from the request. *)
Lemma listRequest_filter (cursor : string) :
  api.listFilter (("limit", limit) :: ("starting_after", cursor) :: others)
  = {| models.FilterActive := api.queryActive others;
       models.Limit := n;
       models.StartingAfter := api.ptrOrNil cursor;
       models.EndingBefore := None |}.
Proof.
  unfold api.listFilter. rewrite queryLimit_unfold.
  assert (Hlimit : api.Get (("limit", limit) :: ("starting_after", cursor) :: others)
                     "limit" = limit) by reflexivity.
  rewrite Hlimit, limit_parses.
  replace ((0 <? n) && (n <=? 100)) with true
    by (symmetry; apply andb_true_iff; split; [apply Z.ltb_lt|apply Z.leb_le]; lia).
  reflexivity.
Qed.

(** The request is the forward request of the repository, rendered. *)
Lemma listRequest_forward (cursor : string) :
  listRequest text format Unmarshal table limit others cursor
  = match forwardRequest Unmarshal table (api.queryActive others) n
            (api.ptrOrNil cursor) with
    | Returns outcome => Returns (api.listResponse text format outcome)
    | Panics p => Panics p
    end.
Proof.
  unfold listRequest, api.ListProducts, service.ListProducts, forwardRequest,
    outcome, run.
  rewrite listRequest_filter.
  now destruct (repository_many.ListWithFilters _ _ _ []) as [tr' [outcome|p]].
Qed.

Lemma fetchAll_rest (pages : nat) :
  forall (seen rest : list generated.Row) (cursor : string),
    listing table (api.queryActive others) = (seen ++ rest)%list ->
    standsAfter seen (api.ptrOrNil cursor) ->
    (length rest < pages)%nat ->
    exists products,
      Forall2 (fun row product => toProduct Unmarshal row = Ok product) rest products
      /\ fetchAll (listRequest text format Unmarshal table limit others) pages cursor
         = Some (api.convertToProductResponse format <$> products).
Proof.
  assert (Hrange : 1 <= n < GoInt.maxInt) by (unfold GoInt.maxInt; lia).
  induction pages as [|pages IH]; intros seen rest cursor Hlisting Hcursor Hlen;
    [lia|].
  destruct (forwardRequest_page Unmarshal table (api.queryActive others) n
              Hrange primary_key metadata_decodes seen rest (api.ptrOrNil cursor)
              Hlisting Hcursor)
    as (page & Hpage & Hitems & Hmore & Hnext).
  cbn [fetchAll]. rewrite listRequest_forward, Hpage.
  cbn [api.listResponse listDocument api.List api.renderJSON api.Payload
         api.NewListResponse api.HasMore api.NextCursor api.Data].
  destruct (models.HasMore page) eqn:Hhas.
  - destruct (Hnext eq_refl) as (earlier & row & Hsnoc & Hcursor').
    symmetry in Hmore. apply Z.ltb_lt in Hmore. unfold count in Hmore.
    assert (Hid : generated.Id row <> "").
    { pose proof (Forall_listing _ table (api.queryActive others) ids_not_empty)
        as Hids.
      rewrite Hlisting, <- (take_drop (Z.to_nat n) rest), Hsnoc in Hids.
      apply Forall_app in Hids as [_ Hids].
      apply Forall_app in Hids as [Hids _].
      apply Forall_app in Hids as [_ Hids].
      now apply Forall_cons in Hids as [Hids _]. }
    rewrite Hcursor'. cbn [api.cursorString].
    destruct (IH (seen ++ take (Z.to_nat n) rest)%list
                 (drop (Z.to_nat n) rest) (generated.Id row))
      as (more & Hrest & ->).
    + now rewrite <- app_assoc, take_drop.
    + unfold api.ptrOrNil.
      destruct (String.eqb_spec (generated.Id row) "") as [Hempty|_];
        [contradiction|].
      exists (seen ++ earlier)%list, row. split; [|reflexivity].
      now rewrite Hsnoc, app_assoc.
    + rewrite length_drop. lia.
    + exists (models.Products page ++ more)%list. split.
      * rewrite <- (take_drop (Z.to_nat n) rest). now apply Forall2_app.
      * now rewrite fmap_app.
  - symmetry in Hmore. apply Z.ltb_ge in Hmore. unfold count in Hmore.
    rewrite take_ge in Hitems by lia.
    now exists (models.Products page).
Qed.

End ListEndpoint.

(** X24. Paging through the list endpoint is complete. Over a table whose
    ids are distinct and not empty and whose metadata decodes, a client that
    asks the handler for pages of a size from 1 to 100, starts without a
    cursor and sends each [next_cursor] back as [starting_after] while
    [has_more] is set, collects the documents of all the listed rows, each
    once and in ascending order of id, as soon as it may make more requests
    than there are listed rows. *)
Theorem list_endpoint_paging_is_complete :
  forall (text : generated.DatabaseError -> string) (format : Time -> string)
         (Unmarshal : string -> result (option (gmap string string)))
         (table : list generated.Row) (limit : string) (n : Z)
         (others : api.Values) (pages : nat),
    strconv.Atoi limit = Some n ->
    1 <= n <= 100 ->
    NoDup (generated.Id <$> table) ->
    Forall (fun row => generated.Id row <> "") table ->
    Forall (decodable Unmarshal) table ->
    (length (listing table (api.queryActive others)) < pages)%nat ->
    exists products,
      Forall2 (fun row product => toProduct Unmarshal row = Ok product)
        (listing table (api.queryActive others)) products
      /\ fetchAll (listRequest text format Unmarshal table limit others) pages ""
         = Some (api.convertToProductResponse format <$> products)
      /\ api.ID <$> (api.convertToProductResponse format <$> products)
         = generated.Id <$> listing table (api.queryActive others).
Proof.
  intros text format Unmarshal table limit n others pages
    Hparse Hrange Hkey Hids Hdec Hpages.
  destruct (fetchAll_rest text format Unmarshal table limit n others
              Hparse Hrange Hkey Hids Hdec pages
              [] (listing table (api.queryActive others)) "" eq_refl eq_refl Hpages)
    as (products & Hall & Hrun).
  exists products. split; [exact Hall|]. split; [exact Hrun|].
  clear Hrun Hpages.
  induction Hall as [|row p rows ps Hp _ IH]; [reflexivity|].
  apply toProduct_fields in Hp as (Hid & _).
  rewrite !fmap_cons. cbn [api.convertToProductResponse api.ID].
  now rewrite Hid, IH.
Qed.

Lemma list_endpoint_paging_is_complete_witness :
  exists products,
    Forall2 (fun row product => toProduct example.Unmarshal row = Ok product)
      (listing example.table None) products
    /\ fetchAll (listRequest example.databaseErrorText example.formatRFC3339
                   example.Unmarshal example.table "2" []) 6 ""
       = Some (api.convertToProductResponse example.formatRFC3339 <$> products)
    /\ api.ID <$> (api.convertToProductResponse example.formatRFC3339 <$> products)
       = ["prod_001"; "prod_002"; "prod_003"; "prod_004"; "prod_005"].
Proof.
  assert (Hrange : 1 <= 2 <= 100) by lia.
  assert (Hkey : NoDup (generated.Id <$> example.table)).
  { apply (bool_decide_unpack _). vm_compute. exact I. }
  assert (Hids : Forall (fun row => generated.Id row <> "") example.table).
  { repeat constructor; discriminate. }
  assert (Hpages : (length (listing example.table (api.queryActive [])) < 6)%nat).
  { vm_compute. lia. }
  exact (list_endpoint_paging_is_complete example.databaseErrorText
           example.formatRFC3339 example.Unmarshal example.table "2" 2 [] 6
           eq_refl Hrange Hkey Hids
           (example_rows_decodable
              ["prod_003"; "prod_001"; "prod_005"; "prod_002"; "prod_004"])
           Hpages).
Defined.
